(** * Traffic-Buddy backend: conversation engine, division resolution,
      report ingestion and capture-link guard

    A shallow embedding of the server code (webhook handler, report and
    suggestion endpoints, location and link checks, short-link redirect,
    [findDivisionForLocation], [isPointInPolygon], the session manager
    and the WhatsApp helpers) together with the properties the design
    document states about them and further properties of the code.

    Conventions of the embedding.
    - JavaScript values that reach the modelled functions are values of
      [jsval]; truthiness and [parseFloat] are written out.
    - JavaScript numbers are exact rationals plus [NaN]: rounding and the
      infinities of IEEE doubles are outside the model.  The module
      [Doubles] evaluates the test of [isPointInPolygon] with every
      operation rounded, to show on which inputs the two differ.
    - MongoDB collections are lists of documents in natural (insertion)
      order; [findOne] returns the first match.  Database calls do not
      fail, and a document is saved as it is given: the theorems that
      state that a report is stored name the inputs for which the schema
      of the reports accepts it.  Sending a message through the chat
      transport may fail, as decided by an oracle of the environment.
    - The location cache is a finite map from cache keys to entries; the
      24-hour expiry of its entries is not modelled.
    - A request is handled at one instant of the clock, and requests do
      not interleave.
    - The administrative endpoints, the join-team form and the delivery
      status callback are not part of the embedding. *)

From Stdlib Require Import ZArith QArith Qabs Ascii String DecimalString List Bool Lia Lqa Permutation.
From stdpp Require Import base option list strings gmap.

Local Open Scope string_scope.
Local Open Scope list_scope.

(** ** JavaScript values *)

Module JS.

(** A number: an exact rational or NaN. *)
Inductive num : Type :=
| NaN
| Fin (q : Q).

Inductive jsval : Type :=
| JUndefined
| JNull
| JBool (b : bool)
| JNumber (n : num)
| JString (s : string).

Definition Qltb (a b : Q) : bool := negb (Qle_bool b a).

(** [!!v]: the empty string, 0, NaN, null, undefined and false are falsy. *)
Definition truthy (v : jsval) : bool :=
  match v with
  | JUndefined | JNull => false
  | JBool b => b
  | JNumber NaN => false
  | JNumber (Fin q) => negb (Qeq_bool q 0)
  | JString s => negb (String.eqb s "")
  end.

(** *** parseFloat *)

Definition is_ws (c : ascii) : bool :=
  let n := nat_of_ascii c in
  (n =? 32)%nat || ((9 <=? n)%nat && (n <=? 13)%nat).

Fixpoint trimStart (s : string) : string :=
  match s with
  | EmptyString => EmptyString
  | String c r => if is_ws c then trimStart r else s
  end.

Definition digit_of (c : ascii) : option Z :=
  let n := nat_of_ascii c in
  if ((48 <=? n)%nat && (n <=? 57)%nat) then Some (Z.of_nat n - 48)%Z else None.

(** Reads a maximal run of decimal digits: its value, its length and the
    rest of the string. *)
Fixpoint take_digits (s : string) (acc : Z) (len : nat) : Z * nat * string :=
  match s with
  | EmptyString => (acc, len, s)
  | String c r =>
      match digit_of c with
      | Some d => take_digits r (10 * acc + d)%Z (S len)
      | None => (acc, len, s)
      end
  end.

(** The exponent part [[eE][+-]?digits], 0 when there is none. *)
Definition take_exponent (s : string) : Z :=
  match s with
  | String c r =>
      if (Ascii.eqb c "e" || Ascii.eqb c "E")%bool then
        let '(neg, r1) :=
          match r with
          | String "-" r' => (true, r')
          | String "+" r' => (false, r')
          | _ => (false, r)
          end in
        let '(e, n, _) := take_digits r1 0 0 in
        if (n =? 0)%nat then 0%Z else if neg then (- e)%Z else e
      else 0%Z
  | EmptyString => 0%Z
  end.

(** [parseFloat] of a string: leading white space is skipped, then the
    longest prefix that is a decimal literal is read; no such prefix gives
    NaN. *)
Definition parseFloat_string (s : string) : num :=
  let s0 := trimStart s in
  let '(neg, s1) :=
    match s0 with
    | String "-" r => (true, r)
    | String "+" r => (false, r)
    | _ => (false, s0)
    end in
  let '(ip, ni, s2) := take_digits s1 0 0 in
  let '(fp, nf, s3) :=
    match s2 with
    | String "." r => take_digits r 0 0
    | _ => (0%Z, 0%nat, s2)
    end in
  if (ni + nf =? 0)%nat then NaN
  else
    let mant := (inject_Z ip + inject_Z fp / inject_Z (10 ^ Z.of_nat nf))%Q in
    let v := (mant * Qpower (inject_Z 10) (take_exponent s3))%Q in
    Fin (Qred (if neg then - v else v)%Q).

(** [parseFloat(v)]: the argument is converted to a string first, so a
    number is read back as itself and the other non-strings give NaN. *)
Definition parseFloat (v : jsval) : num :=
  match v with
  | JNumber n => n
  | JString s => parseFloat_string s
  | JUndefined | JNull | JBool _ => NaN
  end.

(** *** Strings *)

Definition lower_ascii (c : ascii) : ascii :=
  let n := nat_of_ascii c in
  if ((65 <=? n)%nat && (n <=? 90)%nat) then ascii_of_nat (n + 32) else c.

(** [s.toLowerCase()] on the ASCII letters. *)
Fixpoint toLowerCase (s : string) : string :=
  match s with
  | EmptyString => EmptyString
  | String c r => String (lower_ascii c) (toLowerCase r)
  end.

(** [s.startsWith(p)] *)
Definition startsWith (p s : string) : bool := String.prefix p s.

(** [s.startsWith(p)] ignoring the case of ASCII letters. *)
Definition startsWith_ci (p s : string) : bool :=
  String.prefix (toLowerCase p) (toLowerCase s).

(** [s.includes(p)] *)
Fixpoint includes (p s : string) : bool :=
  String.prefix p s ||
  match s with
  | EmptyString => false
  | String _ r => includes p r
  end.

Fixpoint dropWhile_ascii (f : ascii -> bool) (s : string) : string :=
  match s with
  | EmptyString => EmptyString
  | String c r => if f c then dropWhile_ascii f r else s
  end.

Fixpoint drop_string (n : nat) (s : string) : string :=
  match n, s with
  | O, _ => s
  | S n', String _ r => drop_string n' r
  | S _, EmptyString => EmptyString
  end.

Fixpoint filter_string (f : ascii -> bool) (s : string) : string :=
  match s with
  | EmptyString => EmptyString
  | String c r => if f c then String c (filter_string f r) else filter_string f r
  end.

Definition is_space (c : ascii) : bool := Ascii.eqb c " ".

(** *** Object literals *)

(** The names that every object literal inherits from [Object.prototype]:
    a lookup [table[k]] answers for them as well, with a function or an
    object instead of [undefined]. *)
Definition inherited_member (k : string) : bool :=
  existsb (String.eqb k)
    ["__proto__"; "constructor"; "hasOwnProperty"; "isPrototypeOf";
     "propertyIsEnumerable"; "toLocaleString"; "toString"; "valueOf";
     "__defineGetter__"; "__defineSetter__"; "__lookupGetter__"; "__lookupSetter__"].

End JS.

Import JS.

(** ** Point in polygon (server.js, [isPointInPolygon]) *)

Module Geo.

(** A vertex is a JavaScript array, normally [[lng, lat]]; a ring is an
    array of vertices. *)
Definition vertex : Type := list jsval.
Definition ring : Type := list vertex.

(** [a[i]] on an array: [undefined] out of range. *)
Definition idx (a : list jsval) (i : nat) : jsval := nth i a JUndefined.

(** [polygon[i]] for an index of the loop, which stays in range. *)
Definition vertex_at (polygon : ring) (i : nat) : vertex := nth i polygon [].

(** The test of one edge, from the vertex [vj] to the vertex [vi], once all
    four coordinates are numbers:
    [((yi > y) !== (yj > y)) && (x < (xj - xi) * (y - yi) / (yj - yi) + xi)].
    The right operand of [&&] is evaluated only when the left one holds,
    and then [yj - yi] is not zero. *)
Definition intersect (xi yi xj yj x y : Q) : bool :=
  if negb (Bool.eqb (Qltb y yi) (Qltb y yj))
  then Qltb x ((xj - xi) * (y - yi) / (yj - yi) + xi)%Q
  else false.

(** One iteration of the loop body on the vertices [vi = polygon[i]] and
    [vj = polygon[j]]: the new value of [inside]. *)
Definition edge_step (x y : Q) (vi vj : vertex) (inside : bool) : bool :=
  match parseFloat (idx vi 0), parseFloat (idx vi 1),
        parseFloat (idx vj 0), parseFloat (idx vj 1) with
  | Fin xi, Fin yi, Fin xj, Fin yj =>
      if intersect xi yi xj yj x y then negb inside else inside
  | _, _, _, _ => inside (* continue *)
  end.

(** [for (let i = 0, j = polygon.length - 1; i < polygon.length; j = i++)]:
    [k] iterations remain, the current indices are [i] and [j]. *)
Fixpoint pip_loop (polygon : ring) (x y : Q) (k i j : nat) (inside : bool) : bool :=
  match k with
  | O => inside
  | S k' =>
      pip_loop polygon x y k' (S i) i
        (edge_step x y (vertex_at polygon i) (vertex_at polygon j) inside)
  end.

Definition isPointInPolygon (point : list jsval) (polygon : ring) : bool :=
  if ((length point <? 2)%nat || (length polygon <? 3)%nat)%bool then false
  else
    match parseFloat (idx point 0), parseFloat (idx point 1) with
    | Fin x, Fin y =>
        pip_loop polygon x y (length polygon) 0 (length polygon - 1) false
    | _, _ => false
    end.

(** The edges the loop visits, as pairs (previous vertex, current vertex),
    starting with the closing edge from the last vertex to the first. *)
Fixpoint edges_from (prev : vertex) (l : ring) : list (vertex * vertex) :=
  match l with
  | [] => []
  | v :: t => (prev, v) :: edges_from v t
  end.

Definition edges (l : ring) : list (vertex * vertex) :=
  edges_from (List.last l []) l.

(** Whether the edge toggles [inside]. *)
Definition toggles (x y : Q) (e : vertex * vertex) : bool :=
  edge_step x y (snd e) (fst e) false.

Definition parity (x y : Q) (es : list (vertex * vertex)) : bool :=
  fold_right (fun e b => xorb (toggles x y e) b) false es.

(** The axis-parallel rectangle with corners (x0, y0) and (x1, y1), as a
    ring. *)
Definition rectangle (x0 y0 x1 y1 : Q) : ring :=
  [[JNumber (Fin x0); JNumber (Fin y0)]; [JNumber (Fin x1); JNumber (Fin y0)];
   [JNumber (Fin x1); JNumber (Fin y1)]; [JNumber (Fin x0); JNumber (Fin y1)]].

(** *** Strict containment, as the design document words it

    Containment is decided by the even-odd rule, evaluated in exact
    arithmetic; a point is strictly inside (outside) a ring when the rule
    puts it inside (outside) and it lies on no edge of the ring. *)






End Geo.

Import Geo.

(** ** The same test in double precision

    The server computes in IEEE 754 doubles: a comparison is exact, and an
    arithmetic operation returns the double nearest to its exact result,
    ties going to the even significand.  [Geo] evaluates the test of an
    edge in exact arithmetic; this module evaluates the same expression
    with every operation rounded.  It serves to exhibit inputs on which
    the two differ; overflow is outside it. *)

Module Doubles.










End Doubles.

(** ** Documents, stores and the effects of a request *)

Module Model.

(** The eight conversation states ([current_state] of a session). *)
Inductive State : Type :=
| LANGUAGE_SELECT
| NAME_COLLECTION
| MENU
| AWAITING_REPORT
| AWAITING_LOCATION
| AWAITING_SUGGESTION_TEXT
| AWAITING_JOIN
| JOIN_TEAM_LINK_SENT.

Definition State_eqb (a b : State) : bool :=
  match a, b with
  | LANGUAGE_SELECT, LANGUAGE_SELECT
  | NAME_COLLECTION, NAME_COLLECTION
  | MENU, MENU
  | AWAITING_REPORT, AWAITING_REPORT
  | AWAITING_LOCATION, AWAITING_LOCATION
  | AWAITING_SUGGESTION_TEXT, AWAITING_SUGGESTION_TEXT
  | AWAITING_JOIN, AWAITING_JOIN
  | JOIN_TEAM_LINK_SENT, JOIN_TEAM_LINK_SENT => true
  | _, _ => false
  end.

(** A nullable string field is truthy when it is set and not empty. *)
Definition truthy_str (o : option string) : bool :=
  match o with
  | Some s => negb (String.eqb s "")
  | None => false
  end.

(** [o || d] for a nullable string. *)
Definition or_str (o : option string) (d : string) : string :=
  match o with
  | Some s => if String.eqb s "" then d else s
  | None => d
  end.

(** Session document (models/Session). *)
Record Session : Type := mkSession {
  user_id : string;
  current_state : State;
  last_option : option string;
  language : string;
  last_interaction : Z;
  user_name : option string;
  last_description : option string;
  last_photo_url : option string
}.

(** An officer of a division; an absent phone number is the empty string. *)
Record Officer : Type := mkOfficer {
  officer_id : string;
  officer_name : string;
  phone : string;
  alternate_phone : string;
  isActive : bool
}.

(** Division document: [boundaries] is [boundaries.coordinates], an array of
    rings of which only the first is used; [None] when it is missing. *)
Record Division : Type := mkDivision {
  division_id : string;
  division_name : string;
  boundaries : option (list ring);
  officers : list Officer
}.

Record Location : Type := mkLocation {
  latitude : num;
  longitude : num;
  address : string
}.

Record NotifiedContact : Type := mkContact {
  nc_officer_id : option string;
  nc_name : option string;
  nc_phone : string;
  nc_time : Z;
  nc_message_sid : option string
}.

(** Report document (models/Query.js). *)
Record Query : Type := mkQuery {
  query_id : nat;
  q_user_id : string;
  q_user_name : string;
  query_type : string;
  q_name : option string;
  q_email : option string;
  q_phone : option string;
  q_location : option Location;
  description : option string;
  photo_url : option string;
  status : string;
  timestamp : Z;
  division : option string;
  divisionName : option string;
  divisionNotified : bool;
  divisionOfficersNotified : list NotifiedContact
}.

(** Capture link document (models/ReportLink). *)
Record ReportLink : Type := mkLink {
  linkId : string;
  link_userId : string;
  reportType : string;
  createdAt : Z;
  used : bool;
  usedAt : option Z
}.

(** Value stored in the location cache: [{ _id, name }] or
    [{ outside: true }]. *)
Inductive CacheEntry : Type :=
| CachedDivision (id name : string)
| CachedOutside.

(** What a request does, in order. *)
Inductive Event : Type :=
| EvMessage (to body : string) (delivered : bool)  (* client.messages.create *)
| EvEmail (q : Query)                               (* sendQueryNotification *)
| EvUpload (file : string) (ok : bool)              (* uploadImageToR2 *)
| EvDivisionFind                                    (* Division.find() *)
| EvDivisionFindById (id : string)                  (* Division.findById(id) *)
| EvQuerySaved (q : Query)                          (* query.save() *)
| EvQueryUpdated (id : nat)                         (* Query.findByIdAndUpdate *)
| EvSessionSaved (s : Session)                      (* session.save() *)
| EvLinkUpdated (id : string).                      (* ReportLink.findOneAndUpdate *)

Record World : Type := mkWorld {
  sessions : list Session;
  queries : list Query;
  links : list ReportLink;
  locationCache : gmap string CacheEntry;
  trace : list Event;
  next_id : nat
}.

Definition set_sessions (f : list Session -> list Session) (w : World) : World :=
  mkWorld (f (sessions w)) (queries w) (links w) (locationCache w) (trace w) (next_id w).
Definition set_queries (f : list Query -> list Query) (w : World) : World :=
  mkWorld (sessions w) (f (queries w)) (links w) (locationCache w) (trace w) (next_id w).
Definition set_links (f : list ReportLink -> list ReportLink) (w : World) : World :=
  mkWorld (sessions w) (queries w) (f (links w)) (locationCache w) (trace w) (next_id w).
Definition set_cache (f : gmap string CacheEntry -> gmap string CacheEntry) (w : World) : World :=
  mkWorld (sessions w) (queries w) (links w) (f (locationCache w)) (trace w) (next_id w).
Definition log (e : Event) (w : World) : World :=
  mkWorld (sessions w) (queries w) (links w) (locationCache w) (trace w ++ [e]) (next_id w).
Definition bump_id (w : World) : World :=
  mkWorld (sessions w) (queries w) (links w) (locationCache w) (trace w) (S (next_id w)).

(** *** The monad of a request: state and exceptions *)

Inductive Result (A : Type) : Type :=
| Ok (a : A)
| Throw (error : string).
Arguments Ok {A} a.
Arguments Throw {A} error.

Definition M (A : Type) : Type := World -> Result A * World.

Definition ret {A} (a : A) : M A := fun w => (Ok a, w).
Definition throw {A} (e : string) : M A := fun w => (Throw e, w).
Definition bind {A B} (m : M A) (k : A -> M B) : M B :=
  fun w =>
    match m w with
    | (Ok a, w') => k a w'
    | (Throw e, w') => (Throw e, w')
    end.
(** [try { m } catch (error) { h error }] *)
Definition try_catch {A} (m : M A) (h : string -> M A) : M A :=
  fun w =>
    match m w with
    | (Ok a, w') => (Ok a, w')
    | (Throw e, w') => h e w'
    end.
Definition get : M World := fun w => (Ok w, w).
Definition modify (f : World -> World) : M unit := fun w => (Ok tt, f w).
Definition emit (e : Event) : M unit := modify (log e).

Declare Scope m_scope.
Delimit Scope m_scope with M.
Notation "x <- m ;; k" := (bind m (fun x => k))
  (at level 100, m at next level, right associativity) : m_scope.
Notation "m ;;; k" := (bind m (fun _ => k))
  (at level 100, right associativity) : m_scope.
Local Open Scope m_scope.

(** An HTTP response: status code and body. *)
Inductive Body : Type :=
| BText (s : string)
| BJson (fields : list (string * jsval)).

Record Response : Type := mkResponse {
  resp_status : nat;
  resp_body : Body
}.

(** The collaborators whose code is outside the modelled files, and the
    data that is fixed during a request. *)
Record Env : Type := mkEnv {
  (** the Division collection *)
  divisions : list Division;
  (** the clock, in milliseconds *)
  now : Z;
  (** whether the chat transport accepts a message for a recipient *)
  deliver : string -> string -> bool;
  (** the message id the transport returns *)
  message_sid : string -> string -> string;
  (** utils/language: template lookup *)
  getText : string -> string -> list string -> string;
  getLanguagePrompt : string -> string;
  (** utils/deeplink: the id of the capture link generated for a user and
      a report type ([None]: the generation fails), the URL that carries
      a link id, and the instruction text *)
  new_linkId : string -> string -> option string;
  capture_url : string -> string;
  getReportInstructionMessage : string -> string -> string;
  (** utils/imageupload: the URL of the stored image, or a failure *)
  uploadImageToR2 : string -> option string;
  (** [process.env.SERVER_URL] *)
  SERVER_URL : string;
  (** built-ins: [encodeURIComponent], and the random strings of a request *)
  encodeURIComponent : string -> string;
  random_token : string;
  requestId : string
}.

End Model.

Import Model.
Local Open Scope m_scope.

(** ** String helpers of the server *)

Module Str.

Definition nl : string := String (ascii_of_nat 10) EmptyString.

Definition dq : string := String (ascii_of_nat 34) EmptyString.

Definition show_nat (n : nat) : string := NilZero.string_of_uint (Nat.to_uint n).
Definition show_Z_nonneg (z : Z) : string := NilZero.string_of_uint (N.to_uint (Z.to_N z)).

Definition is_digit (c : ascii) : bool :=
  match digit_of c with Some _ => true | None => false end.

(** The scanner behind [s.replace(/whatsapp:[ ]*/i, '')], with or without
    the [g] flag. *)
Inductive RMode : Type :=
| Scanning
| Matching (left : nat)   (* inside an occurrence of "whatsapp:" *)
| Spaces                  (* in the blanks that follow an occurrence *)
| Copying.                (* after the only replacement, without [g] *)

Fixpoint replace_whatsapp (global : bool) (m : RMode) (s : string) : string :=
  match s with
  | EmptyString => EmptyString
  | String c r =>
      let scan :=
        if startsWith_ci "whatsapp:" s
        then replace_whatsapp global (Matching 8) r
        else String c (replace_whatsapp global Scanning r) in
      match m with
      | Copying => s
      | Matching (S n) => replace_whatsapp global (Matching n) r
      | Matching O | Spaces =>
          if is_space c then replace_whatsapp global Spaces r
          else if global then scan else s
      | Scanning => scan
      end
  end.

(** utils/userHelper.js *)
Definition normalizeUserId (userId : string) (includePrefix : bool) : string :=
  if String.eqb userId "" then
    (if includePrefix then "whatsapp:+unknown" else "unknown")
  else
    let cleanId := replace_whatsapp true Scanning userId in
    let cleanId := dropWhile_ascii (Ascii.eqb "+") cleanId in
    if includePrefix then "whatsapp:+" +:+ cleanId else cleanId.

(** [userId.replace(/whatsapp:[ ]*/i, '').replace(/^\+/, '')] *)
Definition cleanUserId_for_link (userId : string) : string :=
  let s := replace_whatsapp false Scanning userId in
  match s with
  | String "+" r => r
  | _ => s
  end.

(** [cleanUserId.replace('whatsapp:+', '')]: the first occurrence of the
    literal is removed. *)
Fixpoint cleanUserId_for_name (s : string) : string :=
  match s with
  | EmptyString => EmptyString
  | String c r =>
      if startsWith "whatsapp:+" s then drop_string 9 r
      else String c (cleanUserId_for_name r)
  end.

(** utils/whatsapp.js, [formatPhoneNumber] for a phone that is set: the
    function starts with [if (!phone) return null], and its callers test
    the phone before they call it. *)
Definition formatPhoneNumber (phone : string) : string :=
  let cleaned := filter_string is_digit phone in
  let cleaned := dropWhile_ascii (Ascii.eqb "0") cleaned in
  let cleaned :=
    if (negb (startsWith "91" cleaned) && (String.length cleaned =? 10)%nat)%bool
    then "91" +:+ cleaned else cleaned in
  if negb (startsWith "whatsapp:" phone) then "whatsapp:+" +:+ cleaned else phone.

(** [x.toFixed(6)]: the sign, the integer part and six decimals of the
    nearest multiple of 10^-6, ties rounded up in absolute value. *)
Definition pad6 (z : Z) : string :=
  let d := show_Z_nonneg z in
  drop_string (String.length d) "000000" +:+ d.

Definition toFixed6 (q : Q) : string :=
  let a := Qabs q in
  let n := ((2 * Qnum a * 1000000 + Zpos (Qden a)) / (2 * Zpos (Qden a)))%Z in
  (if Qltb q 0 then "-" else "") +:+
  show_Z_nonneg (n / 1000000) +:+ "." +:+ pad6 (n mod 1000000).

(** [`${lat.toFixed(6)},${lng.toFixed(6)}`] *)
Definition cacheKey (lat lng : Q) : string :=
  toFixed6 lat +:+ "," +:+ toFixed6 lng.

Fixpoint split_on (sep : ascii) (s : string) : list string :=
  match s with
  | EmptyString => [EmptyString]
  | String c r =>
      if Ascii.eqb c sep then EmptyString :: split_on sep r
      else
        match split_on sep r with
        | [] => [String c EmptyString]
        | h :: t => String c h :: t
        end
  end.

Fixpoint rev_string (s : string) : string :=
  match s with
  | EmptyString => EmptyString
  | String c r => rev_string r +:+ String c EmptyString
  end.

(** [s.trim()] on ASCII white space. *)
Definition trim (s : string) : string :=
  rev_string (trimStart (rev_string (trimStart s))).

(** The table of report categories ([reportTypes[reportType] || 'Report']),
    for a key that is not an inherited member of the table. *)
Definition reportTypes (k : string) : option string :=
  if String.eqb k "1" then Some "Traffic Violation"
  else if String.eqb k "2" then Some "Traffic Congestion"
  else if String.eqb k "3" then Some "Irregularity"
  else if String.eqb k "4" then Some "Road Damage"
  else if String.eqb k "5" then Some "Illegal Parking"
  else if String.eqb k "6" then Some "Traffic Signal Issue"
  else if String.eqb k "7" then Some "Suggestion"
  else None.

Definition getReportTypeText (reportType : string) : string :=
  match reportTypes reportType with Some t => t | None => "Report" end.

Definition show_bool (b : bool) : string := if b then "true" else "false".

End Str.

Import Str.

(** ** The server *)

Module Server.

Section WithEnv.

Variable env : Env.

(** *** Collections *)

(** [new Query(...)] / [new Session(...)]: a fresh document id. *)
Definition fresh_id : M nat :=
  fun w => (Ok (next_id w), bump_id w).

(** [doc.save()] on a report that the schema of models/Query.js accepts
    (a text as type, numbers as coordinates): replaces the stored document
    with the same id, or inserts it. *)
Fixpoint upsert_query (q : Query) (l : list Query) : list Query :=
  match l with
  | [] => [q]
  | q' :: t => if (query_id q' =? query_id q)%nat then q :: t else q' :: upsert_query q t
  end.

Definition save_query (q : Query) : M unit :=
  modify (set_queries (upsert_query q)) ;;; emit (EvQuerySaved q).

(** [Query.findByIdAndUpdate(id, { divisionNotified: true,
    divisionOfficersNotified })] *)
Definition mark_notified (contacts : list NotifiedContact) (q : Query) : Query :=
  mkQuery (query_id q) (q_user_id q) (q_user_name q) (query_type q) (q_name q)
    (q_email q) (q_phone q) (q_location q) (description q) (photo_url q)
    (status q) (timestamp q) (division q) (divisionName q) true contacts.

Definition update_notified (id : nat) (contacts : list NotifiedContact) : M unit :=
  modify (set_queries (map (fun q =>
    if (query_id q =? id)%nat then mark_notified contacts q else q))) ;;;
  emit (EvQueryUpdated id).

(** Sessions are identified by their user id, which is unique in the
    collection. *)
Fixpoint upsert_session (s : Session) (l : list Session) : list Session :=
  match l with
  | [] => [s]
  | s' :: t =>
      if String.eqb (user_id s') (user_id s) then s :: t else s' :: upsert_session s t
  end.

Definition save_session (s : Session) : M unit :=
  modify (set_sessions (upsert_session s)) ;;; emit (EvSessionSaved s).

(** [Session.findOne({ user_id })] *)
Definition find_session (userId : string) (w : World) : option Session :=
  List.find (fun s => String.eqb (user_id s) userId) (sessions w).

(** [Session.findOne({ user_id: { $regex: pat } })] for a pattern without
    regular-expression metacharacters. *)
Definition find_session_like (pat : string) (w : World) : option Session :=
  List.find (fun s => includes pat (user_id s)) (sessions w).

(** *** utils/whatsapp.js *)

(** [client.messages.create({ from, to, body })] *)
Definition messages_create (to body : string) : M string :=
  if deliver env to body
  then emit (EvMessage to body true) ;;; ret (message_sid env to body)
  else emit (EvMessage to body false) ;;; throw "message not accepted".

Definition sendWhatsAppMessage (to body : string) : M string :=
  if String.eqb to "" then throw "Invalid recipient"
  else messages_create (normalizeUserId to true) body.

Definition officer_message (query : Query) (div : Division) : string :=
  let queryTypeText :=
    match reportTypes (query_type query) with
    | Some t => t
    | None => query_type query
    end in
  let reporterName := if String.eqb (q_user_name query) "" then "Anonymous" else q_user_name query in
  let addr :=
    match q_location query with
    | Some l => if String.eqb (address l) "" then "See map link" else address l
    | None => "See map link"
    end in
  "🚨 New Traffic Report in " +:+ division_name div +:+ nl +:+ nl +:+
  "Type: " +:+ queryTypeText +:+ nl +:+
  "Location: " +:+ addr +:+ nl +:+
  "Description: " +:+ default "undefined" (description query) +:+ nl +:+ nl +:+
  "Reported by: " +:+ reporterName +:+ nl +:+ nl +:+
  "To resolve this issue, click: " +:+ SERVER_URL env +:+ "/resolve.html?id=" +:+
  show_nat (query_id query).

Definition contact_of (o : Officer) (to sid : string) : NotifiedContact :=
  mkContact (Some (if String.eqb (officer_id o) "" then "unknown" else officer_id o))
    (Some (if String.eqb (officer_name o) "" then "Unknown" else officer_name o))
    to (now env) (Some sid).

(** The attempt on the alternate number of one officer. *)
Definition notify_alternate (msg : string) (o : Officer)
    (acc : list NotifiedContact) : M (list NotifiedContact) :=
  if (negb (String.eqb (alternate_phone o) "") &&
      negb (String.eqb (alternate_phone o) (phone o)))%bool
  then
    let to := formatPhoneNumber (alternate_phone o) in
    try_catch
      (sid <- messages_create to msg ;; ret (acc ++ [contact_of o to sid]))
      (fun _ => ret acc)
  else ret acc.

(** The body of the loop over the officers to notify: the primary number
    first, the alternate one when the primary is absent or fails. *)
Definition notify_officer (msg : string) (o : Officer)
    (acc : list NotifiedContact) : M (list NotifiedContact) :=
  if negb (String.eqb (phone o) "") then
    let to := formatPhoneNumber (phone o) in
    r <- try_catch
           (sid <- messages_create to msg ;; ret (Some (acc ++ [contact_of o to sid])))
           (fun _ => ret None) ;;
    match r with
    | Some acc' => ret acc' (* continue *)
    | None => notify_alternate msg o acc
    end
  else notify_alternate msg o acc.

Fixpoint notify_officers (msg : string) (os : list Officer)
    (acc : list NotifiedContact) : M (list NotifiedContact) :=
  match os with
  | [] => ret acc
  | o :: t => acc' <- notify_officer msg o acc ;; notify_officers msg t acc'
  end.

(** [officers.filter(o => o.isActive).slice(0, 2)] *)
Definition officersToNotify (div : Division) : list Officer :=
  take 2 (List.filter isActive (officers div)).

Definition notifyDivisionOfficers (query : Query) (div : option Division)
    : M (list NotifiedContact) :=
  match div with
  | None => ret []
  | Some d =>
      if (length (officers d) =? 0)%nat then ret []
      else
        let activeOfficers := officersToNotify d in
        if (length activeOfficers =? 0)%nat then ret []
        else notify_officers (officer_message query d) activeOfficers []
  end.

(** *** Division resolution (server.js, [findDivisionForLocation]) *)

(** The loop over the divisions: the first one whose outer ring has at
    least three vertices and contains the point. *)
Fixpoint scan_divisions (lng lat : Q) (ds : list Division) : option Division :=
  match ds with
  | [] => None
  | d :: t =>
      match boundaries d with
      | None | Some [] => scan_divisions lng lat t
      | Some (polygon :: _) =>
          if (length polygon <? 3)%nat then scan_divisions lng lat t
          else if isPointInPolygon [JNumber (Fin lng); JNumber (Fin lat)] polygon
               then Some d
               else scan_divisions lng lat t
      end
  end.

(** The test the loop applies to one division. *)
Definition division_contains (lng lat : Q) (d : Division) : bool :=
  match boundaries d with
  | Some (polygon :: _) =>
      (3 <=? length polygon)%nat &&
      isPointInPolygon [JNumber (Fin lng); JNumber (Fin lat)] polygon
  | _ => false
  end.


(** [Division.findById(id)] *)
Definition findById (id : string) : M (option Division) :=
  emit (EvDivisionFindById id) ;;;
  ret (List.find (fun d => String.eqb (division_id d) id) (divisions env)).

(** [Division.find()] *)
Definition find_all_divisions : M (list Division) :=
  emit EvDivisionFind ;;; ret (divisions env).

Definition findDivisionForLocation (latitude longitude : jsval) : M (option Division) :=
  try_catch
    (if (negb (truthy latitude) || negb (truthy longitude))%bool then ret None
     else
       match parseFloat latitude, parseFloat longitude with
       | Fin lat, Fin lng =>
           let key := cacheKey lat lng in
           w <- get ;;
           match locationCache w !! key with
           | Some (CachedDivision id _) => findById id
           | Some CachedOutside => ret None
           | None =>
               ds <- find_all_divisions ;;
               match scan_divisions lng lat ds with
               | Some d =>
                   modify (set_cache (insert key
                     (CachedDivision (division_id d) (division_name d)))) ;;;
                   ret (Some d)
               | None =>
                   modify (set_cache (insert key CachedOutside)) ;;;
                   ret None
               end
           end
       | _, _ => ret None
       end)
    (fun _ => ret None).

(** *** utils/sessionManager.js *)

Definition conversationTimeout : Z := 1 * 60 * 60 * 1000.

Definition getUserSession (userId : string) : M Session :=
  w <- get ;;
  match find_session userId w with
  | None =>
      let session :=
        mkSession userId LANGUAGE_SELECT None "en" (now env) None None None in
      save_session session ;;; ret session
  | Some session =>
      if (conversationTimeout <? now env - last_interaction session)%Z then
        let st := if truthy_str (user_name session) then MENU else LANGUAGE_SELECT in
        let session :=
          mkSession (user_id session) st None (language session) (now env)
            (user_name session) (last_description session) (last_photo_url session) in
        save_session session ;;; ret session
      else
        let session :=
          mkSession (user_id session) (current_state session) (last_option session)
            (language session) (now env) (user_name session)
            (last_description session) (last_photo_url session) in
        save_session session ;;; ret session
  end.

(** The session object is mutated in place and saved; the mutated object
    is returned so that the caller keeps working on it. *)
Definition updateUserSession (session : Session) (newState : State)
    (newLastOption : option string) (newLanguage : option string) : M Session :=
  let session :=
    mkSession (user_id session) newState newLastOption
      (match newLanguage with
       | Some l => if String.eqb l "" then language session else l
       | None => language session
       end)
      (now env) (user_name session) (last_description session)
      (last_photo_url session) in
  save_session session ;;; ret session.

(** *** Capture links (server.js, [/api/check-link-validity]) *)

(** The filter [{ linkId, $or: [{ userId: id }, { userId: '+' + id }] }]. *)
Definition link_matches (lid cleanUserId : string) (l : ReportLink) : bool :=
  String.eqb (linkId l) lid &&
  (String.eqb (link_userId l) cleanUserId ||
   String.eqb (link_userId l) ("+" +:+ cleanUserId)).

Definition find_link (lid cleanUserId : string) (w : World) : option ReportLink :=
  List.find (link_matches lid cleanUserId) (links w).

Definition json_valid_false (msg : string) : Body :=
  BJson [("valid", JBool false); ("message", JString msg)].

(** [Math.abs(now - linkCreatedAt) / 60000], in minutes. *)
Definition diffMinutes (l : ReportLink) : Q :=
  (inject_Z (Z.abs (now env - createdAt l)) / inject_Z 60000)%Q.

Definition check_link_validity (q_linkId q_userId : option string) : M Response :=
  try_catch
    (if (negb (truthy_str q_linkId) || negb (truthy_str q_userId))%bool then
       ret (mkResponse 400 (json_valid_false "Missing required parameters"))
     else
       let cleanUserId := cleanUserId_for_link (or_str q_userId "") in
       w <- get ;;
       match find_link (or_str q_linkId "") cleanUserId w with
       | None =>
           ret (mkResponse 404 (json_valid_false "This reporting link was not found"))
       | Some link =>
           if used link then
             ret (mkResponse 403
                    (json_valid_false "This reporting link has already been used"))
           else if Qltb 5 (diffMinutes link) then
             ret (mkResponse 403 (json_valid_false "This reporting link has expired"))
           else ret (mkResponse 200 (BJson [("valid", JBool true)]))
       end)
    (fun _ =>
       ret (mkResponse 500
              (json_valid_false "An error occurred checking the link validity"))).

(** [ReportLink.findOneAndUpdate(filter, { $set: { used: true, usedAt } })]:
    the first matching link is updated; the result is the link found. *)
Fixpoint mark_used (lid cleanUserId : string) (l : list ReportLink) : list ReportLink :=
  match l with
  | [] => []
  | x :: t =>
      if link_matches lid cleanUserId x
      then mkLink (linkId x) (link_userId x) (reportType x) (createdAt x) true
             (Some (now env)) :: t
      else x :: mark_used lid cleanUserId t
  end.

Definition findOneAndUpdate_used (lid cleanUserId : string) : M (option ReportLink) :=
  w <- get ;;
  modify (set_links (mark_used lid cleanUserId)) ;;;
  emit (EvLinkUpdated lid) ;;;
  ret (find_link lid cleanUserId w).

(** *** Report processing (server.js) *)

Record ProcessingResult : Type := mkProcessingResult {
  pr_success : bool;
  pr_queryId : option nat;
  pr_division : option string;
  pr_error : option string
}.

(** The name stored in the session of the submitter, or ['Anonymous']. *)
Definition lookup_userName (cleanUserId : string) : M string :=
  w <- get ;;
  match find_session_like (cleanUserId_for_name cleanUserId) w with
  | Some s => ret (or_str (user_name s) "Anonymous")
  | None => ret "Anonymous"
  end.

Definition thank_you (queryTypeText divisionName : string) : string :=
  "Thank you! Your " +:+ queryTypeText +:+
  " report has been submitted successfully and assigned to the " +:+ divisionName +:+
  " division. You will be notified when there are updates.".

(** The handler of a failure inside the two processing functions. *)
Definition report_failed (userId error : string) : M ProcessingResult :=
  try_catch
    (sendWhatsAppMessage (normalizeUserId userId true) (getText env "REPORT_ERROR" "en" []) ;;;
     ret tt)
    (fun _ => ret tt) ;;;
  ret (mkProcessingResult false None None (Some error)).

Definition outside_result : ProcessingResult :=
  mkProcessingResult false None None (Some "Location outside jurisdiction").

Definition processReportWithoutImage (latitude longitude : jsval)
    (description : option string) (userId reportType : string)
    (address : option string) : M ProcessingResult :=
  try_catch
    (let cleanUserId := normalizeUserId userId true in
     let queryTypeText := getReportTypeText reportType in
     r <- (if (truthy latitude && truthy longitude)%bool then
             division <- findDivisionForLocation latitude longitude ;;
             match division with
             | Some d => ret (inl (Some d, division_name d))
             | None =>
                 sendWhatsAppMessage cleanUserId
                   (getText env "LOCATION_OUTSIDE_JURISDICTION" "en" []) ;;;
                 ret (inr outside_result)
             end
           else ret (inl (None, "Unknown"))) ;;
     match r with
     | inr res => ret res
     | inl (division, divisionName) =>
         userName <- lookup_userName cleanUserId ;;
         id <- fresh_id ;;
         let newQuery :=
           mkQuery id cleanUserId userName queryTypeText None None None
             (Some (mkLocation (parseFloat latitude) (parseFloat longitude)
                      (or_str address "Unknown location")))
             description None "Pending" (now env)
             (option_map division_id division) (Some divisionName) false [] in
         save_query newQuery ;;;
         sendWhatsAppMessage cleanUserId (thank_you queryTypeText divisionName) ;;;
         match division with
         | Some d =>
             notifiedContacts <- notifyDivisionOfficers newQuery (Some d) ;;
             if (0 <? length notifiedContacts)%nat
             then update_notified id notifiedContacts
             else ret tt
         | None => ret tt
         end ;;;
         ret (mkProcessingResult true (Some id) (Some divisionName) None)
     end)
    (fun error => report_failed userId error).

Definition processReportInBackground (file : string) (latitude longitude : jsval)
    (description : option string) (userId reportType : string)
    (address : option string) : M ProcessingResult :=
  try_catch
    (let cleanUserId := normalizeUserId userId true in
     matchingDivision <- findDivisionForLocation latitude longitude ;;
     match matchingDivision with
     | None =>
         sendWhatsAppMessage cleanUserId
           (getText env "LOCATION_OUTSIDE_JURISDICTION" "en" []) ;;;
         ret outside_result
     | Some d =>
         uploadedUrl <- try_catch
                          (match uploadImageToR2 env file with
                           | Some url => emit (EvUpload file true) ;;; ret (Some url)
                           | None => emit (EvUpload file false) ;;; throw "upload failed"
                           end)
                          (fun _ => ret None) ;;
         userName <- lookup_userName cleanUserId ;;
         let queryTypeText := getReportTypeText reportType in
         id <- fresh_id ;;
         let query :=
           mkQuery id cleanUserId userName queryTypeText None None None
             (Some (mkLocation (parseFloat latitude) (parseFloat longitude)
                      (or_str address "Unknown location")))
             (Some (or_str description "No description provided"))
             uploadedUrl "Pending" (now env)
             (Some (division_id d)) (Some (division_name d)) false [] in
         save_query query ;;;
         sendWhatsAppMessage cleanUserId (thank_you queryTypeText (division_name d)) ;;;
         notifiedContacts <- notifyDivisionOfficers query (Some d) ;;
         (if (0 <? length notifiedContacts)%nat
          then update_notified id notifiedContacts
          else ret tt) ;;;
         ret (mkProcessingResult true (Some id) (Some (division_name d)) None)
     end)
    (fun error => report_failed userId error).

(** *** POST /api/report *)

Record ReportReq : Type := mkReportReq {
  r_userId : option string;
  r_reportType : option string;
  r_description : option string;
  r_latitude : jsval;
  r_longitude : jsval;
  r_address : option string;
  r_linkId : option string;
  r_file : option string
}.

Definition json_error (error : string) : Body :=
  BJson [("success", JBool false); ("error", JString error)].

(** "Mark the link as used if linkId was provided": the first step of the
    endpoint after the check of the required fields. *)
Definition consume_link (req : ReportReq) : M unit :=
  if truthy_str (r_linkId req) then
    findOneAndUpdate_used (or_str (r_linkId req) "")
      (normalizeUserId (or_str (r_userId req) "") false) ;;;
    ret tt
  else ret tt.

Definition outside_response : Response :=
  mkResponse 400
    (BJson [("success", JBool false);
            ("error", JString "Location outside jurisdiction");
            ("message", JString
               "This location is outside PCMC jurisdiction. We can only process reports within PCMC limits.")]).

Definition api_report (req : ReportReq) : M Response :=
  try_catch
    (if (negb (truthy_str (r_userId req)) || negb (truthy_str (r_reportType req)))%bool then
       ret (mkResponse 400 (json_error "Missing required fields"))
     else
       let userId := or_str (r_userId req) "" in
       let reportType := or_str (r_reportType req) "" in
       let cleanUserId := normalizeUserId userId true in
       consume_link req ;;;
       matchingDivision <- findDivisionForLocation (r_latitude req) (r_longitude req) ;;
       match matchingDivision with
       | None =>
           sendWhatsAppMessage cleanUserId
             (getText env "LOCATION_OUTSIDE_JURISDICTION" "en" []) ;;;
           ret outside_response
       | Some _ =>
           processingResult <-
             match r_file req with
             | Some file =>
                 processReportInBackground file (r_latitude req) (r_longitude req)
                   (r_description req) userId reportType (r_address req)
             | None =>
                 processReportWithoutImage (r_latitude req) (r_longitude req)
                   (r_description req) userId reportType (r_address req)
             end ;;
           ret (mkResponse 200
                  (BJson [("success", JBool true);
                          ("requestId", JString (requestId env));
                          ("message", JString "Report processed successfully");
                          ("divisionName",
                            JString (or_str (pr_division processingResult) "Unknown"))]))
       end)
    (fun error =>
       try_catch
         (sendWhatsAppMessage (normalizeUserId (or_str (r_userId req) "") true)
            (getText env "REPORT_ERROR" "en" []) ;;; ret tt)
         (fun _ => ret tt) ;;;
       ret (mkResponse 500 (json_error error))).

(** *** POST /webhook *)

Record WebhookReq : Type := mkWebhookReq {
  Body_ : option string;
  From : option string;
  NumMedia : option string;
  MediaUrl0 : option string;
  MediaContentType0 : option string;
  Latitude : option string;
  Longitude : option string;
  Address : option string
}.

(** The empty acknowledgement the chat transport expects. *)
Definition empty_twiml : Body :=
  BText ("<?xml version=" +:+ dq +:+ "1.0" +:+ dq +:+ " encoding=" +:+ dq +:+
         "UTF-8" +:+ dq +:+ "?><Response></Response>").

Definition getMainMenu (language : string) : string :=
  getText env "WELCOME_MESSAGE" language [].

(** [parseInt(s)] of a decimal string: the integer prefix, if any. *)
Definition parseInt (s : string) : option Z :=
  let s0 := trimStart s in
  let '(neg, s1) :=
    match s0 with
    | String "-" r => (true, r)
    | String "+" r => (false, r)
    | _ => (false, s0)
    end in
  let '(v, n, _) := take_digits s1 0 0 in
  if (n =? 0)%nat then None else Some (if neg then - v else v)%Z.

(** [processMedia]: fetches the first attachment and stores it (here one
    call of the upload collaborator); every failure inside it is caught
    there and gives [null].  The handler does not use the result. *)
Definition processMedia (req : WebhookReq) : M (option string) :=
  match MediaUrl0 req with
  | Some mediaUrl =>
      if String.eqb mediaUrl "" then ret None
      else
        match uploadImageToR2 env mediaUrl with
        | Some url => emit (EvUpload mediaUrl true) ;;; ret (Some url)
        | None => emit (EvUpload mediaUrl false) ;;; ret None
        end
  | None => ret None
  end.

(** Modelled from the spec: [getCaptureUrl] of utils/deeplink.js is not
    among the source files.  By the design document, issuing a link stores
    a fresh, unused capture link for the user (digits only, no scheme
    prefix) and the report type, created now, and yields the URL that
    carries its id; a failure is thrown to the caller. *)
Definition getCaptureUrl (userNumber reportType : string) : M string :=
  match new_linkId env userNumber reportType with
  | Some lid =>
      modify (set_links (fun l =>
        l ++ [mkLink lid (normalizeUserId userNumber false) reportType (now env)
                false None])) ;;;
      ret (capture_url env lid)
  | None => throw "capture link not generated"
  end.

(** The variables the branches of the handler assign. *)
Record Vars : Type := mkVars {
  responseMessage : string;
  newState : State;
  newLastOption : option string;
  newLanguage : string
}.

(** How a branch ends: it falls through to the common tail of the handler,
    or it has already sent the HTTP response and returned. *)
Inductive Outcome : Type :=
| Continue (session : Session) (v : Vars)
| Returned (r : Response).

(** [switch (lastOption)] of the location branch. *)
Definition reportType_of_option (lastOption : option string) : string :=
  match lastOption with
  | Some o =>
      match reportTypes o with
      | Some t => t
      | None => "General Report"
      end
  | None => "General Report"
  end.

Definition chat_officer_message (path : string) (d : Division)
    (reportType : string) (locationAddress : option string)
    (description : string) (id : nat) : string :=
  "🚨 New Traffic Report in " +:+ division_name d +:+ nl +:+ nl +:+
  "Type: " +:+ reportType +:+ nl +:+
  "Location: " +:+ or_str locationAddress "See map link" +:+ nl +:+
  "Description: " +:+ description +:+ nl +:+ nl +:+
  "To resolve this issue, click: " +:+ SERVER_URL env +:+ path +:+ show_nat id.

(** The loop that notifies the officers of the division from the chat
    handler: one attempt per officer, on the primary number. *)
Fixpoint notify_from_chat (msg : string) (os : list Officer)
    (notifiedOfficers : list NotifiedContact) : M (list NotifiedContact) :=
  match os with
  | [] => ret notifiedOfficers
  | officer :: t =>
      acc <- try_catch
               (sendWhatsAppMessage (phone officer) msg ;;;
                ret (notifiedOfficers ++
                       [mkContact None None (phone officer) (now env) None]))
               (fun _ => ret notifiedOfficers) ;;
      notify_from_chat msg t acc
  end.

(** The loop that sends the corrected link to the officers notified. *)
Fixpoint resend_from_chat (msg : string) (cs : list NotifiedContact) : M unit :=
  match cs with
  | [] => ret tt
  | c :: t =>
      try_catch (sendWhatsAppMessage (nc_phone c) msg ;;; ret tt) (fun _ => ret tt) ;;;
      resend_from_chat msg t
  end.

(** The tail shared by the two rejections of the location branch: the
    session goes back to the menu, the user is told, the request ends. *)
Definition reject_location (userSession : Session) (userNumber : string)
    (msg : string) (language : string) : M Outcome :=
  updateUserSession userSession MENU None (Some language) ;;;
  messages_create userNumber msg ;;;
  ret (Returned (mkResponse 200 empty_twiml)).

Definition clear_drafts (s : Session) : Session :=
  mkSession (user_id s) (current_state s) (last_option s) (language s)
    (last_interaction s) (user_name s) None None.

(** What follows the save of a report in the location branch: the
    officers notified get the message again with the corrected link, the
    division gets its email, the drafts of the session are cleared and the
    confirmation for the user is prepared. *)
Definition confirm_report (userSession : Session) (d : Division) (newQuery : Query)
    (reportType description : string) (locationAddress : option string)
    (userLanguage language : string) : M Outcome :=
  let notifiedOfficers := divisionOfficersNotified newQuery in
  (if (0 <? length notifiedOfficers)%nat then
     resend_from_chat
       (chat_officer_message "/resolve/" d reportType locationAddress
          description (query_id newQuery))
       notifiedOfficers
   else ret tt) ;;;
  emit (EvEmail newQuery) ;;;
  let userSession := clear_drafts userSession in
  save_session userSession ;;;
  ret (Continue userSession
         (mkVars (getText env "REPORT_RESPONSE" userLanguage
                    [reportType; show_bool (truthy_str (photo_url newQuery))])
            MENU None language)).

(** The branch of state AWAITING_LOCATION. *)
Definition awaiting_location (userSession : Session) (userNumber : string)
    (latitude longitude locationAddress : option string)
    (lastOption : option string) (userLanguage : string) (v : Vars) : M Outcome :=
  if (truthy_str latitude && truthy_str longitude)%bool then
    let lat := or_str latitude "" in
    let lng := or_str longitude "" in
    matchingDivision <- findDivisionForLocation (JString lat) (JString lng) ;;
    match matchingDivision with
    | None =>
        reject_location userSession userNumber
          (getText env "LOCATION_OUTSIDE_JURISDICTION" userLanguage []) (newLanguage v)
    | Some d =>
        let reportType := reportType_of_option lastOption in
        let description := or_str (last_description userSession) "No description provided" in
        let photoUrl := if truthy_str (last_photo_url userSession)
                        then last_photo_url userSession else None in
        id <- fresh_id ;;
        let newQuery :=
          mkQuery id userNumber (or_str (user_name userSession) "Anonymous") reportType
            None None None
            (Some (mkLocation (parseFloat (JString lat)) (parseFloat (JString lng))
                     (or_str locationAddress (lat +:+ ", " +:+ lng))))
            (Some description) photoUrl "Pending" (now env)
            (Some (division_id d)) (Some (division_name d)) false [] in
        notifiedOfficers <-
          (if (0 <? length (officers d))%nat then
             let officersToNotify := officersToNotify d in
             if (0 <? length officersToNotify)%nat then
               notify_from_chat
                 (chat_officer_message "/resolve.html?id=" d reportType locationAddress
                    description id)
                 officersToNotify []
             else ret []
           else ret []) ;;
        let divisionNotified := (0 <? length notifiedOfficers)%nat in
        (* Only save the query if divisionNotified is true *)
        if negb divisionNotified then
          reject_location userSession userNumber
            (getText env "NOTIFICATION_FAILED" userLanguage []) (newLanguage v)
        else
          let newQuery := mark_notified notifiedOfficers newQuery in
          save_query newQuery ;;;
          confirm_report userSession d newQuery reportType description locationAddress
            userLanguage (newLanguage v)
    end
  else
    ret (Continue userSession
           (mkVars (getText env "LOCATION_MISSING_HINT" userLanguage [])
              AWAITING_LOCATION (newLastOption v) (newLanguage v))).

(** The labelled line of a join request: the text after the first colon. *)
Definition field_of_line (line : string) : string :=
  match split_on ":" line with
  | _ :: x :: _ => trim x
  | _ => ""
  end.

Fixpoint parse_join (infoLines : list string) (name email phone location : string)
    : string * string * string * string :=
  match infoLines with
  | [] => (name, email, phone, location)
  | line :: t =>
      let l := toLowerCase line in
      if includes "name:" l then parse_join t (field_of_line line) email phone location
      else if includes "email:" l then parse_join t name (field_of_line line) phone location
      else if includes "phone:" l then parse_join t name email (field_of_line line) location
      else if includes "location:" l then parse_join t name email phone (field_of_line line)
      else parse_join t name email phone location
  end.

Definition is_menu_choice (m : string) : bool :=
  String.eqb m "1" || String.eqb m "2" || String.eqb m "3" || String.eqb m "4" ||
  String.eqb m "5" || String.eqb m "6" || String.eqb m "7".

Definition set_user_name (s : Session) (n : string) : Session :=
  mkSession (user_id s) (current_state s) (last_option s) (language s)
    (last_interaction s) (Some n) (last_description s) (last_photo_url s).

(** [userSession.language || 'en'] *)
Definition userLanguage_of (s : Session) : string :=
  if String.eqb (language s) "" then "en" else language s.

(** The chain of [if ... else if ...] on the message and the state. *)
Definition dispatch (userSession : Session) (userMessage userNumber : string)
    (latitude longitude locationAddress : option string) : M Outcome :=
  let currentState := current_state userSession in
  let lastOption := last_option userSession in
  let userLanguage := if String.eqb (language userSession) "" then "en"
                      else language userSession in
  let v := mkVars "" currentState lastOption userLanguage in
  if String.eqb (toLowerCase userMessage) "reset" then
    ret (Continue userSession (mkVars (getLanguagePrompt env "en") LANGUAGE_SELECT None userLanguage))
  else if State_eqb currentState LANGUAGE_SELECT then
    if String.eqb userMessage "1" then
      if truthy_str (user_name userSession) then
        ret (Continue userSession
               (mkVars (getText env "NAME_CONFIRMATION" "en" [or_str (user_name userSession) ""]
                        +:+ nl +:+ nl +:+ getMainMenu "en") MENU lastOption "en"))
      else
        ret (Continue userSession
               (mkVars (getText env "NAME_REQUEST" "en" []) NAME_COLLECTION lastOption "en"))
    else if String.eqb userMessage "2" then
      if truthy_str (user_name userSession) then
        ret (Continue userSession
               (mkVars (getText env "NAME_CONFIRMATION" "mr" [or_str (user_name userSession) ""]
                        +:+ nl +:+ nl +:+ getMainMenu "mr") MENU lastOption "mr"))
      else
        ret (Continue userSession
               (mkVars (getText env "NAME_REQUEST" "mr" []) NAME_COLLECTION lastOption "mr"))
    else
      ret (Continue userSession
             (mkVars (getLanguagePrompt env userLanguage) currentState lastOption userLanguage))
  else if State_eqb currentState NAME_COLLECTION then
    let userSession := set_user_name userSession userMessage in
    save_session userSession ;;;
    ret (Continue userSession
           (mkVars (getText env "NAME_CONFIRMATION" userLanguage [userMessage]
                    +:+ nl +:+ nl +:+ getMainMenu userLanguage) MENU lastOption userLanguage))
  else if String.eqb (toLowerCase userMessage) "menu" then
    ret (Continue userSession (mkVars (getMainMenu userLanguage) MENU None userLanguage))
  else if State_eqb currentState MENU then
    if is_menu_choice userMessage then
      try_catch
        (captureUrl <- getCaptureUrl userNumber userMessage ;;
         let instructions := getReportInstructionMessage env captureUrl userLanguage in
         ret (Continue userSession
                (mkVars (getText env "CAMERA_INSTRUCTIONS" userLanguage [instructions])
                   AWAITING_REPORT (Some userMessage) userLanguage)))
        (fun _ =>
           ret (Continue userSession
                  (mkVars "We're experiencing technical difficulties. Please try again later."
                     currentState lastOption userLanguage)))
    else if String.eqb userMessage "8" then
      let sessionId := "join_" +:+ show_Z_nonneg (now env) +:+ "_" +:+ random_token env in
      let formUrl := SERVER_URL env +:+ "/join-team.html?userId=" +:+
                     encodeURIComponent env userNumber +:+ "&sessionId=" +:+ sessionId in
      ret (Continue userSession
             (mkVars (getText env "JOIN_FORM_LINK" userLanguage [formUrl])
                JOIN_TEAM_LINK_SENT (Some "8") userLanguage))
    else
      ret (Continue userSession (mkVars (getMainMenu userLanguage) currentState lastOption userLanguage))
  else if State_eqb currentState AWAITING_REPORT then
    ret (Continue userSession (mkVars (getMainMenu userLanguage) MENU None userLanguage))
  else if State_eqb currentState AWAITING_SUGGESTION_TEXT then
    try_catch
      (id <- fresh_id ;;
       save_query
         (mkQuery id userNumber (or_str (user_name userSession) "Anonymous") "Suggestion"
            None None None None (Some userMessage) None "Pending" (now env)
            None None false []) ;;;
       ret (Continue userSession
              (mkVars (getText env "SUGGESTION_RESPONSE" userLanguage []) MENU None userLanguage)))
      (fun _ =>
         ret (Continue userSession
                (mkVars (getText env "REPORT_ERROR" userLanguage []) MENU None userLanguage)))
  else if State_eqb currentState AWAITING_LOCATION then
    awaiting_location userSession userNumber latitude longitude locationAddress
      lastOption userLanguage v
  else if State_eqb currentState AWAITING_JOIN then
    let '(name, email, phone, _) := parse_join (split_on (ascii_of_nat 10) userMessage) "" "" "" "" in
    id <- fresh_id ;;
    let joinQuery :=
      mkQuery id userNumber (or_str (user_name userSession) "Anonymous") "Join Request"
        (Some name) (Some email) (Some phone) None (Some userMessage) None "Pending"
        (now env) None None false [] in
    save_query joinQuery ;;;
    emit (EvEmail joinQuery) ;;;
    ret (Continue userSession
           (mkVars (getText env "JOIN_RESPONSE" userLanguage []) MENU None userLanguage))
  else
    ret (Continue userSession (mkVars (getMainMenu userLanguage) MENU None userLanguage)).

Definition nonempty (o : option string) : option string :=
  if truthy_str o then o else None.

(** The handler up to the point where the session of the sender is
    loaded: the attachment, if any, is processed first. *)
Definition webhook_enter (req : WebhookReq) : M Session :=
  (if truthy_str (NumMedia req) then
     match parseInt (or_str (NumMedia req) "") with
     | Some n => if (0 <? n)%Z then processMedia req ;;; ret tt else ret tt
     | None => ret tt
     end
   else ret tt) ;;;
  getUserSession (or_str (From req) "").

(** The [try] block of the handler. *)
Definition webhook_body (req : WebhookReq) : M Response :=
  let userMessage := or_str (Body_ req) "" in
  let userNumber := or_str (From req) "" in
  let latitude := nonempty (Latitude req) in
  let longitude := nonempty (Longitude req) in
  let locationAddress := nonempty (Address req) in
  userSession <- webhook_enter req ;;
  o <- dispatch userSession userMessage userNumber latitude longitude locationAddress ;;
  match o with
  | Returned r => ret r
  | Continue userSession v =>
      updateUserSession userSession (newState v) (newLastOption v)
        (Some (newLanguage v)) ;;;
      messages_create userNumber (responseMessage v) ;;;
      ret (mkResponse 200 empty_twiml)
  end.

Definition webhook (req : WebhookReq) : M Response :=
  try_catch (webhook_body req) (fun _ => ret (mkResponse 500 empty_twiml)).

End WithEnv.

End Server.

Import Server.

(** ** The outcome of a link check, as the design document names it *)

Module LinkGuard.

Inductive LinkStatus : Type :=
| Valid
| NotFound
| Expired
| AlreadyUsed.

(** How the response of the validity endpoint reads. *)
Definition status_of_response (r : Response) : option LinkStatus :=
  match resp_status r, resp_body r with
  | 200%nat, BJson [("valid", JBool true)] => Some Valid
  | 404%nat, BJson [("valid", JBool false); ("message", JString _)] => Some NotFound
  | 403%nat, BJson [("valid", JBool false); ("message", JString m)] =>
      if String.eqb m "This reporting link has already been used" then Some AlreadyUsed
      else if String.eqb m "This reporting link has expired" then Some Expired
      else None
  | _, _ => None
  end.

(** [validate(linkId, userId)] *)
Definition validate (env : Env) (lid uid : string) (w : World) : option LinkStatus :=
  match check_link_validity env (Some lid) (Some uid) w with
  | (Ok r, _) => status_of_response r
  | (Throw _, _) => None
  end.

End LinkGuard.

Import LinkGuard.

(** ** Division resolution, as the design document states it *)

Module Resolve.


(** The answer of a call of [findDivisionForLocation], as a function of
    the cache it finds. *)
Definition resolution (env : Env) (latitude longitude : jsval)
    (cache : gmap string CacheEntry) : option Division :=
  if (negb (truthy latitude) || negb (truthy longitude))%bool then None
  else
    match parseFloat latitude, parseFloat longitude with
    | Fin lat, Fin lng =>
        match cache !! cacheKey lat lng with
        | Some (CachedDivision id _) =>
            List.find (fun d => String.eqb (division_id d) id) (divisions env)
        | Some CachedOutside => None
        | None => scan_divisions lng lat (divisions env)
        end
    | _, _ => None
    end.



End Resolve.

Import Resolve.

(** ** What a request may do to the report store *)

Module Effects.

(** The two routes that create reports. *)
Inductive Request : Type :=
| ChatEvent (req : WebhookReq)
| WebReport (req : ReportReq).

Definition handle (env : Env) (r : Request) : M Response :=
  match r with
  | ChatEvent req => webhook env req
  | WebReport req => api_report env req
  end.

Definition from_chat (r : Request) : bool :=
  match r with ChatEvent _ => true | WebReport _ => false end.

(** A computation keeps a relation between the world before and after. *)
Definition keeps {A : Type} (R : World -> World -> Prop) (m : M A) : Prop :=
  forall w, R w (snd (m w)).

(** No report is saved among the events. *)
Definition silent (evs : list Event) : Prop :=
  forall q, ~ In (EvQuerySaved q) evs.

(** The report store is as it was and the trace has grown by events that
    save no report. *)
Definition no_report (w w' : World) : Prop :=
  queries w' = queries w /\
  exists evs, trace w' = trace w ++ evs /\ silent evs.

(** The trace has grown by events that save no report. *)
Definition quiet (w w' : World) : Prop :=
  exists evs, trace w' = trace w ++ evs /\ silent evs.

(** The report carries a division of the collection. *)
Definition resolved (env : Env) (q : Query) : Prop :=
  exists d, In d (divisions env) /\
    division q = Some (division_id d) /\ divisionName q = Some (division_name d).

(** Among the events [pre], a message was delivered to a number of an
    officer of the division the report carries. *)
Definition dispatched_before (env : Env) (pre : list Event) (q : Query) : Prop :=
  exists d o to body,
    In d (divisions env) /\ division q = Some (division_id d) /\
    In o (officers d) /\
    In to [normalizeUserId (phone o) true; formatPhoneNumber (phone o);
           formatPhoneNumber (alternate_phone o)] /\
    In (EvMessage to body true) pre.

(** Every report saved among the events satisfies [G], which may look at
    the events before the save. *)
Definition ok_events (G : list Event -> Query -> Prop) (evs : list Event) : Prop :=
  forall pre q post, evs = pre ++ EvQuerySaved q :: post -> G pre q.

Definition ok_rel (G : list Event -> Query -> Prop) (w w' : World) : Prop :=
  exists evs, trace w' = trace w ++ evs /\ ok_events G evs.

(** A part of the world is the same before and after. *)
Definition same {X : Type} (f : World -> X) (w w' : World) : Prop := f w' = f w.

(** The stores that sending messages and resolving divisions leave alone. *)
Definition stores (w : World) : list Query * list Session * list ReportLink :=
  (queries w, sessions w, links w).

(** The coordinate of a submission resolves to no division. *)
Definition resolves_to_none (env : Env) (latitude longitude : jsval) (w : World) : Prop :=
  fst (findDivisionForLocation env latitude longitude w) = Ok None.

(** A submission that needs a location and whose coordinate resolves to no
    division: a report of the capture form with its required fields, or a
    chat event with both coordinates handled in state AWAITING_LOCATION
    (the text being neither the reset nor the menu command). *)
Definition outside_submission (env : Env) (r : Request) (w : World) : Prop :=
  match r with
  | WebReport req =>
      truthy_str (r_userId req) = true /\
      truthy_str (r_reportType req) = true /\
      resolves_to_none env (r_latitude req) (r_longitude req) w
  | ChatEvent req =>
      exists session w0,
        webhook_enter env req w = (Ok session, w0) /\
        current_state session = AWAITING_LOCATION /\
        String.eqb (toLowerCase (or_str (Body_ req) "")) "reset" = false /\
        String.eqb (toLowerCase (or_str (Body_ req) "")) "menu" = false /\
        truthy_str (Latitude req) = true /\
        truthy_str (Longitude req) = true /\
        resolves_to_none env (JString (or_str (Latitude req) ""))
          (JString (or_str (Longitude req) "")) w
  end.

(** The submitter of a request and the text that tells them the location
    is outside the jurisdiction. *)
Definition submitter (r : Request) : string :=
  match r with
  | WebReport req => normalizeUserId (normalizeUserId (or_str (r_userId req) "") true) true
  | ChatEvent req => or_str (From req) ""
  end.

Definition outside_text (env : Env) (r : Request) (w : World) : string :=
  match r with
  | WebReport _ => getText env "LOCATION_OUTSIDE_JURISDICTION" "en" []
  | ChatEvent req =>
      match fst (webhook_enter env req w) with
      | Ok session =>
          getText env "LOCATION_OUTSIDE_JURISDICTION" (userLanguage_of session) []
      | Throw _ => ""
      end
  end.

(** The links after a report of the capture form: the link it names, if
    any, is marked used. *)
Definition links_after (env : Env) (r : Request) (w : World) : list ReportLink :=
  match r with
  | WebReport req =>
      if truthy_str (r_linkId req)
      then mark_used env (or_str (r_linkId req) "")
             (normalizeUserId (or_str (r_userId req) "") false) (links w)
      else links w
  | ChatEvent _ => links w
  end.

(** The statement of C8: a rejected submission leaves every store as it
    was. *)
Definition rejected_without_trace (env : Env) (r : Request) (w : World) : Prop :=
  outside_submission env r w ->
  let w' := snd (handle env r w) in
  queries w' = queries w /\ links w' = links w.

(** A branch of the chat handler that returns early has answered with
    status 200 and the empty acknowledgement. *)
Definition acks (m : M Outcome) : Prop :=
  forall w r w', m w = (Ok (Returned r), w') -> r = mkResponse 200 empty_twiml.

(** The statement of C1: on every route, a report with a location is
    saved only when it is resolved and an officer notification has been
    dispatched before. *)
Definition persisted_as_stated (env : Env) (r : Request) (w : World) : Prop :=
  forall pre q post,
    trace (snd (handle env r w)) = trace w ++ pre ++ EvQuerySaved q :: post ->
    q_location q <> None ->
    resolved env q /\ dispatched_before env pre q.

(** The events up to the first save of a report, the report, and the
    events after it. *)
Fixpoint split_at_save (evs : list Event) : option (list Event * Query * list Event) :=
  match evs with
  | [] => None
  | EvQuerySaved q :: post => Some ([], q, post)
  | e :: t =>
      match split_at_save t with
      | Some (pre, q, post) => Some (e :: pre, q, post)
      | None => None
      end
  end.

(** An officer whom a notification does not reach: no phone number, or
    the transport refuses the message for the recipient. *)
Definition unreachable (env : Env) (msg : string) (o : Officer) : Prop :=
  phone o = "" \/ deliver env (normalizeUserId (phone o) true) msg = false.

(** The notification that the location branch of the chat handler sends
    to the officers of a division, for the report with a given id. *)
Definition chat_notification (env : Env) (session : Session) (req : WebhookReq)
    (d : Division) (id : nat) : string :=
  chat_officer_message env "/resolve.html?id=" d
    (reportType_of_option (last_option session)) (nonempty (Address req))
    (or_str (last_description session) "No description provided") id.

End Effects.

Import Effects.

(** ** The other routes of the server *)

Module Routes.

(** The scanner behind [s.replace(/^\+|whatsapp:[ ]*(\+?)/gi, '')] past the
    first character: every occurrence of "whatsapp:" is removed with the
    blanks that follow it and one plus sign after them. *)
Fixpoint remove_prefixes (m : RMode) (s : string) : string :=
  match s with
  | EmptyString => EmptyString
  | String c r =>
      let scan :=
        if startsWith_ci "whatsapp:" s
        then remove_prefixes (Matching 8) r
        else String c (remove_prefixes Scanning r) in
      match m with
      | Copying => s
      | Matching (S n) => remove_prefixes (Matching n) r
      | Matching O | Spaces =>
          if is_space c then remove_prefixes Spaces r
          else if Ascii.eqb c "+" then remove_prefixes Scanning r
          else scan
      | Scanning => scan
      end
  end.

(** [userId.replace(/^\+|whatsapp:[ ]*(\+?)/gi, '')]: a plus sign is also
    removed at the very start of the string. *)
Definition strip_user_prefixes (userId : string) : string :=
  match userId with
  | String "+" r => remove_prefixes Scanning r
  | _ => remove_prefixes Scanning userId
  end.

(** What follows an occurrence of [whatsapp:[ ]*(\+?)] at the start of the
    string, if there is one. *)
Definition after_prefix (s : string) : option string :=
  if startsWith_ci "whatsapp:" s then
    let r := dropWhile_ascii is_space (drop_string 9 s) in
    Some (match r with String "+" r' => r' | _ => r end)
  else None.

(** [s.replace(/whatsapp:[ ]*(\+?)whatsapp:[ ]*(\+?)/i, 'whatsapp:+')]: the
    first doubled prefix is replaced by a single one. *)
Fixpoint replace_double_prefix (s : string) : string :=
  match s with
  | EmptyString => EmptyString
  | String c r =>
      match
        match after_prefix s with
        | Some s1 => after_prefix s1
        | None => None
        end
      with
      | Some rest => "whatsapp:+" +:+ rest
      | None => String c (replace_double_prefix r)
      end
  end.

(** The outcome of [GET /r/:linkId]: a plain answer or a redirect. *)
Inductive Reply : Type :=
| Sent (status : nat) (text : string)
| Redirected (status : nat) (url : string).

Record SuggestionReq : Type := mkSuggestionReq {
  s_description : option string;
  s_userId : option string;
  s_linkId : option string;
  s_latitude : option string;
  s_longitude : option string;
  s_address : option string
}.

Section WithEnv.

Variable env : Env.

(** [ReportLink.findOne({ linkId })] *)
Definition find_link_by_id (lid : string) (w : World) : option ReportLink :=
  List.find (fun l => String.eqb (linkId l) lid) (links w).

(** *** GET /r/:linkId *)
Definition redirect (lid : string) : M Reply :=
  try_catch
    (w <- get ;;
     match find_link_by_id lid w with
     | None => ret (Sent 404 "Report link not found or invalid.")
     | Some link =>
         if Qltb 5 (diffMinutes env link) then ret (Sent 410 "Report link has expired.")
         else if used link then ret (Sent 403 "Report link has already been used.")
         else
           let serverUrl := if String.eqb (SERVER_URL env) "" then "https://yourserver.com"
                            else SERVER_URL env in
           let originalUserId := "whatsapp:+" +:+ link_userId link in
           let reportType := reportType link in
           let capturePage := if String.eqb reportType "7" then "suggestion-capture.html"
                              else "capture.html" in
           ret (Redirected 302
                  (serverUrl +:+ "/" +:+ capturePage +:+ "?userId=" +:+
                   encodeURIComponent env originalUserId +:+ "&reportType=" +:+
                   reportType +:+ "&linkId=" +:+ lid))
     end)
    (fun _ => ret (Sent 500 "Error processing report link.")).

(** *** GET /api/check-location *)
Definition check_location (lat lng : option string) : M Response :=
  try_catch
    (if (negb (truthy_str lat) || negb (truthy_str lng))%bool then
       ret (mkResponse 400
              (BJson [("success", JBool false);
                      ("message", JString "Missing latitude or longitude parameters")]))
     else
       division <- findDivisionForLocation env (JString (or_str lat ""))
                     (JString (or_str lng "")) ;;
       match division with
       | None =>
           ret (mkResponse 200
                  (BJson [("success", JBool false);
                          ("message", JString
                             "Location is outside PCMC jurisdiction. We can only process reports within PCMC limits.")]))
       | Some d =>
           ret (mkResponse 200
                  (BJson [("success", JBool true);
                          ("message", JString "Location is within jurisdiction");
                          ("division", JString (division_name d))]))
       end)
    (fun _ =>
       ret (mkResponse 500
              (BJson [("success", JBool false);
                      ("message", JString "Error checking location")]))).

(** *** POST /api/suggestion *)

(** The name of the submitter: the session with the formatted id, else a
    session whose id contains the bare number. *)
Definition suggestion_userName (userId : string) : M string :=
  try_catch
    (let phoneNumber := strip_user_prefixes userId in
     let formattedUserId := "whatsapp:+" +:+ phoneNumber in
     w <- get ;;
     let userSession :=
       match find_session formattedUserId w with
       | Some s => Some s
       | None => find_session_like phoneNumber w
       end in
     match userSession with
     | Some s => ret (or_str (user_name s) "Anonymous")
     | None => ret "Anonymous"
     end)
    (fun _ => ret "Anonymous").

(** The work scheduled with [setImmediate] once the response is sent. *)
Definition suggestion_background (req : SuggestionReq) : M unit :=
  try_catch
    (let userId := or_str (s_userId req) "" in
     let cleanUserId := replace_double_prefix userId in
     userName <- suggestion_userName userId ;;
     id <- fresh_id ;;
     let newSuggestion :=
       mkQuery id cleanUserId userName "Suggestion" None None None
         (if (truthy_str (s_latitude req) && truthy_str (s_longitude req))%bool then
            Some (mkLocation (parseFloat (JString (or_str (s_latitude req) "")))
                    (parseFloat (JString (or_str (s_longitude req) "")))
                    (or_str (s_address req) "Unknown location"))
          else None)
         (s_description req) None "Pending" (now env) None None false [] in
     save_query newSuggestion ;;;
     try_catch
       (sendWhatsAppMessage env cleanUserId
          "Thank you for your suggestion! We value your feedback and will review it soon." ;;;
        ret tt)
       (fun _ => ret tt))
    (fun _ => ret tt).

Definition api_suggestion (req : SuggestionReq) : M Response :=
  try_catch
    (if (negb (truthy_str (s_description req)) || negb (truthy_str (s_userId req)))%bool then
       ret (mkResponse 400 (json_error "Missing required fields"))
     else
       (if truthy_str (s_linkId req) then
          findOneAndUpdate_used env (or_str (s_linkId req) "")
            (cleanUserId_for_link (or_str (s_userId req) "")) ;;;
          ret tt
        else ret tt) ;;;
       (* the response is sent here; the rest runs after it *)
       suggestion_background req ;;;
       ret (mkResponse 202
              (BJson [("success", JBool true);
                      ("message", JString
                         "Suggestion received. Thank you for your feedback!")])))
    (fun _ => ret (mkResponse 500 (json_error "Internal server error"))).

(** *** GET /reset-all-sessions *)

(** [Session.updateMany({}, { current_state: 'LANGUAGE_SELECT' })] *)
Definition reset_state (s : Session) : Session :=
  mkSession (user_id s) LANGUAGE_SELECT (last_option s) (language s)
    (last_interaction s) (user_name s) (last_description s) (last_photo_url s).

Definition reset_all_sessions : M Response :=
  try_catch
    (modify (set_sessions (map reset_state)) ;;;
     ret (mkResponse 200
            (BJson [("message", JString "All sessions reset to language selection")])))
    (fun _ =>
       ret (mkResponse 500 (BJson [("error", JString "Failed to reset sessions")]))).

End WithEnv.

End Routes.

Import Routes.

(** ** Shapes of identifiers and phone numbers *)

Module Shape.

Fixpoint string_forall (f : ascii -> bool) (s : string) : bool :=
  match s with
  | EmptyString => true
  | String c r => f c && string_forall f r
  end.

(** A non-empty string of decimal digits. *)
Definition digits (s : string) : bool :=
  negb (String.eqb s "") && string_forall is_digit s.

Fixpoint repeat_char (c : ascii) (n : nat) : string :=
  match n with
  | O => EmptyString
  | S n' => String c (repeat_char c n')
  end.

End Shape.

Import Shape.

(** ** Vocabulary for the notifications *)

Module Notify.

(** The world after some more events, nothing else changed. *)
Definition add_events (evs : list Event) (w : World) : World :=
  mkWorld (sessions w) (queries w) (links w) (locationCache w) (trace w ++ evs) (next_id w).

Definition is_message (e : Event) : bool :=
  match e with EvMessage _ _ _ => true | _ => false end.

Definition is_delivered (e : Event) : bool :=
  match e with EvMessage _ _ true => true | _ => false end.

(** The attempts on the numbers [tos], in order, each with the answer of
    the transport. *)
Definition attempts (env : Env) (msg : string) (tos : list string) : list Event :=
  map (fun to => EvMessage to msg (deliver env to msg)) tos.

(** The alternate number of an officer, when it is set and differs from
    the primary one. *)
Definition alternate_number (o : Officer) : list string :=
  if (negb (String.eqb (alternate_phone o) "") &&
      negb (String.eqb (alternate_phone o) (phone o)))%bool
  then [formatPhoneNumber (alternate_phone o)] else [].

(** The numbers tried for one officer: the primary number when it is
    set; the alternate number only when no primary number is set or the
    transport refused the message for it. *)
Definition numbers_tried (env : Env) (msg : string) (o : Officer) : list string :=
  if negb (String.eqb (phone o) "") then
    if deliver env (formatPhoneNumber (phone o)) msg
    then [formatPhoneNumber (phone o)]
    else formatPhoneNumber (phone o) :: alternate_number o
  else alternate_number o.

(** The contact recorded for one officer: for the number that accepted
    the message, if any did. *)
Definition contact_recorded (env : Env) (msg : string) (o : Officer)
    : list NotifiedContact :=
  match List.filter (fun to => deliver env to msg) (numbers_tried env msg o) with
  | to :: _ => [contact_of env o to (message_sid env to msg)]
  | [] => []
  end.

(** The officers that a notification of the division addresses, and its
    text. *)
Definition officers_addressed (div : option Division) : list Officer :=
  match div with
  | Some d => officersToNotify d
  | None => []
  end.

Definition notification_text (env : Env) (query : Query) (div : option Division) : string :=
  match div with
  | Some d => officer_message env query d
  | None => ""
  end.

End Notify.

Import Notify.

(** ** Vocabulary for the reports persisted *)

Module Persist.

(** The coordinates of a request, as its handler passes them to the
    resolution. *)
Definition coordinates (r : Request) : jsval * jsval :=
  match r with
  | ChatEvent req =>
      (JString (or_str (Latitude req) ""), JString (or_str (Longitude req) ""))
  | WebReport req => (r_latitude req, r_longitude req)
  end.

(** The report carries the position read from the coordinates and the id
    and the name of the division [d]. *)
Definition saved_as (latitude longitude : jsval) (d : Division) (q : Query) : Prop :=
  (exists a, q_location q
             = Some (mkLocation (parseFloat latitude) (parseFloat longitude) a)) /\
  division q = Some (division_id d) /\ divisionName q = Some (division_name d).

(** The report is filed under the division that the resolution answers
    for the coordinates of the request, in the world in which the request
    arrives. *)
Definition placed (env : Env) (r : Request) (w : World) (d : Division) (q : Query) : Prop :=
  fst (findDivisionForLocation env (fst (coordinates r)) (snd (coordinates r)) w)
  = Ok (Some d) /\
  saved_as (fst (coordinates r)) (snd (coordinates r)) d q.

(** The chat route: the report records that its division was notified,
    with the officers reached, and among the events [pre] before the save
    the notification was delivered to one of the officers of the division
    that are notified. *)
Definition reached_before (d : Division) (pre : list Event) (q : Query) : Prop :=
  divisionNotified q = true /\ divisionOfficersNotified q <> [] /\
  exists o body, In o (officersToNotify d) /\
    In (EvMessage (normalizeUserId (phone o) true) body true) pre.

(** An event that neither sends a message nor saves a report. *)
Definition is_bookkeeping (e : Event) : bool :=
  match e with
  | EvMessage _ _ _ | EvQuerySaved _ => false
  | _ => true
  end.

(** The report endpoint, after the save of the report [q] of the division
    [d]: the user is thanked; if that message is accepted the officers
    are notified and, when one of them was reached, the report is updated;
    if it is refused the user is told of the failure and nobody else. *)
Definition after_save (env : Env) (d : Division) (q : Query) : list Event :=
  let user := normalizeUserId (q_user_id q) true in
  let thanks := thank_you (query_type q) (division_name d) in
  let sorry := getText env "REPORT_ERROR" "en" [] in
  let msg := officer_message env q d in
  let os := officersToNotify d in
  EvMessage user thanks (deliver env user thanks) ::
  (if deliver env user thanks then
     flat_map (fun o => attempts env msg (numbers_tried env msg o)) os ++
     (if (0 <? length (flat_map (contact_recorded env msg) os))%nat
      then [EvQueryUpdated (query_id q)] else [])
   else [EvMessage user sorry (deliver env user sorry)]).

(** The report endpoint: the report is saved before anybody is notified. *)
Definition saved_first (env : Env) (d : Division) (pre : list Event) (q : Query)
    (post : list Event) : Prop :=
  divisionNotified q = false /\ divisionOfficersNotified q = [] /\
  existsb is_message pre = false /\
  post = after_save env d q.

(** A report without location: a suggestion or a join request, under no
    division. *)
Definition plain (q : Query) : Prop :=
  q_location q = None /\ division q = None /\ divisionName q = None /\
  divisionNotified q = false /\
  (query_type q = "Suggestion" \/ query_type q = "Join Request").

Definition plain_save (pre : list Event) (q : Query) : Prop := plain q.

(** What the chat handler requires of a report it saves, for the
    coordinates it was given. *)
Definition chat_save (env : Env) (latitude longitude : option string) (w : World)
    (pre : list Event) (q : Query) : Prop :=
  match q_location q with
  | Some _ =>
      truthy_str latitude = true /\ truthy_str longitude = true /\
      exists d,
        fst (findDivisionForLocation env (JString (or_str latitude ""))
               (JString (or_str longitude "")) w) = Ok (Some d) /\
        saved_as (JString (or_str latitude "")) (JString (or_str longitude "")) d q /\
        reached_before d pre q
  | None => plain q
  end.

(** The outcome of a processing function of the report endpoint that
    saves a report of the division [d]: it ends well, and its events are
    bookkeeping, the save, and what follows the save. *)
Definition processing (env : Env) (latitude longitude : jsval) (d : Division) (w : World)
    (res : Result ProcessingResult * World) : Prop :=
  exists pr pre q,
    fst res = Ok pr /\
    trace (snd res) = trace w ++ pre ++ EvQuerySaved q :: after_save env d q /\
    forallb is_bookkeeping pre = true /\
    saved_as latitude longitude d q /\
    divisionNotified q = false /\ divisionOfficersNotified q = [].

End Persist.

Import Persist.

(** ** Rings with numeric vertices *)

Module Ring.




(** The membership in the half-open box [x0, x1) x [y0, y1). *)
Definition in_half_open_box (x0 y0 x1 y1 x y : Q) : bool :=
  Qle_bool x0 x && Qltb x x1 && Qle_bool y0 y && Qltb y y1.

End Ring.

Import Ring.

(** ** Invariants of the stores *)

Module Invariant.

(** The requests the embedding covers. *)
Inductive AnyRequest : Type :=
| Chat (req : WebhookReq)
| Report (req : ReportReq)
| Suggestion (req : SuggestionReq)
| CheckLocation (lat lng : option string)
| CheckLink (q_linkId q_userId : option string)
| ShortLink (lid : string)
| ResetSessions.

(** The effect of a request on the world. *)
Definition serve (env : Env) (r : AnyRequest) (w : World) : World :=
  match r with
  | Chat req => snd (webhook env req w)
  | Report req => snd (api_report env req w)
  | Suggestion req => snd (api_suggestion env req w)
  | CheckLocation lat lng => snd (check_location env lat lng w)
  | CheckLink l u => snd (check_link_validity env l u w)
  | ShortLink lid => snd (redirect env lid w)
  | ResetSessions => snd (reset_all_sessions w)
  end.

(** The requests that do not come from the chat transport and are not
    administrative. *)
Definition from_web (r : AnyRequest) : bool :=
  match r with
  | Chat _ | ResetSessions => false
  | _ => true
  end.

(** Every division entry of the location cache names a division of the
    collection, with its id and its name. *)
Definition cache_valid (env : Env) (c : gmap string CacheEntry) : Prop :=
  forall key id name, c !! key = Some (CachedDivision id name) ->
    exists d, In d (divisions env) /\ division_id d = id /\ division_name d = name.

(** The link [b] is the link [a], possibly marked used since. *)
Definition link_kept (a b : ReportLink) : Prop :=
  linkId b = linkId a /\ link_userId b = link_userId a /\
  reportType b = reportType a /\ createdAt b = createdAt a /\
  (used a = true -> used b = true).

(** The links of [w] are all in [w'], in the same order and before any
    new link, none of them unmarked. *)
Definition links_kept (w w' : World) : Prop :=
  exists upd extra, links w' = upd ++ extra /\ Forall2 link_kept (links w) upd.

(** The states in which the chat handler stores no report: all but the
    three that wait for a location, a suggestion text or a join text. *)
Definition awake (st : State) : bool :=
  match st with
  | AWAITING_LOCATION | AWAITING_SUGGESTION_TEXT | AWAITING_JOIN => false
  | _ => true
  end.

(** No stored session is in one of the three waiting states. *)
Definition calm (w : World) : Prop :=
  Forall (fun s => awake (current_state s) = true) (sessions w).

(** Started where no session waits, the computation ends where no session
    waits, stores no report, and a result it returns satisfies [Q]. *)
Definition calmly {A : Type} (m : M A) (Q : A -> Prop) : Prop :=
  forall w, calm w ->
    calm (snd (m w)) /\ queries (snd (m w)) = queries w /\
    match fst (m w) with Ok a => Q a | Throw _ => True end.

(** The sessions and the reports are as before. *)
Definition undisturbed (w w' : World) : Prop :=
  sessions w' = sessions w /\ queries w' = queries w.

(** The trace has grown and every stored report is still stored (by its
    id). *)
Definition extends (w w' : World) : Prop :=
  (exists evs, trace w' = trace w ++ evs) /\
  incl (map query_id (queries w)) (map query_id (queries w')).

(** The links are as before. *)
Definition same_links (w w' : World) : Prop := links w' = links w.

(** The status code of the answer. *)
Definition resp_status_of (r : Result Response * World) : option nat :=
  match fst r with
  | Ok resp => Some (resp_status resp)
  | Throw _ => None
  end.

(** The answer says that the coordinate is accepted: status 200 and
    [success: true]. *)
Definition accepts (r : Result Response) : bool :=
  match r with
  | Ok (mkResponse 200 (BJson (("success", JBool true) :: _))) => true
  | _ => false
  end.

(** The outcome of a processing function once the coordinate resolves: a
    result, with the report saved among the new events. *)
Definition processed (d : Division) (w : World) (r : Result ProcessingResult * World) : Prop :=
  exists pr w' pre q post,
    r = (Ok pr, w') /\
    trace w' = trace w ++ pre ++ EvQuerySaved q :: post /\
    division q = Some (division_id d) /\ status q = "Pending" /\
    q_location q <> None /\
    In (query_id q) (map query_id (queries w')).

(** A sequence of requests, each handled at its own instant. *)
Fixpoint serve_all (rs : list (Env * AnyRequest)) (w : World) : World :=
  match rs with
  | [] => w
  | (env, r) :: t => serve_all t (serve env r w)
  end.

End Invariant.

Import Invariant.

(** ** Sample data for the examples *)

Module Sample.

Definition num_vertex (x y : Z) : vertex :=
  [JNumber (Fin (inject_Z x)); JNumber (Fin (inject_Z y))].

(** The square with corners (-1,-1) and (1,1). *)
Definition unit_square : ring :=
  [num_vertex (-1) (-1); num_vertex 1 (-1); num_vertex 1 1; num_vertex (-1) 1].

(** The square with corners (0,0) and (4,4). *)
Definition big_square : ring :=
  [num_vertex 0 0; num_vertex 4 0; num_vertex 4 4; num_vertex 0 4].


Definition officer_a : Officer := mkOfficer "o1" "Asha" "9876543210" "" true.
Definition officer_off : Officer := mkOfficer "o2" "Ravi" "9876500000" "" false.

Definition D1 : Division := mkDivision "d1" "D1" (Some [unit_square]) [].
Definition D2 : Division := mkDivision "d2" "D2" (Some [big_square]) [officer_a; officer_off].

(** The scenario of the design document: a division "D1" around the
    point (18.62, 73.80), without officers or with one active officer. *)
Definition scenario_ring : ring :=
  [num_vertex 73 18; num_vertex 74 18; num_vertex 74 19; num_vertex 73 19].
Definition D1_no_officer : Division := mkDivision "d10" "D1" (Some [scenario_ring]) [].
Definition D1_one_officer : Division :=
  mkDivision "d11" "D1" (Some [scenario_ring]) [officer_a].

Definition sample_getText (key language : string) (args : list string) : string :=
  key +:+ "/" +:+ language.

Definition mk_env (ds : list Division) (t : Z) (deliver : string -> string -> bool) : Env :=
  mkEnv ds t deliver (fun _ _ => "SM1") sample_getText
    (fun language => "LANGUAGE_PROMPT/" +:+ language)
    (fun userNumber option => Some ("L" +:+ option))
    (fun lid => "https://example.org/r/" +:+ lid)
    (fun url language => url)
    (fun file => Some ("https://img.example.org/" +:+ file))
    "https://example.org" (fun s => s) "abcd1234" "req1".

Definition jnum (q : Q) : jsval := JNumber (Fin q).

Definition always : string -> string -> bool := fun _ _ => true.
Definition never : string -> string -> bool := fun _ _ => false.

Definition env0 : Env := mk_env [D1; D2] 1000000 always.
Definition env_no_officer : Env := mk_env [D1_no_officer] 1000000 always.
Definition env_one_officer : Env := mk_env [D1_one_officer] 1000000 always.
Definition env_unreachable : Env := mk_env [D1_one_officer] 1000000 never.
(** The transport refuses the number of the only officer. *)
Definition env_officer_down : Env :=
  mk_env [D1_one_officer] 1000000
    (fun to _ => negb (String.eqb to "whatsapp:+9876543210")).

Definition empty_world : World := mkWorld [] [] [] ∅ [] 0.

Definition link1 : ReportLink := mkLink "L1" "919876543210" "1" 701000 false None.

Definition session_of (st : State) : Session :=
  mkSession "whatsapp:+919876543210" st (Some "1") "en" 999000 (Some "Meera") None None.

Definition world_with (st : State) : World :=
  mkWorld [session_of st] [] [link1] ∅ [] 0.

Definition text_from_user (body : string) : WebhookReq :=
  mkWebhookReq (Some body) (Some "whatsapp:+919876543210") None None None None None None.

(** The session and the world of the handler once the session is loaded. *)
Definition entered_session (env : Env) (req : WebhookReq) (w : World) : Session :=
  match fst (webhook_enter env req w) with
  | Ok s => s
  | Throw _ => session_of MENU
  end.
Definition entered_world (env : Env) (req : WebhookReq) (w : World) : World :=
  snd (webhook_enter env req w).

(** A report of the capture form, without image, from a place outside
    every sample division. *)
Definition report_outside (linkId : option string) : ReportReq :=
  mkReportReq (Some "whatsapp:+919876543210") (Some "1") (Some "pothole")
    (JString "50.0") (JString "50.0") None linkId None.

(** A report from inside the sample division D1, which has no officer. *)
Definition report_inside_D1 : ReportReq :=
  mkReportReq (Some "whatsapp:+919876543210") (Some "4") (Some "pothole")
    (JString "0.5") (JString "0.5") None None None.

Definition location_from_user (lat lng : string) : WebhookReq :=
  mkWebhookReq None (Some "whatsapp:+919876543210") None None None
    (Some lat) (Some lng) None.

(** The scenario with one active officer: what the chat handler does. *)
Definition scenario_events : list Event :=
  trace (snd (handle env_one_officer (ChatEvent (location_from_user "18.62" "73.80"))
                (world_with AWAITING_LOCATION))).

Definition dummy_query : Query :=
  mkQuery 0 "" "" "" None None None None None None "" 0 None None false [].

(** What the report endpoint does for a report inside D1. *)
Definition inside_D1_events : list Event :=
  trace (snd (handle env0 (WebReport report_inside_D1) empty_world)).

Definition inside_D1_before : list Event :=
  match split_at_save inside_D1_events with Some (pre, _, _) => pre | None => [] end.
Definition inside_D1_report : Query :=
  match split_at_save inside_D1_events with Some (_, q, _) => q | None => dummy_query end.
Definition inside_D1_after : list Event :=
  match split_at_save inside_D1_events with Some (_, _, post) => post | None => [] end.

Definition scenario_before : list Event :=
  match split_at_save scenario_events with Some (pre, _, _) => pre | None => [] end.
Definition scenario_report : Query :=
  match split_at_save scenario_events with Some (_, q, _) => q | None => dummy_query end.
Definition scenario_after : list Event :=
  match split_at_save scenario_events with Some (_, _, post) => post | None => [] end.


(** The first messages of a new user, up to the choice of a report
    category, followed by a location. *)
Definition first_contact : list (Env * AnyRequest) :=
  [(env_one_officer, Chat (text_from_user "1"));
   (env_one_officer, Chat (text_from_user "Meera"));
   (env_one_officer, Chat (text_from_user "4"))].

(** A store whose only link has been used. *)
Definition world_used : World :=
  mkWorld [session_of AWAITING_REPORT] []
    [mkLink "L1" "919876543210" "1" 701000 true (Some 800000%Z)] ∅ [] 0.

Definition later_requests : list (Env * AnyRequest) :=
  [(env0, Report (report_outside (Some "L1")));
   (mk_env [D1; D2] 9000000 always, Chat (text_from_user "1"));
   (mk_env [D1; D2] 9000000 always, CheckLink (Some "L1") (Some "whatsapp:+919876543210"))].

(** A report without image from the point of the scenario, naming the
    sample link. *)
Definition report_scenario : ReportReq :=
  mkReportReq (Some "whatsapp:+919876543210") (Some "4") (Some "pothole")
    (JString "18.62") (JString "73.80") None (Some "L1") None.

(** A suggestion of the same user, with a position. *)
Definition suggestion_from_user : SuggestionReq :=
  mkSuggestionReq (Some "Add a signal here") (Some "whatsapp:+919876543210") (Some "L1")
    (Some "18.62") (Some "73.80") None.

End Sample.

(** * Properties *)

(** ** The helpers on small inputs *)

Example parseFloat_decimal : parseFloat (JString "18.62") = Fin (931 # 50).
Proof. vm_compute. reflexivity. Qed.
Example parseFloat_prefix : parseFloat (JString "  -1.5e2xyz") = Fin (-150 # 1).
Proof. vm_compute. reflexivity. Qed.
Example parseFloat_text : parseFloat (JString "abc") = NaN.
Proof. vm_compute. reflexivity. Qed.
Example parseFloat_dot : parseFloat (JString ".") = NaN.
Proof. vm_compute. reflexivity. Qed.
Example truthy_zero_string : truthy (JString "0") = true.
Proof. reflexivity. Qed.
Example truthy_zero_number : truthy (JNumber (Fin 0)) = false.
Proof. reflexivity. Qed.
Example normalizeUserId_plain :
  normalizeUserId "whatsapp:+919876543210" true = "whatsapp:+919876543210".
Proof. vm_compute. reflexivity. Qed.
Example normalizeUserId_blanks : normalizeUserId "WhatsApp:  ++91987" false = "91987".
Proof. vm_compute. reflexivity. Qed.
Example normalizeUserId_twice :
  normalizeUserId "whatsapp:whatsapp: 91987" true = "whatsapp:+91987".
Proof. vm_compute. reflexivity. Qed.
Example cleanUserId_first_only :
  cleanUserId_for_link "whatsapp: +9198whatsapp:7" = "9198whatsapp:7".
Proof. vm_compute. reflexivity. Qed.
Example formatPhoneNumber_local :
  formatPhoneNumber "098765 43210" = "whatsapp:+919876543210".
Proof. vm_compute. reflexivity. Qed.
Example toFixed6_pads : toFixed6 (931 # 50) = "18.620000".
Proof. vm_compute. reflexivity. Qed.
Example toFixed6_negative_zero : toFixed6 (-1 # 10000000) = "-0.000000".
Proof. vm_compute. reflexivity. Qed.
Example toFixed6_half_up : toFixed6 (5 # 10000000) = "0.000001".
Proof. vm_compute. reflexivity. Qed.
Example toFixed6_negative : toFixed6 (-12345678 # 100000) = "-123.456780".
Proof. vm_compute. reflexivity. Qed.
Example split_on_colon : split_on ":" "name: Bob: x" = ["name"; " Bob"; " x"].
Proof. vm_compute. reflexivity. Qed.
Example trim_both : trim "  Bob  " = "Bob".
Proof. vm_compute. reflexivity. Qed.
Example inside_unit_square :
  isPointInPolygon [Sample.jnum (1 # 2); Sample.jnum 0] Sample.unit_square = true.
Proof. vm_compute. reflexivity. Qed.
Example outside_unit_square :
  isPointInPolygon [Sample.jnum (3 # 2); Sample.jnum 0] Sample.unit_square = false.
Proof. vm_compute. reflexivity. Qed.

(** ** Point in polygon *)


Section GeoFacts.

Lemma edge_step_xor x y vi vj b :
  edge_step x y vi vj b = xorb (edge_step x y vi vj false) b.
Proof.
  unfold edge_step.
  destruct (parseFloat (idx vi 0)), (parseFloat (idx vi 1)),
    (parseFloat (idx vj 0)), (parseFloat (idx vj 1)); try (destruct b; reflexivity).
  destruct (intersect _ _ _ _ _ _); destruct b; reflexivity.
Qed.

Lemma last_change_default (l : ring) d d' : l <> [] -> List.last l d = List.last l d'.
Proof.
  induction l as [|a l IH]; [congruence|]. intros _.
  destruct l; [reflexivity|]. cbn [List.last] in *. apply IH. discriminate.
Qed.

Lemma edges_from_app p l1 l2 :
  edges_from p (l1 ++ l2) = edges_from p l1 ++ edges_from (List.last l1 p) l2.
Proof.
  revert p. induction l1 as [|a l1 IH]; intros p; [reflexivity|].
  cbn [app edges_from]. rewrite IH. f_equal. f_equal. f_equal.
  destruct l1 as [|v l1]; [reflexivity|].
  change (List.last (a :: v :: l1) p) with (List.last (v :: l1) p).
  apply last_change_default. discriminate.
Qed.

Lemma last_app_ne (l1 l2 : ring) d : l2 <> [] -> List.last (l1 ++ l2) d = List.last l2 d.
Proof.
  intros H. induction l1 as [|a l1 IH]; [reflexivity|].
  cbn [app]. destruct (l1 ++ l2) eqn:E.
  - apply app_eq_nil in E. destruct E; congruence.
  - cbn [List.last]. exact IH.
Qed.

(** Swapping the two halves of a ring permutes its edges. *)
Lemma edges_swap (l1 l2 : ring) :
  Permutation (edges (l1 ++ l2)) (edges (l2 ++ l1)).
Proof.
  destruct l1 as [|a l1].
  { rewrite app_nil_r. reflexivity. }
  destruct l2 as [|b l2].
  { rewrite app_nil_r. reflexivity. }
  unfold edges. rewrite !edges_from_app.
  rewrite (last_app_ne (a :: l1) (b :: l2)) by discriminate.
  rewrite (last_app_ne (b :: l2) (a :: l1)) by discriminate.
  rewrite (last_change_default (a :: l1) (List.last (b :: l2) []) []) by discriminate.
  rewrite (last_change_default (b :: l2) (List.last (a :: l1) []) []) by discriminate.
  apply Permutation_app_comm.
Qed.

Lemma parity_cons x y e es :
  parity x y (e :: es) = xorb (toggles x y e) (parity x y es).
Proof. reflexivity. Qed.

Lemma parity_app x y es1 es2 :
  parity x y (es1 ++ es2) = xorb (parity x y es1) (parity x y es2).
Proof.
  induction es1 as [|e es1 IH].
  - cbn [app]. change (parity x y []) with false.
    destruct (parity x y es2); reflexivity.
  - cbn [app]. rewrite !parity_cons, IH, xorb_assoc. reflexivity.
Qed.

Lemma parity_perm x y es1 es2 :
  Permutation es1 es2 -> parity x y es1 = parity x y es2.
Proof.
  induction 1 as [|e l l' _ IH|e e' l|l l' l'' _ IH1 _ IH2].
  - reflexivity.
  - rewrite !parity_cons. congruence.
  - rewrite !parity_cons.
    destruct (toggles x y e), (toggles x y e'), (parity x y l); reflexivity.
  - congruence.
Qed.

(** The loop computes the parity of the edges it still has to visit. *)
Lemma pip_loop_parity (polygon : ring) x y :
  forall (done rest : ring) (prev : vertex) (inside : bool),
    polygon = done ++ rest ->
    forall j, vertex_at polygon j = prev ->
    pip_loop polygon x y (length rest) (length done) j inside
    = xorb (parity x y (edges_from prev rest)) inside.
Proof.
  intros done rest. revert done.
  induction rest as [|v rest IH]; intros done prev inside Hp j Hj.
  - cbn. reflexivity.
  - cbn [length pip_loop edges_from]. rewrite parity_cons.
    assert (Hv : vertex_at polygon (length done) = v).
    { unfold vertex_at. rewrite Hp. rewrite app_nth2 by lia.
      replace (length done - length done)%nat with 0%nat by lia. reflexivity. }
    rewrite Hv, Hj.
    replace (S (length done)) with (length (done ++ [v])) by (rewrite length_app; cbn; lia).
    rewrite (IH (done ++ [v]) v).
    + unfold toggles. cbn [fst snd].
      rewrite (edge_step_xor x y v prev inside).
      destruct (edge_step x y v prev false), inside,
        (parity x y (edges_from v rest)); reflexivity.
    + rewrite <- app_assoc. exact Hp.
    + exact Hv.
Qed.

Lemma nth_pred_length_last (l : ring) d :
  nth (length l - 1) l d = List.last l d.
Proof.
  induction l as [|a l IH]; [reflexivity|].
  destruct l as [|b l]; [reflexivity|].
  change (List.last (a :: b :: l) d) with (List.last (b :: l) d).
  rewrite <- IH. cbn [length]. rewrite !Nat.sub_succ, !Nat.sub_0_r.
  reflexivity.
Qed.

Lemma isPointInPolygon_parity (point : list jsval) (polygon : ring) :
  isPointInPolygon point polygon =
  if ((length point <? 2)%nat || (length polygon <? 3)%nat)%bool then false
  else
    match parseFloat (idx point 0), parseFloat (idx point 1) with
    | Fin x, Fin y => parity x y (edges polygon)
    | _, _ => false
    end.
Proof.
  unfold isPointInPolygon.
  destruct ((length point <? 2)%nat || (length polygon <? 3)%nat)%bool; [reflexivity|].
  destruct (parseFloat (idx point 0)) as [|x]; [reflexivity|].
  destruct (parseFloat (idx point 1)) as [|y]; [reflexivity|].
  destruct polygon as [|v0 rest0]; [reflexivity|].
  rewrite (pip_loop_parity (v0 :: rest0) x y [] (v0 :: rest0) (List.last (v0 :: rest0) []) false eq_refl).
  - unfold edges. destruct (parity _ _ _); reflexivity.
  - unfold vertex_at. apply nth_pred_length_last.
Qed.

(** *** The test on rectangles *)

Lemma Qltb_lt a b : Qltb a b = true <-> (a < b)%Q.
Proof.
  unfold Qltb. rewrite negb_true_iff. split.
  - intros H. apply Qnot_le_lt. intros Hle. apply Qle_bool_iff in Hle. congruence.
  - intros H. destruct (Qle_bool b a) eqn:E; [|reflexivity].
    apply Qle_bool_iff in E. exfalso. exact (Qlt_not_le _ _ H E).
Qed.

Lemma Qltb_comp a b b' : (b == b')%Q -> Qltb a b = Qltb a b'.
Proof. intros Hb. unfold Qltb. rewrite Hb. reflexivity. Qed.

(** Where the quotient of the edge test is evaluated, its divisor is not
    zero. *)
Lemma intersect_divisor (yi yj y : Q) :
  negb (Bool.eqb (Qltb y yi) (Qltb y yj)) = true -> ~ (yj - yi == 0)%Q.
Proof.
  intros H E. assert (Hy : (yi == yj)%Q).
  { rewrite <- (Qplus_0_l yi), <- E. ring. }
  rewrite (Qltb_comp y yi yj Hy), Bool.eqb_reflx in H. discriminate H.
Qed.

Lemma intersect_horizontal xi yi xj x y : intersect xi yi xj yi x y = false.
Proof. unfold intersect. rewrite Bool.eqb_reflx. reflexivity. Qed.

Lemma intersect_vertical a yi yj x y :
  intersect a yi a yj x y = negb (Bool.eqb (Qltb y yi) (Qltb y yj)) && Qltb x a.
Proof.
  unfold intersect.
  destruct (negb (Bool.eqb (Qltb y yi) (Qltb y yj))); [|reflexivity].
  cbn [andb]. apply Qltb_comp. unfold Qdiv. ring.
Qed.

(** On a rectangle the test answers for the half-open box. *)
Lemma rectangle_test (x0 y0 x1 y1 x y : Q) :
  isPointInPolygon [JNumber (Fin x); JNumber (Fin y)] (rectangle x0 y0 x1 y1)
  = negb (Bool.eqb (Qltb y y0) (Qltb y y1)) && xorb (Qltb x x0) (Qltb x x1).
Proof.
  rewrite isPointInPolygon_parity. unfold rectangle.
  cbn [length Nat.ltb Nat.leb orb idx nth parseFloat edges edges_from List.last].
  unfold parity. cbn [fold_right]. unfold toggles, edge_step.
  cbn [fst snd idx nth parseFloat].
  rewrite !intersect_horizontal, !intersect_vertical.
  destruct (Qltb y y0), (Qltb y y1), (Qltb x x0), (Qltb x x1); reflexivity.
Qed.



(** C9. Rotating the vertex list of a ring by any amount does not change
    the answer of [isPointInPolygon], for every point and every ring; in
    particular for the rings of at least three numeric vertices. *)
Theorem isPointInPolygon_rotate (point : list jsval) (polygon : ring) (k : nat) :
  isPointInPolygon point (rotate k polygon) = isPointInPolygon point polygon.
Proof.
  rewrite !isPointInPolygon_parity, length_rotate.
  destruct ((length point <? 2)%nat || (length polygon <? 3)%nat)%bool; [reflexivity|].
  destruct (parseFloat (idx point 0)) as [|x]; [reflexivity|].
  destruct (parseFloat (idx point 1)) as [|y]; [reflexivity|].
  apply parity_perm. unfold rotate.
  etransitivity; [apply edges_swap|].
  rewrite take_drop. reflexivity.
Qed.

End GeoFacts.

(** ** Session manager *)

Section SessionFacts.

Variable env : Env.

(** C10. [updateUserSession] overwrites [current_state], [last_option] and
    [last_interaction]; it leaves [language] as it was when [newLanguage]
    is absent or empty and takes the new one otherwise; it changes no
    other field of the session, and the only store it writes is the
    session collection, where it saves the session. *)
Theorem updateUserSession_frame (session : Session) (newState : State)
    (newLastOption newLanguage : option string) (w : World) :
  exists session',
    updateUserSession env session newState newLastOption newLanguage w
      = (Ok session', log (EvSessionSaved session')
                        (set_sessions (upsert_session session') w)) /\
    current_state session' = newState /\
    last_option session' = newLastOption /\
    last_interaction session' = now env /\
    language session' =
      (if truthy_str newLanguage then or_str newLanguage "" else language session) /\
    user_id session' = user_id session /\
    user_name session' = user_name session /\
    last_description session' = last_description session /\
    last_photo_url session' = last_photo_url session.
Proof.
  eexists. split; [reflexivity|].
  cbn. repeat split.
  destruct newLanguage as [l|]; cbn; [|reflexivity].
  destruct (String.eqb l ""); reflexivity.
Qed.

End SessionFacts.

(** ** Capture links *)

Section LinkFacts.

Variable env : Env.

Lemma diffMinutes_gt_5 (l : ReportLink) :
  Qltb 5 (diffMinutes env l) = (300000 <? Z.abs (now env - createdAt l))%Z.
Proof.
  unfold diffMinutes, Qltb, Qle_bool, Qdiv, Qmult, Qinv, inject_Z. cbn.
  generalize (Z.abs (now env - createdAt l)). intros a.
  change (Z.pos (1 * 60000)) with 60000%Z.
  destruct (Z.leb_spec (a * 1 * 1) (5 * 60000)), (Z.ltb_spec 300000 a);
    cbn; try reflexivity; lia.
Qed.

(** The outcome of a link check for a request that names a link and a
    user: existence first, then the used flag, then the age. *)
Lemma validate_spec (lid uid : string) (w : World) :
  truthy_str (Some lid) = true ->
  truthy_str (Some uid) = true ->
  validate env lid uid w =
  Some match find_link lid (cleanUserId_for_link uid) w with
       | None => NotFound
       | Some l =>
           if used l then AlreadyUsed
           else if (300000 <? Z.abs (now env - createdAt l))%Z then Expired
           else Valid
       end.
Proof.
  intros Hl Hu. unfold validate, check_link_validity, try_catch.
  rewrite Hl, Hu. cbn [negb orb].
  assert (El : or_str (Some lid) "" = lid).
  { cbn in *. destruct (String.eqb lid ""); [discriminate|reflexivity]. }
  assert (Eu : or_str (Some uid) "" = uid).
  { cbn in *. destruct (String.eqb uid ""); [discriminate|reflexivity]. }
  rewrite El, Eu. unfold bind, get.
  destruct (find_link lid (cleanUserId_for_link uid) w) as [l|]; [|reflexivity].
  destruct (used l); [reflexivity|].
  rewrite diffMinutes_gt_5.
  destruct (300000 <? Z.abs (now env - createdAt l))%Z; reflexivity.
Qed.


(** The check reads the stores and writes nothing. *)
Lemma check_link_validity_readonly (lid uid : option string) (w : World) :
  snd (check_link_validity env lid uid w) = w.
Proof.
  unfold check_link_validity, try_catch, bind, get.
  destruct (negb (truthy_str lid) || negb (truthy_str uid))%bool; [reflexivity|].
  destruct (find_link _ _ w) as [l|]; [|reflexivity].
  destruct (used l); [reflexivity|].
  destruct (Qltb 5 (diffMinutes env l)); reflexivity.
Qed.

End LinkFacts.


(** The same link two seconds later, at the age of 5:01, has expired; a
    used link reports so whatever its age. *)
Example validate_expired :
  validate (Sample.mk_env [] 1002000 Sample.always) "L1" "whatsapp:+919876543210"
    (Sample.world_with MENU) = Some Expired.
Proof. vm_compute. reflexivity. Qed.

Example validate_used_first :
  validate (Sample.mk_env [] 9000000 Sample.always) "L1" "+919876543210"
    (mkWorld [] [] [mkLink "L1" "919876543210" "1" 701000 true (Some 800000%Z)] ∅ [] 0)
  = Some AlreadyUsed.
Proof. vm_compute. reflexivity. Qed.

Example validate_unknown :
  validate Sample.env0 "L2" "whatsapp:+919876543210" (Sample.world_with MENU)
  = Some NotFound.
Proof. vm_compute. reflexivity. Qed.

(** ** Division resolution *)

Section ResolveFacts.

Variable env : Env.

Lemma scan_divisions_find (lng lat : Q) (ds : list Division) :
  scan_divisions lng lat ds = List.find (division_contains lng lat) ds.
Proof.
  induction ds as [|d ds IH]; [reflexivity|].
  cbn [scan_divisions List.find]. unfold division_contains at 1.
  destruct (boundaries d) as [[|polygon rest]|]; try exact IH.
  rewrite Nat.ltb_antisym.
  destruct (3 <=? length polygon)%nat; cbn [negb andb]; [|exact IH].
  destruct (isPointInPolygon _ polygon); [reflexivity|exact IH].
Qed.

(** What a call does once its inputs pass the validation. *)
Lemma findDivisionForLocation_accepted (latitude longitude : jsval) (lat lng : Q) (w : World) :
  truthy latitude = true -> truthy longitude = true ->
  parseFloat latitude = Fin lat -> parseFloat longitude = Fin lng ->
  findDivisionForLocation env latitude longitude w =
  match locationCache w !! cacheKey lat lng with
  | Some (CachedDivision id _) =>
      (Ok (List.find (fun d => String.eqb (division_id d) id) (divisions env)),
       log (EvDivisionFindById id) w)
  | Some CachedOutside => (Ok None, w)
  | None =>
      match scan_divisions lng lat (divisions env) with
      | Some d =>
          (Ok (Some d),
           set_cache (insert (cacheKey lat lng)
                        (CachedDivision (division_id d) (division_name d)))
             (log EvDivisionFind w))
      | None =>
          (Ok None, set_cache (insert (cacheKey lat lng) CachedOutside) (log EvDivisionFind w))
      end
  end.
Proof.
  intros Hlat Hlng Plat Plng.
  unfold findDivisionForLocation, try_catch.
  rewrite Hlat, Hlng, Plat, Plng. cbn [negb orb].
  unfold bind at 1. unfold get at 1. cbn beta iota.
  destruct (locationCache w !! cacheKey lat lng) as [[id name|]|]; try reflexivity.
  unfold bind, find_all_divisions, emit, modify, ret; cbn.
  destruct (scan_divisions lng lat (divisions env)); reflexivity.
Qed.

(** A call whose inputs fail the validation answers null and does nothing. *)
Lemma findDivisionForLocation_rejected (latitude longitude : jsval) (w : World) :
  (truthy latitude && truthy longitude)%bool = false ->
  findDivisionForLocation env latitude longitude w = (Ok None, w).
Proof.
  intros H. unfold findDivisionForLocation, try_catch.
  destruct (truthy latitude), (truthy longitude); try discriminate; reflexivity.
Qed.



End ResolveFacts.



Section CacheFacts.

Variable env : Env.

Lemma find_In {A} (f : A -> bool) (l : list A) (x : A) :
  List.find f l = Some x -> In x l.
Proof. intros H. apply List.find_some in H. tauto. Qed.

(** Division ids are unique, so looking a division up by its id gives it
    back. *)
Lemma findById_unique (ds : list Division) (d : Division) :
  NoDup (map division_id ds) -> In d ds ->
  List.find (fun d' => String.eqb (division_id d') (division_id d)) ds = Some d.
Proof.
  induction ds as [|a ds IH]; intros Hnd Hin; [contradiction|].
  cbn [map] in Hnd. apply NoDup_cons in Hnd as [Hnotin Hnd].
  cbn [List.find]. destruct Hin as [->|Hin].
  - rewrite String.eqb_refl. reflexivity.
  - destruct (String.eqb_spec (division_id a) (division_id d)) as [E|_].
    + exfalso. apply Hnotin. rewrite E. apply list_elem_of_In.
      apply in_map. exact Hin.
    + apply IH; assumption.
Qed.




End CacheFacts.


(** ** Conversation engine *)

Section EngineFacts.

Variable env : Env.

(** C7 at the state LANGUAGE_SELECT: the text "menu" is read as an invalid
    language choice.  The language prompt is sent again and the state
    stays LANGUAGE_SELECT; the branch of the menu command is never
    reached. *)
Theorem menu_in_language_select (session : Session) (userNumber : string)
    (latitude longitude locationAddress : option string) (w : World) :
  current_state session = LANGUAGE_SELECT ->
  dispatch env session "menu" userNumber latitude longitude locationAddress w
  = (Ok (Continue session
           (mkVars (getLanguagePrompt env (userLanguage_of session))
              LANGUAGE_SELECT (last_option session) (userLanguage_of session))), w).
Proof.
  intros Hst. unfold dispatch. rewrite Hst. reflexivity.
Qed.

(** At the state NAME_COLLECTION the text "menu" is stored as the name of
    the user; the reply is the name confirmation followed by the menu. *)
Lemma menu_in_name_collection (session : Session) (userNumber : string)
    (latitude longitude locationAddress : option string) (w : World) :
  current_state session = NAME_COLLECTION ->
  dispatch env session "menu" userNumber latitude longitude locationAddress w
  = (Ok (Continue (set_user_name session "menu")
           (mkVars (getText env "NAME_CONFIRMATION" (userLanguage_of session) ["menu"]
                    +:+ nl +:+ nl +:+ getMainMenu env (userLanguage_of session))
              MENU (last_option session) (userLanguage_of session))),
     log (EvSessionSaved (set_user_name session "menu"))
       (set_sessions (upsert_session (set_user_name session "menu")) w)).
Proof.
  intros Hst. unfold dispatch. rewrite Hst. reflexivity.
Qed.

(** From the other six states the command leads to the menu. *)
Lemma menu_in_other_states (session : Session) (userNumber : string)
    (latitude longitude locationAddress : option string) (w : World) :
  current_state session <> LANGUAGE_SELECT ->
  current_state session <> NAME_COLLECTION ->
  dispatch env session "menu" userNumber latitude longitude locationAddress w
  = (Ok (Continue session
           (mkVars (getMainMenu env (userLanguage_of session)) MENU None
              (userLanguage_of session))), w).
Proof.
  intros H1 H2. unfold dispatch.
  destruct (current_state session); try congruence; reflexivity.
Qed.

End EngineFacts.

(** A new user who sends "menu" gets the language prompt. *)
Lemma menu_in_language_select_witness :
  dispatch Sample.env0 (Sample.session_of LANGUAGE_SELECT) "menu"
    "whatsapp:+919876543210" None None None (Sample.world_with LANGUAGE_SELECT)
  = (Ok (Continue (Sample.session_of LANGUAGE_SELECT)
           (mkVars "LANGUAGE_PROMPT/en" LANGUAGE_SELECT (Some "1") "en")),
     Sample.world_with LANGUAGE_SELECT).
Proof.
  exact (menu_in_language_select Sample.env0 (Sample.session_of LANGUAGE_SELECT)
           "whatsapp:+919876543210" None None None
           (Sample.world_with LANGUAGE_SELECT) eq_refl).
Defined.

(** Two scenarios of the design document: "1" from LANGUAGE_SELECT without
    a stored name leads to NAME_COLLECTION with the name request; after
    more than an hour of inactivity a session with a stored name restarts
    in MENU. *)
Example language_choice_without_name :
  dispatch Sample.env0
    (mkSession "whatsapp:+919876543210" LANGUAGE_SELECT None "en" 999000 None None None)
    "1" "whatsapp:+919876543210" None None None Sample.empty_world
  = (Ok (Continue
           (mkSession "whatsapp:+919876543210" LANGUAGE_SELECT None "en" 999000 None None None)
           (mkVars "NAME_REQUEST/en" NAME_COLLECTION None "en")),
     Sample.empty_world).
Proof. vm_compute. reflexivity. Qed.

Example timeout_with_name_restarts_in_menu :
  option_map current_state
    (match fst (getUserSession (Sample.mk_env [] 5000000 Sample.always)
                  "whatsapp:+919876543210" (Sample.world_with AWAITING_REPORT)) with
     | Ok s => Some s
     | Throw _ => None
     end) = Some MENU.
Proof. vm_compute. reflexivity. Qed.

(** The same through the whole handler: the stored session stays in
    LANGUAGE_SELECT and the reply is the language prompt. *)
Example webhook_menu_keeps_language_select :
  let w' := snd (webhook Sample.env0 (Sample.text_from_user "menu")
                   (Sample.world_with LANGUAGE_SELECT)) in
  option_map current_state (find_session "whatsapp:+919876543210" w') = Some LANGUAGE_SELECT /\
  List.last (trace w') EvDivisionFind
  = EvMessage "whatsapp:+919876543210" "LANGUAGE_PROMPT/en" true.
Proof. vm_compute. split; reflexivity. Qed.

(** ** Effects of the building blocks *)

Section Keeps.

Context (R : World -> World -> Prop).
Hypothesis R_refl : forall w, R w w.
Hypothesis R_trans : forall a b c, R a b -> R b c -> R a c.

Lemma keeps_ret {A} (a : A) : keeps R (ret a).
Proof. intros w. apply R_refl. Qed.

Lemma keeps_throw {A} (e : string) : keeps R (@throw A e).
Proof. intros w. apply R_refl. Qed.

Lemma keeps_get : keeps R get.
Proof. intros w. apply R_refl. Qed.

Lemma keeps_bind {A B} (m : M A) (k : A -> M B) :
  keeps R m -> (forall a, keeps R (k a)) -> keeps R (bind m k).
Proof.
  intros Hm Hk w. unfold bind. specialize (Hm w).
  destruct (m w) as [[a|e] w1]; cbn [snd] in *.
  - eapply R_trans; [exact Hm|apply Hk].
  - exact Hm.
Qed.

Lemma keeps_try_catch {A} (m : M A) (h : string -> M A) :
  keeps R m -> (forall e, keeps R (h e)) -> keeps R (try_catch m h).
Proof.
  intros Hm Hh w. unfold try_catch. specialize (Hm w).
  destruct (m w) as [[a|e] w1]; cbn [snd] in *.
  - exact Hm.
  - eapply R_trans; [exact Hm|apply Hh].
Qed.

End Keeps.

Section NoReport.

Variable env : Env.

Lemma silent_nil : silent [].
Proof. intros q H. exact H. Qed.

Lemma silent_app (a b : list Event) : silent a -> silent b -> silent (a ++ b).
Proof.
  intros Ha Hb q H. apply in_app_or in H as [H|H]; [eapply Ha|eapply Hb]; exact H.
Qed.

Lemma no_report_refl (w : World) : no_report w w.
Proof.
  split; [reflexivity|]. exists []. rewrite app_nil_r. split; [reflexivity|apply silent_nil].
Qed.

Lemma no_report_trans (a b c : World) : no_report a b -> no_report b c -> no_report a c.
Proof.
  intros [Hq1 (e1 & Ht1 & Hs1)] [Hq2 (e2 & Ht2 & Hs2)].
  split; [congruence|]. exists (e1 ++ e2). split.
  - rewrite Ht2, Ht1, app_assoc. reflexivity.
  - apply silent_app; assumption.
Qed.

Lemma nr_emit (e : Event) :
  (forall q, e <> EvQuerySaved q) -> keeps no_report (emit e).
Proof.
  intros He w. split; [reflexivity|]. exists [e]. split; [reflexivity|].
  intros q [H|[]]. exact (He q H).
Qed.

Lemma nr_frame (f : World -> World) :
  (forall w, queries (f w) = queries w) -> (forall w, trace (f w) = trace w) ->
  keeps no_report (modify f).
Proof.
  intros Hq Ht w. split; [apply Hq|]. exists []. cbn.
  rewrite Ht, app_nil_r. split; [reflexivity|apply silent_nil].
Qed.

End NoReport.

(** Steps through a computation that keeps [no_report]. *)
Ltac nr_step :=
  lazymatch goal with
  | |- keeps no_report (bind _ _) =>
      apply (keeps_bind no_report no_report_trans); [|intros ?]
  | |- keeps no_report (try_catch _ _) =>
      apply (keeps_try_catch no_report no_report_trans); [|intros ?]
  | |- keeps no_report (ret _) => apply (keeps_ret no_report no_report_refl)
  | |- keeps no_report (throw _) => apply (keeps_throw no_report no_report_refl)
  | |- keeps no_report get => apply (keeps_get no_report no_report_refl)
  | |- keeps no_report (emit _) => apply nr_emit; intros ?; discriminate
  | |- keeps no_report (modify _) => apply nr_frame; intros ?; reflexivity
  | |- keeps no_report (if ?b then _ else _) => destruct b
  | |- keeps no_report (match ?x with _ => _ end) => destruct x
  | |- keeps no_report (let '(_, _) := ?x in _) => destruct x
  end.

Section NoReportBlocks.

Variable env : Env.

Lemma nr_messages_create (to body : string) : keeps no_report (messages_create env to body).
Proof. unfold messages_create. repeat nr_step. Qed.

Lemma nr_sendWhatsAppMessage (to body : string) :
  keeps no_report (sendWhatsAppMessage env to body).
Proof. unfold sendWhatsAppMessage. nr_step; [nr_step|apply nr_messages_create]. Qed.

Lemma nr_findDivisionForLocation (latitude longitude : jsval) :
  keeps no_report (findDivisionForLocation env latitude longitude).
Proof.
  unfold findDivisionForLocation, findById, find_all_divisions. repeat nr_step.
Qed.

Lemma nr_save_session (s : Session) : keeps no_report (save_session s).
Proof. unfold save_session. repeat nr_step. Qed.

Lemma nr_getUserSession (userId : string) : keeps no_report (getUserSession env userId).
Proof.
  unfold getUserSession. nr_step; [nr_step|].
  repeat nr_step; apply nr_save_session.
Qed.

Lemma nr_updateUserSession (s : Session) (st : State) (o l : option string) :
  keeps no_report (updateUserSession env s st o l).
Proof. unfold updateUserSession. repeat nr_step. apply nr_save_session. Qed.

Lemma nr_notify_from_chat (msg : string) (os : list Officer) (acc : list NotifiedContact) :
  keeps no_report (notify_from_chat env msg os acc).
Proof.
  revert acc. induction os as [|o os IH]; intros acc; cbn [notify_from_chat].
  - nr_step.
  - nr_step; [|apply IH]. nr_step; [|nr_step]. nr_step; [|nr_step].
    apply nr_sendWhatsAppMessage.
Qed.

Lemma nr_resend_from_chat (msg : string) (cs : list NotifiedContact) :
  keeps no_report (resend_from_chat env msg cs).
Proof.
  induction cs as [|c cs IH]; cbn [resend_from_chat].
  - nr_step.
  - nr_step; [|apply IH]. nr_step; [|nr_step]. nr_step; [|nr_step].
    apply nr_sendWhatsAppMessage.
Qed.

Lemma nr_reject_location (s : Session) (userNumber msg language : string) :
  keeps no_report (reject_location env s userNumber msg language).
Proof.
  unfold reject_location. nr_step; [apply nr_updateUserSession|].
  nr_step; [apply nr_messages_create|nr_step].
Qed.

Lemma nr_getCaptureUrl (userNumber reportType : string) :
  keeps no_report (getCaptureUrl env userNumber reportType).
Proof. unfold getCaptureUrl. repeat nr_step. Qed.

Lemma nr_processMedia (req : WebhookReq) : keeps no_report (processMedia env req).
Proof. unfold processMedia. repeat nr_step. Qed.

Lemma nr_findOneAndUpdate_used (lid uid : string) :
  keeps no_report (findOneAndUpdate_used env lid uid).
Proof. unfold findOneAndUpdate_used. repeat nr_step. Qed.

End NoReportBlocks.

(** ** The location branch of the chat handler *)

Section LocationBranch.

Variable env : Env.

Lemma bind_ok {A B} (m : M A) (k : A -> M B) (w w1 : World) (a : A) :
  m w = (Ok a, w1) -> bind m k w = k a w1.
Proof. intros H. unfold bind. rewrite H. reflexivity. Qed.

Lemma find_session_user_id (u : string) (w : World) (s : Session) :
  find_session u w = Some s -> user_id s = u.
Proof.
  unfold find_session. intros H. apply List.find_some in H as [_ H].
  apply String.eqb_eq. exact H.
Qed.

Lemma getUserSession_ok (u : string) (w : World) :
  exists s w', getUserSession env u w = (Ok s, w') /\ user_id s = u.
Proof.
  unfold getUserSession, bind, get.
  destruct (find_session u w) as [s|] eqn:Hf.
  - apply find_session_user_id in Hf.
    destruct (conversationTimeout <? now env - last_interaction s)%Z;
      eexists; eexists; (split; [reflexivity|exact Hf]).
  - eexists; eexists; (split; [reflexivity|reflexivity]).
Qed.

Lemma enter_preamble_ok (req : WebhookReq) (w : World) :
  exists w1,
    (if truthy_str (NumMedia req) then
       match parseInt (or_str (NumMedia req) "") with
       | Some n => if (0 <? n)%Z then processMedia env req ;;; ret tt else ret tt
       | None => ret tt
       end
     else ret tt) w = (Ok tt, w1).
Proof.
  destruct (truthy_str (NumMedia req)); [|eexists; reflexivity].
  destruct (parseInt _) as [n|]; [|eexists; reflexivity].
  destruct (0 <? n)%Z; [|eexists; reflexivity].
  unfold processMedia, bind.
  destruct (MediaUrl0 req) as [u|]; [|eexists; reflexivity].
  destruct (String.eqb u ""); [eexists; reflexivity|].
  destruct (uploadImageToR2 env u); eexists; reflexivity.
Qed.

Lemma webhook_enter_ok (req : WebhookReq) (w : World) :
  exists s w0, webhook_enter env req w = (Ok s, w0) /\ user_id s = or_str (From req) "".
Proof.
  unfold webhook_enter.
  destruct (enter_preamble_ok req w) as (w1 & H1).
  rewrite (bind_ok _ _ _ _ _ H1).
  apply getUserSession_ok.
Qed.

Lemma nr_webhook_enter (req : WebhookReq) : keeps no_report (webhook_enter env req).
Proof.
  unfold webhook_enter. nr_step; [|apply nr_getUserSession].
  repeat nr_step. apply nr_processMedia.
Qed.

Lemma find_session_upsert (s : Session) (l : list Session) :
  List.find (fun s' => String.eqb (user_id s') (user_id s)) (upsert_session s l) = Some s.
Proof.
  induction l as [|a l IH]; cbn [upsert_session List.find].
  - rewrite String.eqb_refl. reflexivity.
  - destruct (String.eqb (user_id a) (user_id s)) eqn:E; cbn [List.find].
    + rewrite String.eqb_refl. reflexivity.
    + rewrite E. exact IH.
Qed.

(** When no officer to notify can be reached, the loop returns the list it
    started with. *)
Lemma notify_from_chat_unreachable (msg : string) (os : list Officer)
    (acc : list NotifiedContact) (w : World) :
  (forall o, In o os -> unreachable env msg o) ->
  exists w', notify_from_chat env msg os acc w = (Ok acc, w') /\ no_report w w'.
Proof.
  revert w. induction os as [|o os IH]; intros w Hun; cbn [notify_from_chat].
  - exists w. split; [reflexivity|apply no_report_refl].
  - assert (Ho : exists w1,
      try_catch
        (sendWhatsAppMessage env (phone o) msg ;;;
         ret (acc ++ [mkContact None None (phone o) (now env) None]))
        (fun _ => ret acc) w = (Ok acc, w1) /\ no_report w w1).
    { destruct (Hun o (or_introl eq_refl)) as [Hp|Hd].
      - exists w. unfold try_catch, bind, sendWhatsAppMessage. rewrite Hp. cbn.
        split; [reflexivity|apply no_report_refl].
      - unfold try_catch, bind, sendWhatsAppMessage.
        destruct (String.eqb (phone o) "").
        + exists w. split; [reflexivity|apply no_report_refl].
        + unfold messages_create. rewrite Hd. cbn.
          eexists. split; [reflexivity|].
          split; [reflexivity|]. exists [EvMessage (normalizeUserId (phone o) true) msg false].
          split; [reflexivity|]. intros q [H|[]]. discriminate H. }
    destruct Ho as (w1 & H1 & Hnr1).
    rewrite (bind_ok _ _ _ _ _ H1).
    destruct (IH w1 (fun o' Hin => Hun o' (or_intror Hin))) as (w2 & H2 & Hnr2).
    exists w2. split; [exact H2|]. eapply no_report_trans; eassumption.
Qed.

(** What the rejection does: the session is saved in state MENU, then the
    text is sent to the user; the request ends with status 200, or with an
    exception when the text is not delivered. *)
Lemma reject_location_run (s : Session) (userNumber msg language : string) (w : World) :
  let s' := mkSession (user_id s) MENU None
              (if String.eqb language "" then Model.language s else language)
              (now env) (user_name s) (last_description s) (last_photo_url s) in
  let w1 := log (EvSessionSaved s') (set_sessions (upsert_session s') w) in
  reject_location env s userNumber msg language w =
  if deliver env userNumber msg
  then (Ok (Returned (mkResponse 200 empty_twiml)), log (EvMessage userNumber msg true) w1)
  else (Throw "message not accepted", log (EvMessage userNumber msg false) w1).
Proof.
  cbn zeta. unfold reject_location, updateUserSession, messages_create, bind, save_session.
  cbn. destruct (deliver env userNumber msg); reflexivity.
Qed.

(** With no reachable officer the location branch ends in the rejection,
    in a world whose report store is the one it started with. *)
Lemma awaiting_location_unreachable (session : Session) (userNumber : string)
    (latitude longitude locationAddress lastOption : option string)
    (userLanguage : string) (v : Vars) (d : Division) (w0 w1 : World) :
  truthy_str latitude = true ->
  truthy_str longitude = true ->
  findDivisionForLocation env (JString (or_str latitude "")) (JString (or_str longitude ""))
    w0 = (Ok (Some d), w1) ->
  (forall o, In o (officersToNotify d) ->
     unreachable env
       (chat_officer_message env "/resolve.html?id=" d (reportType_of_option lastOption)
          locationAddress (or_str (last_description session) "No description provided")
          (next_id w1)) o) ->
  exists w2,
    no_report w1 w2 /\
    awaiting_location env session userNumber latitude longitude locationAddress
      lastOption userLanguage v w0
    = reject_location env session userNumber
        (getText env "NOTIFICATION_FAILED" userLanguage []) (newLanguage v) w2.
Proof.
  intros Hlat Hlng Hdiv Hun.
  unfold awaiting_location. rewrite Hlat, Hlng. cbn [andb].
  rewrite (bind_ok _ _ _ _ _ Hdiv).
  unfold bind at 1. unfold fresh_id at 1. cbn beta iota.
  assert (Hb : no_report w1 (bump_id w1)).
  { split; [reflexivity|]. exists []. cbn. rewrite app_nil_r.
    split; [reflexivity|apply silent_nil]. }
  destruct (0 <? length (officers d))%nat.
  - destruct (0 <? length (officersToNotify d))%nat.
    + match goal with
      | |- context [notify_from_chat env ?msg ?os ?acc] =>
          destruct (notify_from_chat_unreachable msg os acc (bump_id w1) Hun)
            as (w2 & H2 & Hnr)
      end.
      exists w2. split; [exact (no_report_trans _ _ _ Hb Hnr)|].
      rewrite (bind_ok _ _ _ _ _ H2). reflexivity.
    + exists (bump_id w1). split; [exact Hb|reflexivity].
  - exists (bump_id w1). split; [exact Hb|reflexivity].
Qed.

(** C2. A chat event handled in state AWAITING_LOCATION (the session
    loaded for it is in that state and its text is neither the reset nor
    the menu command) with both coordinates, whose division resolves and
    for which the notification reaches none of the officers to notify (the
    first two active ones; in particular when the division has no
    officer): the pipeline answers the user with the NOTIFICATION_FAILED
    text, the report store is left as it was, and the stored session of
    the user is in state MENU.  The HTTP status is 200 when that answer is
    delivered. *)
Theorem notification_failed_rejects (req : WebhookReq) (w w0 w1 : World)
    (session : Session) (d : Division) :
  let userNumber := or_str (From req) "" in
  let userMessage := or_str (Body_ req) "" in
  let text := getText env "NOTIFICATION_FAILED" (userLanguage_of session) [] in
  webhook_enter env req w = (Ok session, w0) ->
  current_state session = AWAITING_LOCATION ->
  String.eqb (toLowerCase userMessage) "reset" = false ->
  String.eqb (toLowerCase userMessage) "menu" = false ->
  truthy_str (Latitude req) = true ->
  truthy_str (Longitude req) = true ->
  findDivisionForLocation env (JString (or_str (Latitude req) ""))
    (JString (or_str (Longitude req) "")) w0 = (Ok (Some d), w1) ->
  (forall o, In o (officersToNotify d) ->
     unreachable env (chat_notification env session req d (next_id w1)) o) ->
  let w' := snd (webhook env req w) in
  queries w' = queries w /\
  option_map current_state (find_session userNumber w') = Some MENU /\
  (exists pre, trace w' = pre ++ [EvMessage userNumber text (deliver env userNumber text)]) /\
  fst (webhook env req w)
  = Ok (mkResponse (if deliver env userNumber text then 200 else 500) empty_twiml).
Proof.
  intros userNumber userMessage text Henter Hst Hreset Hmenu Hlat Hlng Hdiv Hun.
  assert (Huid : user_id session = userNumber).
  { destruct (webhook_enter_ok req w) as (s & w0' & E & Hu).
    rewrite Henter in E. injection E as <- <-. exact Hu. }
  assert (Hq0 : queries w0 = queries w).
  { pose proof (nr_webhook_enter req w) as H. rewrite Henter in H. apply H. }
  assert (Hq1 : queries w1 = queries w0).
  { pose proof (nr_findDivisionForLocation env (JString (or_str (Latitude req) ""))
                  (JString (or_str (Longitude req) "")) w0) as H.
    rewrite Hdiv in H. apply H. }
  assert (Hn : forall o : option string, truthy_str o = true -> nonempty o = o).
  { intros o H. unfold nonempty. rewrite H. reflexivity. }
  assert (Hw : exists w2, queries w2 = queries w1 /\
    let s' := mkSession (user_id session) MENU None
                (if String.eqb (userLanguage_of session) "" then language session
                 else userLanguage_of session)
                (now env) (user_name session) (last_description session)
                (last_photo_url session) in
    let w3 := log (EvSessionSaved s') (set_sessions (upsert_session s') w2) in
    webhook env req w =
    (Ok (mkResponse (if deliver env userNumber text then 200 else 500) empty_twiml),
     log (EvMessage userNumber text (deliver env userNumber text)) w3)).
  { unfold webhook, webhook_body, try_catch.
    rewrite (bind_ok _ _ _ _ _ Henter).
    unfold dispatch. fold userMessage. rewrite Hreset, Hst, Hmenu. cbn [State_eqb].
    fold userNumber. rewrite (Hn _ Hlat), (Hn _ Hlng).
    fold (userLanguage_of session).
    match goal with
    | |- context [awaiting_location env session userNumber ?la ?lo ?ad ?op ?ul ?v] =>
        destruct (awaiting_location_unreachable session userNumber la lo ad op ul v d w0 w1
                    Hlat Hlng Hdiv Hun) as (w2 & Hnr & Hrun)
    end.
    exists w2. split; [apply Hnr|]. cbn zeta.
    unfold bind at 1. rewrite Hrun, reject_location_run. cbn [newLanguage].
    fold text.
    destruct (deliver env userNumber text); reflexivity. }
  destruct Hw as (w2 & Hq2 & Hw). cbn zeta in Hw.
  intros w'. subst w'. rewrite Hw. cbn [fst snd].
  repeat split.
  - cbn. congruence.
  - unfold find_session, log, set_sessions. cbn [sessions].
    match goal with |- context [upsert_session ?s' _] =>
      change userNumber with (or_str (From req) "");
      replace (or_str (From req) "") with (user_id s') by exact Huid;
      rewrite (find_session_upsert s') end.
    reflexivity.
  - eexists. reflexivity.
Qed.

End LocationBranch.

(** The coordinate (18.62, 73.80) in a division whose only officer cannot
    be reached. *)
Lemma notification_failed_rejects_witness :
  let req := Sample.location_from_user "18.62" "73.80" in
  let w := Sample.world_with AWAITING_LOCATION in
  let w' := snd (webhook Sample.env_officer_down req w) in
  queries w' = queries w /\
  option_map current_state (find_session "whatsapp:+919876543210" w') = Some MENU /\
  (exists pre, trace w' = pre ++ [EvMessage "whatsapp:+919876543210"
                                    "NOTIFICATION_FAILED/en" true]) /\
  fst (webhook Sample.env_officer_down req w) = Ok (mkResponse 200 empty_twiml).
Proof.
  intros req w.
  refine (notification_failed_rejects Sample.env_officer_down req w
            (Sample.entered_world Sample.env_officer_down req w)
            (snd (findDivisionForLocation Sample.env_officer_down
                    (JString "18.62") (JString "73.80")
                    (Sample.entered_world Sample.env_officer_down req w)))
            (Sample.entered_session Sample.env_officer_down req w)
            Sample.D1_one_officer
            eq_refl eq_refl eq_refl eq_refl eq_refl eq_refl eq_refl _).
  intros o [<-|[]]. right. reflexivity.
Defined.

(** The scenario of the design document: the same coordinate in a
    division whose list of officers is empty. *)
Example scenario_no_officer :
  let req := Sample.location_from_user "18.62" "73.80" in
  let w := Sample.world_with AWAITING_LOCATION in
  let w' := snd (webhook Sample.env_no_officer req w) in
  queries w' = [] /\
  option_map current_state (find_session "whatsapp:+919876543210" w') = Some MENU /\
  List.last (trace w') EvDivisionFind
  = EvMessage "whatsapp:+919876543210" "NOTIFICATION_FAILED/en" true.
Proof. vm_compute. repeat split. Qed.

(** ** The answer of the chat handler *)

Section Acknowledgement.

Variable env : Env.

Lemma acks_ret_continue (s : Session) (v : Vars) : acks (ret (Continue s v)).
Proof. intros w r w' H. discriminate H. Qed.

Lemma acks_ret_200 : acks (ret (Returned (mkResponse 200 empty_twiml))).
Proof. intros w r w' H. injection H as <- _. reflexivity. Qed.

Lemma acks_throw (e : string) : acks (throw e).
Proof. intros w r w' H. discriminate H. Qed.

Lemma acks_bind {A} (m : M A) (k : A -> M Outcome) :
  (forall a, acks (k a)) -> acks (bind m k).
Proof.
  intros Hk w r w' H. unfold bind in H.
  destruct (m w) as [[a|e] w1]; [|discriminate H].
  exact (Hk a w1 r w' H).
Qed.

Lemma acks_try_catch (m : M Outcome) (h : string -> M Outcome) :
  acks m -> (forall e, acks (h e)) -> acks (try_catch m h).
Proof.
  intros Hm Hh w r w' H. unfold try_catch in H.
  destruct (m w) as [[a|e] w1] eqn:E.
  - injection H as -> <-. exact (Hm w r w1 E).
  - exact (Hh e w1 r w' H).
Qed.

Ltac acks_step :=
  lazymatch goal with
  | |- acks (bind _ _) => apply acks_bind; intros ?
  | |- acks (try_catch _ _) => apply acks_try_catch; [|intros ?]
  | |- acks (ret (Continue _ _)) => apply acks_ret_continue
  | |- acks (ret (Returned _)) => apply acks_ret_200
  | |- acks (throw _) => apply acks_throw
  | |- acks (if ?b then _ else _) => destruct b
  | |- acks (match ?x with _ => _ end) => destruct x
  | |- acks (let '(_, _) := ?x in _) => destruct x
  end.

Lemma acks_reject_location (s : Session) (userNumber msg language : string) :
  acks (reject_location env s userNumber msg language).
Proof. unfold reject_location. repeat acks_step. Qed.

Lemma acks_awaiting_location (s : Session) (userNumber : string)
    (latitude longitude locationAddress lastOption : option string)
    (userLanguage : string) (v : Vars) :
  acks (awaiting_location env s userNumber latitude longitude locationAddress
          lastOption userLanguage v).
Proof.
  unfold awaiting_location.
  acks_step; [|acks_step].
  acks_step. acks_step; [|apply acks_reject_location].
  acks_step. acks_step.
  acks_step; [apply acks_reject_location|].
  unfold confirm_report. repeat acks_step.
Qed.

Lemma acks_dispatch (s : Session) (userMessage userNumber : string)
    (latitude longitude locationAddress : option string) :
  acks (dispatch env s userMessage userNumber latitude longitude locationAddress).
Proof.
  unfold dispatch.
  repeat first [apply acks_awaiting_location | acks_step].
Qed.

(** C6, as the code has it.  The handler always answers, with the empty
    acknowledgement as body; the status is 200 when the [try] block runs
    to its end and 500 when an exception leaves it. *)
Theorem webhook_acknowledges (req : WebhookReq) (w : World) :
  (exists w', webhook_body env req w = (Ok (mkResponse 200 empty_twiml), w') /\
              webhook env req w = (Ok (mkResponse 200 empty_twiml), w')) \/
  (exists e w', webhook_body env req w = (Throw e, w') /\
                webhook env req w = (Ok (mkResponse 500 empty_twiml), w')).
Proof.
  assert (Hbody : forall r w', webhook_body env req w = (Ok r, w') ->
                               r = mkResponse 200 empty_twiml).
  { intros r w' H. unfold webhook_body in H.
    unfold bind at 1 in H.
    destruct (webhook_enter env req w) as [[s|e] w0]; [|discriminate H].
    unfold bind at 1 in H.
    destruct (dispatch env s _ _ _ _ _ w0) as [[o|e] w1] eqn:Ed; [|discriminate H].
    destruct o as [s1 v|r1].
    - unfold bind at 1 in H.
      destruct (updateUserSession env s1 _ _ _ w1) as [[s2|e] w2]; [|discriminate H].
      unfold bind at 1 in H.
      destruct (messages_create env _ _ w2) as [[sid|e] w3]; [|discriminate H].
      injection H as <- _. reflexivity.
    - injection H as <- _. exact (acks_dispatch _ _ _ _ _ _ _ _ _ Ed). }
  unfold webhook, try_catch.
  destruct (webhook_body env req w) as [[r|e] w'] eqn:E.
  - left. exists w'. rewrite (Hbody r w' eq_refl). split; reflexivity.
  - right. exists e, w'. split; reflexivity.
Qed.

End Acknowledgement.

(** C6 fails as stated: when the transport refuses the reply to the user,
    the handler answers with status 500. *)
Lemma webhook_status_counterexample :
  fst (webhook Sample.env_unreachable (Sample.text_from_user "hello")
         (Sample.world_with MENU))
  = Ok (mkResponse 500 empty_twiml).
Proof. vm_compute. reflexivity. Qed.

(** ** Submissions outside the jurisdiction *)

Lemma same_refl {X} (f : World -> X) (w : World) : same f w w.
Proof. reflexivity. Qed.

Lemma same_trans {X} (f : World -> X) (a b c : World) :
  same f a b -> same f b c -> same f a c.
Proof. unfold same. congruence. Qed.

(** Steps through a computation that leaves a part of the world alone. *)
Ltac same_step :=
  lazymatch goal with
  | |- keeps (same ?f) (bind _ _) =>
      apply (keeps_bind (same f) (same_trans f)); [|intros ?]
  | |- keeps (same ?f) (try_catch _ _) =>
      apply (keeps_try_catch (same f) (same_trans f)); [|intros ?]
  | |- keeps (same ?f) (ret _) => apply (keeps_ret (same f) (same_refl f))
  | |- keeps (same ?f) (throw _) => apply (keeps_throw (same f) (same_refl f))
  | |- keeps (same ?f) get => apply (keeps_get (same f) (same_refl f))
  | |- keeps (same _) (emit _) => intros ?; reflexivity
  | |- keeps (same _) (modify _) => intros ?; reflexivity
  | |- keeps (same _) (if ?b then _ else _) => destruct b
  | |- keeps (same _) (match ?x with _ => _ end) => destruct x
  end.

Section Outside.

Variable env : Env.

Lemma stores_messages_create (to body : string) :
  keeps (same stores) (messages_create env to body).
Proof. unfold messages_create. repeat same_step. Qed.

Lemma stores_sendWhatsAppMessage (to body : string) :
  keeps (same stores) (sendWhatsAppMessage env to body).
Proof.
  unfold sendWhatsAppMessage. same_step; [same_step|apply stores_messages_create].
Qed.

Lemma stores_findDivisionForLocation (latitude longitude : jsval) :
  keeps (same stores) (findDivisionForLocation env latitude longitude).
Proof.
  unfold findDivisionForLocation, findById, find_all_divisions. repeat same_step.
Qed.

Lemma cache_consume_link (req : ReportReq) :
  keeps (same locationCache) (consume_link env req).
Proof. unfold consume_link, findOneAndUpdate_used. repeat same_step. Qed.

Lemma cache_webhook_enter (req : WebhookReq) :
  keeps (same locationCache) (webhook_enter env req).
Proof.
  unfold webhook_enter, processMedia, getUserSession, save_session. repeat same_step.
Qed.

Lemma links_webhook_enter (req : WebhookReq) :
  keeps (same (fun w => (queries w, links w))) (webhook_enter env req).
Proof.
  unfold webhook_enter, processMedia, getUserSession, save_session. repeat same_step.
Qed.

Lemma links_findDivisionForLocation (latitude longitude : jsval) :
  keeps (same (fun w => (queries w, links w))) (findDivisionForLocation env latitude longitude).
Proof.
  unfold findDivisionForLocation, findById, find_all_divisions. repeat same_step.
Qed.

Lemma findDivisionForLocation_fst (latitude longitude : jsval) (w : World) :
  fst (findDivisionForLocation env latitude longitude w)
  = Ok (resolution env latitude longitude (locationCache w)).
Proof.
  unfold findDivisionForLocation, resolution, try_catch.
  destruct (negb (truthy latitude) || negb (truthy longitude))%bool; [reflexivity|].
  destruct (parseFloat latitude) as [|lat]; [reflexivity|].
  destruct (parseFloat longitude) as [|lng]; [reflexivity|].
  unfold bind at 1. unfold get. cbn beta iota.
  destruct (locationCache w !! cacheKey lat lng) as [[id name|]|]; try reflexivity.
  unfold bind, find_all_divisions, emit, modify, ret. cbn.
  destruct (scan_divisions lng lat (divisions env)); reflexivity.
Qed.

(** The answer of the resolution depends on the cache only. *)
Lemma findDivisionForLocation_cache (latitude longitude : jsval) (w1 w2 : World) :
  locationCache w1 = locationCache w2 ->
  fst (findDivisionForLocation env latitude longitude w1)
  = fst (findDivisionForLocation env latitude longitude w2).
Proof. intros Hc. rewrite !findDivisionForLocation_fst, Hc. reflexivity. Qed.

(** A call that answers null, from any world with the same cache. *)
Lemma findDivisionForLocation_none (latitude longitude : jsval) (w w1 : World) :
  resolves_to_none env latitude longitude w ->
  locationCache w1 = locationCache w ->
  exists w2, findDivisionForLocation env latitude longitude w1 = (Ok None, w2).
Proof.
  intros Hn Hc. unfold resolves_to_none in Hn.
  rewrite <- (findDivisionForLocation_cache _ _ w1 w Hc) in Hn.
  destruct (findDivisionForLocation env latitude longitude w1) as [r w2].
  cbn in Hn. subst r. exists w2. reflexivity.
Qed.

Lemma normalizeUserId_nonempty (u : string) :
  String.eqb (normalizeUserId u true) "" = false.
Proof. unfold normalizeUserId. destruct (String.eqb u ""); reflexivity. Qed.

Lemma sendWhatsAppMessage_clean (u body : string) (w : World) :
  sendWhatsAppMessage env (normalizeUserId u true) body w
  = messages_create env (normalizeUserId (normalizeUserId u true) true) body w.
Proof. unfold sendWhatsAppMessage. rewrite normalizeUserId_nonempty. reflexivity. Qed.

Lemma messages_create_run (to body : string) (w : World) :
  messages_create env to body w =
  if deliver env to body
  then (Ok (message_sid env to body), log (EvMessage to body true) w)
  else (Throw "message not accepted", log (EvMessage to body false) w).
Proof. unfold messages_create. destruct (deliver env to body); reflexivity. Qed.

Lemma consume_link_run (req : ReportReq) (w : World) :
  consume_link env req w =
  (Ok tt,
   if truthy_str (r_linkId req)
   then log (EvLinkUpdated (or_str (r_linkId req) ""))
          (set_links (mark_used env (or_str (r_linkId req) "")
                        (normalizeUserId (or_str (r_userId req) "") false)) w)
   else w).
Proof.
  unfold consume_link. destruct (truthy_str (r_linkId req)); reflexivity.
Qed.

(** An attempt to tell the user about a failure, whatever becomes of it. *)
Lemma best_effort_notice (to body : string) (w : World) :
  exists w',
    try_catch (sendWhatsAppMessage env to body ;;; ret tt) (fun _ => ret tt) w = (Ok tt, w') /\
    same stores w w' /\ no_report w w'.
Proof.
  pose proof (stores_sendWhatsAppMessage to body w) as Hs.
  pose proof (nr_sendWhatsAppMessage env to body w) as Hn.
  unfold try_catch, bind.
  destruct (sendWhatsAppMessage env to body w) as [[sid|e] w']; cbn [snd] in *;
    exists w'; repeat split; try apply Hs; apply Hn.
Qed.

Lemma in_trace_no_report (e : Event) (w w' : World) :
  no_report w w' -> In e (trace w) -> In e (trace w').
Proof.
  intros [_ (evs & Ht & _)] H. rewrite Ht. apply in_or_app. left. exact H.
Qed.

(** The capture form, outside the jurisdiction. *)
Lemma api_report_outside (req : ReportReq) (w : World) :
  outside_submission env (WebReport req) w ->
  let r := WebReport req in
  let w' := snd (api_report env req w) in
  let to := submitter r in
  let text := outside_text env r w in
  queries w' = queries w /\
  links w' = links_after env r w /\
  In (EvMessage to text (deliver env to text)) (trace w') /\
  sessions w' = sessions w /\
  fst (api_report env req w)
  = Ok (if deliver env to text then outside_response
        else mkResponse 500 (json_error "message not accepted")).
Proof.
  intros (Hu & Ht & Hnone). cbn zeta. cbn [submitter outside_text links_after].
  set (to := normalizeUserId (normalizeUserId (or_str (r_userId req) "") true) true).
  set (text := getText env "LOCATION_OUTSIDE_JURISDICTION" "en" []).
  assert (H : exists w',
    api_report env req w
    = (Ok (if deliver env to text then outside_response
           else mkResponse 500 (json_error "message not accepted")), w') /\
    queries w' = queries w /\ sessions w' = sessions w /\
    links w' = (if truthy_str (r_linkId req)
                then mark_used env (or_str (r_linkId req) "")
                       (normalizeUserId (or_str (r_userId req) "") false) (links w)
                else links w) /\
    In (EvMessage to text (deliver env to text)) (trace w')).
  { unfold api_report, try_catch. rewrite Hu, Ht. cbn [negb orb].
    unfold bind at 1. rewrite consume_link_run.
    set (w1 := if truthy_str (r_linkId req) then _ else w).
    assert (Hc1 : locationCache w1 = locationCache w).
    { subst w1. destruct (truthy_str (r_linkId req)); reflexivity. }
    destruct (findDivisionForLocation_none _ _ w w1 Hnone Hc1) as (w2 & Hf).
    pose proof (stores_findDivisionForLocation (r_latitude req) (r_longitude req) w1) as Hs2.
    rewrite Hf in Hs2. cbn [snd] in Hs2.
    assert (Hq : queries w2 = queries w /\ sessions w2 = sessions w /\
                 links w2 = if truthy_str (r_linkId req)
                            then mark_used env (or_str (r_linkId req) "")
                                   (normalizeUserId (or_str (r_userId req) "") false) (links w)
                            else links w).
    { unfold same, stores in Hs2. injection Hs2 as -> -> ->. subst w1.
      destruct (truthy_str (r_linkId req)); repeat split; reflexivity. }
    destruct Hq as (Hq & Hss & Hl).
    unfold bind at 1. rewrite Hf.
    unfold bind at 1. rewrite sendWhatsAppMessage_clean, messages_create_run.
    fold to text.
    destruct (deliver env to text).
    - eexists. split; [reflexivity|]. cbn [queries sessions links trace log].
      repeat split; try assumption.
      apply in_or_app. right. left. reflexivity.
    - destruct (best_effort_notice (normalizeUserId (or_str (r_userId req) "") true)
                  (getText env "REPORT_ERROR" "en" []) (log (EvMessage to text false) w2))
        as (w3 & Hrun & Hs3 & Hn3).
      unfold try_catch in Hrun. unfold bind at 1. cbn beta. rewrite Hrun.
      eexists. split; [reflexivity|].
      unfold same, stores in Hs3. cbn in Hs3. injection Hs3 as Hq3 Hss3 Hl3.
      repeat split; try congruence.
      apply (in_trace_no_report _ _ _ Hn3).
      cbn. apply in_or_app. right. left. reflexivity. }
  destruct H as (w' & Hrun & Hq & Hss & Hl & Hin).
  rewrite Hrun. cbn [fst snd]. repeat split; assumption.
Qed.

(** The chat handler, outside the jurisdiction. *)
Lemma webhook_outside (req : WebhookReq) (w : World) :
  outside_submission env (ChatEvent req) w ->
  let r := ChatEvent req in
  let w' := snd (webhook env req w) in
  let to := submitter r in
  let text := outside_text env r w in
  queries w' = queries w /\
  links w' = links_after env r w /\
  In (EvMessage to text (deliver env to text)) (trace w') /\
  option_map current_state (find_session to w') = Some MENU /\
  fst (webhook env req w)
  = Ok (mkResponse (if deliver env to text then 200 else 500) empty_twiml).
Proof.
  intros (session & w0 & Henter & Hst & Hreset & Hmenu & Hlat & Hlng & Hnone).
  cbn zeta. cbn [submitter outside_text links_after]. rewrite Henter. cbn [fst].
  set (to := or_str (From req) "").
  set (text := getText env "LOCATION_OUTSIDE_JURISDICTION" (userLanguage_of session) []).
  assert (Huid : user_id session = to).
  { destruct (webhook_enter_ok env req w) as (s & w0' & E & Hu).
    rewrite Henter in E. injection E as <- <-. exact Hu. }
  assert (Hc0 : locationCache w0 = locationCache w).
  { pose proof (cache_webhook_enter req w) as H. rewrite Henter in H. exact H. }
  assert (Hql0 : (queries w0, links w0) = (queries w, links w)).
  { pose proof (links_webhook_enter req w) as H. rewrite Henter in H. exact H. }
  destruct (findDivisionForLocation_none _ _ w w0 Hnone Hc0) as (w1 & Hf).
  assert (Hql1 : (queries w1, links w1) = (queries w0, links w0)).
  { pose proof (links_findDivisionForLocation (JString (or_str (Latitude req) ""))
                  (JString (or_str (Longitude req) "")) w0) as H.
    rewrite Hf in H. exact H. }
  assert (Hn : forall o : option string, truthy_str o = true -> nonempty o = o).
  { intros o H. unfold nonempty. rewrite H. reflexivity. }
  assert (Hw :
    let s' := mkSession (user_id session) MENU None
                (if String.eqb (userLanguage_of session) "" then language session
                 else userLanguage_of session)
                (now env) (user_name session) (last_description session)
                (last_photo_url session) in
    let w3 := log (EvSessionSaved s') (set_sessions (upsert_session s') w1) in
    webhook env req w =
    (Ok (mkResponse (if deliver env to text then 200 else 500) empty_twiml),
     log (EvMessage to text (deliver env to text)) w3)).
  { cbn zeta. unfold webhook, webhook_body, try_catch.
    rewrite (bind_ok _ _ _ _ _ Henter).
    unfold dispatch. rewrite Hreset, Hst, Hmenu. cbn [State_eqb].
    fold to. rewrite (Hn _ Hlat), (Hn _ Hlng).
    fold (userLanguage_of session).
    unfold awaiting_location. rewrite Hlat, Hlng. cbn [andb].
    unfold bind at 1. rewrite (bind_ok _ _ _ _ _ Hf).
    rewrite reject_location_run. cbn [newLanguage]. fold text.
    destruct (deliver env to text); reflexivity. }
  cbn zeta in Hw. rewrite Hw. cbn [fst snd].
  injection Hql0 as Hq0 Hl0. injection Hql1 as Hq1 Hl1.
  repeat split.
  - cbn. congruence.
  - cbn. congruence.
  - cbn. apply in_or_app. right. left. reflexivity.
  - unfold find_session, log, set_sessions. cbn [sessions].
    match goal with |- context [upsert_session ?s' _] =>
      replace to with (user_id s') by exact Huid;
      rewrite (find_session_upsert s') end.
    reflexivity.
Qed.

(** C8, as the code has it.  A submission that needs a location and whose
    coordinate resolves to no division creates no report: the report
    store is left as it was, and the submitter is sent the text
    LOCATION_OUTSIDE_JURISDICTION.  On the capture form the link named by
    the request has been marked used before the check, the sessions are
    untouched, and the answer is the 400 rejection when the text is
    delivered; on the chat route the links are untouched, the session of
    the user goes to MENU and the answer is 200 when the text is
    delivered. *)
Theorem outside_rejected (r : Request) (w : World) :
  outside_submission env r w ->
  let w' := snd (handle env r w) in
  let to := submitter r in
  let text := outside_text env r w in
  queries w' = queries w /\
  links w' = links_after env r w /\
  In (EvMessage to text (deliver env to text)) (trace w') /\
  match r with
  | WebReport req =>
      sessions w' = sessions w /\
      fst (handle env r w)
      = Ok (if deliver env to text then outside_response
            else mkResponse 500 (json_error "message not accepted"))
  | ChatEvent req =>
      option_map current_state (find_session to w') = Some MENU /\
      fst (handle env r w)
      = Ok (mkResponse (if deliver env to text then 200 else 500) empty_twiml)
  end.
Proof.
  destruct r as [req|req]; intros H.
  - exact (webhook_outside req w H).
  - exact (api_report_outside req w H).
Qed.

End Outside.

(** A report of the capture form from outside every sample division, with
    a link: no report is stored, the link is used up. *)
Lemma outside_rejected_witness :
  let r := WebReport (Sample.report_outside (Some "L1")) in
  let w := Sample.world_with MENU in
  let w' := snd (handle Sample.env0 r w) in
  queries w' = [] /\
  map used (links w') = [true] /\
  In (EvMessage "whatsapp:+919876543210" "LOCATION_OUTSIDE_JURISDICTION/en" true)
    (trace w') /\
  sessions w' = sessions w /\
  fst (handle Sample.env0 r w) = Ok outside_response.
Proof.
  destruct (outside_rejected Sample.env0 (WebReport (Sample.report_outside (Some "L1")))
              (Sample.world_with MENU) (conj eq_refl (conj eq_refl eq_refl)))
    as (Hq & Hl & Hin & Hs & Hr).
  cbn zeta. split; [exact Hq|]. split; [rewrite Hl; reflexivity|].
  split; [exact Hin|]. split; [exact Hs|exact Hr].
Defined.

(** C8 fails as stated: the rejected submission has marked its capture
    link as used. *)
Lemma rejected_without_trace_counterexample :
  ~ rejected_without_trace Sample.env0 (WebReport (Sample.report_outside (Some "L1")))
      (Sample.world_with MENU).
Proof.
  intros H.
  destruct (H (conj eq_refl (conj eq_refl eq_refl))) as [_ Hl].
  vm_compute in Hl. discriminate Hl.
Qed.


(** ** Reports and notifications: building blocks *)

Section WebRoute.

Variable env : Env.

Lemma nr_fresh_id : keeps no_report fresh_id.
Proof.
  intros w. split; [reflexivity|]. exists []. cbn. rewrite app_nil_r.
  split; [reflexivity|apply silent_nil].
Qed.

Lemma nr_lookup_userName (u : string) : keeps no_report (lookup_userName u).
Proof. unfold lookup_userName. repeat nr_step. Qed.

Lemma nr_notify_alternate (msg : string) (o : Officer) (acc : list NotifiedContact) :
  keeps no_report (notify_alternate env msg o acc).
Proof.
  unfold notify_alternate. nr_step; [|nr_step].
  nr_step; [|nr_step]. nr_step; [apply nr_messages_create|nr_step].
Qed.

Lemma nr_notify_officer (msg : string) (o : Officer) (acc : list NotifiedContact) :
  keeps no_report (notify_officer env msg o acc).
Proof.
  unfold notify_officer. nr_step; [|apply nr_notify_alternate].
  nr_step.
  - nr_step; [|nr_step]. nr_step; [apply nr_messages_create|nr_step].
  - nr_step; [nr_step|apply nr_notify_alternate].
Qed.

Lemma nr_notify_officers (msg : string) (os : list Officer) (acc : list NotifiedContact) :
  keeps no_report (notify_officers env msg os acc).
Proof.
  revert acc. induction os as [|o os IH]; intros acc; cbn [notify_officers].
  - nr_step.
  - nr_step; [apply nr_notify_officer|apply IH].
Qed.

Lemma nr_notifyDivisionOfficers (q : Query) (d : option Division) :
  keeps no_report (notifyDivisionOfficers env q d).
Proof.
  unfold notifyDivisionOfficers. nr_step; [|nr_step].
  nr_step; [nr_step|]. nr_step; [nr_step|apply nr_notify_officers].
Qed.

Lemma nr_report_failed (userId error : string) :
  keeps no_report (report_failed env userId error).
Proof.
  unfold report_failed. nr_step; [|nr_step].
  nr_step; [|nr_step]. nr_step; [apply nr_sendWhatsAppMessage|nr_step].
Qed.

(** A division that the resolution returns is a division of the
    collection, and the coordinates that gave it passed the validation. *)
Lemma findDivisionForLocation_some (latitude longitude : jsval) (w : World) (d : Division) :
  fst (findDivisionForLocation env latitude longitude w) = Ok (Some d) ->
  In d (divisions env) /\ (truthy latitude && truthy longitude)%bool = true.
Proof.
  rewrite findDivisionForLocation_fst. unfold resolution. intros H.
  destruct (truthy latitude), (truthy longitude); cbn in H; try discriminate H.
  split; [|reflexivity].
  destruct (parseFloat latitude) as [|lat]; [discriminate H|].
  destruct (parseFloat longitude) as [|lng]; [discriminate H|].
  destruct (locationCache w !! cacheKey lat lng) as [[id name|]|].
  - injection H as H. exact (find_In _ _ _ H).
  - discriminate H.
  - injection H as H. rewrite scan_divisions_find in H. exact (find_In _ _ _ H).
Qed.

End WebRoute.

Section ChatRoute.

Variable env : Env.

(** Every contact the loop adds stands for an officer of the list who has
    received the message. *)
Lemma notify_from_chat_delivered (msg : string) (os : list Officer)
    (acc : list NotifiedContact) (w : World) :
  exists acc' w' evs,
    notify_from_chat env msg os acc w = (Ok acc', w') /\
    trace w' = trace w ++ evs /\ silent evs /\
    forall c, In c acc' ->
      In c acc \/
      exists o, In o os /\
        In (EvMessage (normalizeUserId (phone o) true) msg true) evs.
Proof.
  revert acc w. induction os as [|o os IH]; intros acc w; cbn [notify_from_chat].
  - exists acc, w, []. rewrite app_nil_r.
    split; [reflexivity|]. split; [reflexivity|]. split; [apply silent_nil|]. auto.
  - assert (Hstep : exists acc1 w1 evs1,
      try_catch
        (sendWhatsAppMessage env (phone o) msg ;;;
         ret (acc ++ [mkContact None None (phone o) (now env) None]))
        (fun _ => ret acc) w = (Ok acc1, w1) /\
      trace w1 = trace w ++ evs1 /\ silent evs1 /\
      forall c, In c acc1 ->
        In c acc \/ In (EvMessage (normalizeUserId (phone o) true) msg true) evs1).
    { unfold try_catch, bind, sendWhatsAppMessage.
      destruct (String.eqb (phone o) "").
      - exists acc, w, []. rewrite app_nil_r.
        split; [reflexivity|]. split; [reflexivity|]. split; [apply silent_nil|]. auto.
      - rewrite messages_create_run.
        destruct (deliver env (normalizeUserId (phone o) true) msg).
        + exists (acc ++ [mkContact None None (phone o) (now env) None]),
            (log (EvMessage (normalizeUserId (phone o) true) msg true) w),
            [EvMessage (normalizeUserId (phone o) true) msg true].
          split; [reflexivity|]. split; [reflexivity|].
          split; [intros q [H|[]]; discriminate H|].
          intros c Hc. apply in_app_or in Hc as [Hc|_]; [left; exact Hc|].
          right. left. reflexivity.
        + exists acc, (log (EvMessage (normalizeUserId (phone o) true) msg false) w),
            [EvMessage (normalizeUserId (phone o) true) msg false].
          split; [reflexivity|]. split; [reflexivity|].
          split; [intros q [H|[]]; discriminate H|]. auto. }
    destruct Hstep as (acc1 & w1 & evs1 & H1 & Ht1 & Hs1 & Hc1).
    destruct (IH acc1 w1) as (acc2 & w2 & evs2 & H2 & Ht2 & Hs2 & Hc2).
    exists acc2, w2, (evs1 ++ evs2).
    split; [rewrite (bind_ok _ _ _ _ _ H1); exact H2|].
    split; [rewrite Ht2, Ht1, app_assoc; reflexivity|].
    split; [apply silent_app; assumption|].
    intros c Hc. destruct (Hc2 c Hc) as [Hin|(o' & Ho' & Hin)].
    + destruct (Hc1 c Hin) as [Hin'|Hin']; [left; exact Hin'|].
      right. exists o. split; [left; reflexivity|].
      apply in_or_app. left. exact Hin'.
    + right. exists o'. split; [right; exact Ho'|].
      apply in_or_app. right. exact Hin.
Qed.

Lemma officersToNotify_In (d : Division) (o : Officer) :
  In o (officersToNotify d) -> In o (officers d).
Proof.
  unfold officersToNotify. intros H.
  apply list_elem_of_In in H. apply elem_of_take in H as (i & Hi & _).
  apply list_elem_of_lookup_2 in Hi.
  apply list_elem_of_In in Hi. apply List.filter_In in Hi. tauto.
Qed.

Lemma nr_confirm_report (s : Session) (d : Division) (q : Query)
    (reportType description : string) (locationAddress : option string)
    (userLanguage language : string) :
  keeps no_report
    (confirm_report env s d q reportType description locationAddress userLanguage language).
Proof.
  unfold confirm_report.
  nr_step. { nr_step; [apply nr_resend_from_chat|nr_step]. }
  nr_step. { nr_step. }
  nr_step; [apply nr_save_session|nr_step].
Qed.

End ChatRoute.

(** ** Which reports are persisted: the scenario, and the claim as stated *)

(** The report of the scenario, as stored. *)
Example scenario_report_stored :
  let w' := snd (handle Sample.env_one_officer
                   (ChatEvent (Sample.location_from_user "18.62" "73.80"))
                   (Sample.world_with AWAITING_LOCATION)) in
  map divisionNotified (queries w') = [true] /\
  map (fun q => length (divisionOfficersNotified q)) (queries w') = [1%nat] /\
  map divisionName (queries w') = [Some "D1"].
Proof. vm_compute. repeat split. Qed.

(** C1 fails as stated: the report endpoint saves a report located in a
    division that has no officer at all, so that no officer notification
    can have been dispatched. *)
Lemma persisted_as_stated_counterexample :
  ~ persisted_as_stated Sample.env0 (WebReport Sample.report_inside_D1) Sample.empty_world.
Proof.
  intros H.
  destruct (H Sample.inside_D1_before Sample.inside_D1_report Sample.inside_D1_after)
    as [_ (d & o & to & body & Hd & Hdiv & Ho & _)].
  - vm_compute. reflexivity.
  - vm_compute. discriminate.
  - vm_compute in Hdiv. injection Hdiv as Hdiv.
    destruct Hd as [<-|[<-|[]]].
    + exact Ho.
    + vm_compute in Hdiv. discriminate Hdiv.
Qed.

(** * Further properties of the code *)

(** ** Point in polygon: closed rings, the band of a ring, rectangles *)

Section RingFacts.

Lemma toggles_loop x y a : toggles x y (a, a) = false.
Proof.
  unfold toggles, edge_step. cbn [fst snd].
  destruct (parseFloat (idx a 0)), (parseFloat (idx a 1)); try reflexivity.
  rewrite intersect_horizontal. reflexivity.
Qed.

(** X2. A ring of at least three vertices that is stored closed, with
    its first vertex repeated at the end as GeoJSON does, gives the same
    answer as the open ring: the loop visits the same directed edges, and
    the edge from the first vertex to itself never toggles. *)
Theorem isPointInPolygon_closed_ring (point : list jsval) (v0 : vertex) (rest : ring) :
  (2 <= length rest)%nat ->
  isPointInPolygon point ((v0 :: rest) ++ [v0]) = isPointInPolygon point (v0 :: rest).
Proof.
  intros Hlen. rewrite !isPointInPolygon_parity.
  destruct (length point <? 2)%nat; [reflexivity|]. cbn [orb].
  assert (H3 : (length ((v0 :: rest) ++ [v0]) <? 3)%nat = false).
  { apply Nat.ltb_ge. rewrite length_app. cbn [length]. lia. }
  assert (H3' : (length (v0 :: rest) <? 3)%nat = false).
  { apply Nat.ltb_ge. cbn [length]. lia. }
  rewrite H3, H3'.
  destruct (parseFloat (idx point 0)) as [|x]; [reflexivity|].
  destruct (parseFloat (idx point 1)) as [|y]; [reflexivity|].
  assert (Hl : forall d, List.last (v0 :: rest) d = List.last rest v0).
  { intros d. destruct rest as [|b t]; [reflexivity|].
    change (List.last (v0 :: b :: t) d) with (List.last (b :: t) d).
    apply last_change_default. discriminate. }
  unfold edges. rewrite last_app_ne by discriminate.
  change (List.last [v0] []) with v0.
  rewrite edges_from_app, parity_app, !Hl. cbn [edges_from].
  rewrite !parity_cons, toggles_loop. change (parity x y []) with false.
  destruct (toggles x y (List.last rest v0, v0)), (parity x y (edges_from v0 rest));
    reflexivity.
Qed.










Lemma isPointInPolygon_closed_ring_witness :
  isPointInPolygon [JNumber (Fin (1 # 2)); JNumber (Fin (1 # 2))]
    (rectangle 0 0 1 1 ++ [[JNumber (Fin 0); JNumber (Fin 0)]])
  = isPointInPolygon [JNumber (Fin (1 # 2)); JNumber (Fin (1 # 2))] (rectangle 0 0 1 1).
Proof.
  apply (isPointInPolygon_closed_ring [JNumber (Fin (1 # 2)); JNumber (Fin (1 # 2))]
           [JNumber (Fin 0); JNumber (Fin 0)]
           [[JNumber (Fin 1); JNumber (Fin 0)]; [JNumber (Fin 1); JNumber (Fin 1)];
            [JNumber (Fin 0); JNumber (Fin 1)]]).
  cbn [length]. lia.
Defined.

(** X4. On an axis-parallel rectangle with corners (x0, y0) and (x1, y1),
    x0 < x1 and y0 < y1, [isPointInPolygon] accepts exactly the points of
    the half-open box: the lower and the left side belong to it, the
    upper and the right side do not. *)
Theorem rectangle_half_open (x0 y0 x1 y1 x y : Q) :
  (x0 < x1)%Q -> (y0 < y1)%Q ->
  isPointInPolygon [JNumber (Fin x); JNumber (Fin y)] (rectangle x0 y0 x1 y1)
  = in_half_open_box x0 y0 x1 y1 x y.
Proof.
  intros Hx Hy. rewrite rectangle_test. unfold in_half_open_box.
  assert (Hc : forall a b c, (a < b)%Q -> Qle_bool a c = false -> Qltb c b = true).
  { intros a b c Hab Hac. apply Qltb_lt.
    assert (Hlt : Qltb c a = true) by (unfold Qltb; rewrite Hac; reflexivity).
    apply Qltb_lt in Hlt. lra. }
  unfold Qltb at 1 3.
  destruct (Qle_bool y0 y) eqn:Ay, (Qle_bool x0 x) eqn:Ax;
    try rewrite (Hc _ _ _ Hy Ay); try rewrite (Hc _ _ _ Hx Ax);
    cbn [negb andb Bool.eqb xorb];
    destruct (Qltb y y1), (Qltb x x1); reflexivity.
Qed.

Lemma rectangle_half_open_witness :
  isPointInPolygon [JNumber (Fin 0); JNumber (Fin 2)] (rectangle 0 0 2 2) = false /\
  isPointInPolygon [JNumber (Fin 0); JNumber (Fin 0)] (rectangle 0 0 2 2) = true.
Proof.
  split.
  - rewrite (rectangle_half_open 0 0 2 2 0 2); [reflexivity|lra|lra].
  - rewrite (rectangle_half_open 0 0 2 2 0 0); [reflexivity|lra|lra].
Defined.

End RingFacts.

(** ** Division resolution: invalid input *)

Section ResolveMore.

Variable env : Env.

(** The two guards of the resolution. *)
Lemma findDivisionForLocation_refuses (latitude longitude : jsval) (w : World) :
  truthy latitude = false \/ truthy longitude = false \/
  parseFloat latitude = NaN \/ parseFloat longitude = NaN ->
  findDivisionForLocation env latitude longitude w = (Ok None, w).
Proof.
  intros H. unfold findDivisionForLocation, try_catch.
  destruct (truthy latitude) eqn:Tlat; [|reflexivity].
  destruct (truthy longitude) eqn:Tlng; [|reflexivity].
  cbn [negb orb].
  destruct H as [H|[H|[H|H]]]; try discriminate H.
  - rewrite H. reflexivity.
  - rewrite H. destruct (parseFloat latitude); reflexivity.
Qed.

(** X5. A coordinate that fails the validation of [findDivisionForLocation]
    (a falsy latitude or longitude, or one that [parseFloat] does not read
    as a number) resolves to no division, and the call touches nothing: no
    query of the division collection, no cache entry; the location check
    does not accept such a coordinate and touches nothing either. *)
Theorem findDivisionForLocation_invalid_input (latitude longitude : string) (w : World) :
  parseFloat (JString latitude) = NaN \/ parseFloat (JString longitude) = NaN ->
  findDivisionForLocation env (JString latitude) (JString longitude) w = (Ok None, w) /\
  snd (check_location env (Some latitude) (Some longitude) w) = w /\
  accepts (fst (check_location env (Some latitude) (Some longitude) w)) = false.
Proof.
  intros H.
  assert (Hf : forall a b, a = latitude -> b = longitude ->
             findDivisionForLocation env (JString a) (JString b) w = (Ok None, w)).
  { intros a b -> ->. apply findDivisionForLocation_refuses. right. right. exact H. }
  split; [exact (Hf _ _ eq_refl eq_refl)|].
  unfold check_location, try_catch.
  destruct (truthy_str (Some latitude)) eqn:Tlat; [|split; reflexivity].
  destruct (truthy_str (Some longitude)) eqn:Tlng; [|split; reflexivity].
  cbn [negb orb]. unfold bind. rewrite Hf.
  - split; reflexivity.
  - cbn in *. destruct (String.eqb latitude ""); [discriminate Tlat|reflexivity].
  - cbn in *. destruct (String.eqb longitude ""); [discriminate Tlng|reflexivity].
Qed.

End ResolveMore.

Lemma findDivisionForLocation_invalid_input_witness :
  findDivisionForLocation Sample.env0 (JString "18.62") (JString "north") Sample.empty_world
  = (Ok None, Sample.empty_world).
Proof.
  apply (findDivisionForLocation_invalid_input Sample.env0 "18.62" "north"
           Sample.empty_world).
  right. vm_compute. reflexivity.
Defined.

(** ** What every request keeps *)

(** A relation between the world before and after that every primitive
    effect of the server keeps is kept by every request. *)
Section Everywhere.

Variable env : Env.
Variable R : World -> World -> Prop.
Hypothesis R_refl : forall w, R w w.
Hypothesis R_trans : forall a b c, R a b -> R b c -> R a c.
Hypothesis R_emit : forall e, keeps R (emit e).
Hypothesis R_fresh : keeps R fresh_id.
Hypothesis R_session : forall s, keeps R (modify (set_sessions (upsert_session s))).
Hypothesis R_reset : keeps R (modify (set_sessions (map reset_state))).
Hypothesis R_query : forall q, keeps R (modify (set_queries (upsert_query q))).
Hypothesis R_notified : forall id cs,
  keeps R (modify (set_queries (map (fun q =>
    if (query_id q =? id)%nat then mark_notified cs q else q)))).
Hypothesis R_used : forall lid uid, keeps R (modify (set_links (mark_used env lid uid))).
Hypothesis R_link : forall l, keeps R (modify (set_links (fun ls => ls ++ [l]))).
Hypothesis R_cache_in : forall key d, In d (divisions env) ->
  keeps R (modify (set_cache (insert key
    (CachedDivision (division_id d) (division_name d))))).
Hypothesis R_cache_out : forall key, keeps R (modify (set_cache (insert key CachedOutside))).

Local Ltac gs :=
  lazymatch goal with
  | |- keeps R (bind _ _) => apply (keeps_bind R R_trans); [|intros ?]
  | |- keeps R (try_catch _ _) => apply (keeps_try_catch R R_trans); [|intros ?]
  | |- keeps R (ret _) => apply (keeps_ret R R_refl)
  | |- keeps R (throw _) => apply (keeps_throw R R_refl)
  | |- keeps R get => apply (keeps_get R R_refl)
  | |- keeps R (emit _) => apply R_emit
  | |- keeps R fresh_id => apply R_fresh
  | |- keeps R (modify _) =>
      first [ apply R_session | apply R_reset | apply R_query | apply R_notified
            | apply R_used | apply R_link | apply R_cache_out ]
  | |- keeps R (if ?b then _ else _) => destruct b
  | |- keeps R (match ?x with _ => _ end) => destruct x
  | |- keeps R (let '(_, _) := ?x in _) => destruct x
  end.

Lemma every_findDivisionForLocation (latitude longitude : jsval) :
  keeps R (findDivisionForLocation env latitude longitude).
Proof.
  intros w.
  destruct (truthy latitude) eqn:Tlat.
  2:{ rewrite findDivisionForLocation_refuses by (left; exact Tlat). apply R_refl. }
  destruct (truthy longitude) eqn:Tlng.
  2:{ rewrite findDivisionForLocation_refuses by (right; left; exact Tlng).
      apply R_refl. }
  destruct (parseFloat latitude) as [|lat] eqn:Plat.
  { rewrite findDivisionForLocation_refuses by (right; right; left; exact Plat).
    apply R_refl. }
  destruct (parseFloat longitude) as [|lng] eqn:Plng.
  { rewrite findDivisionForLocation_refuses by (right; right; right; exact Plng).
    apply R_refl. }
  rewrite (findDivisionForLocation_accepted env latitude longitude lat lng w Tlat Tlng Plat Plng).
  destruct (locationCache w !! cacheKey lat lng) as [[id name|]|].
  - exact (R_emit (EvDivisionFindById id) w).
  - apply R_refl.
  - destruct (scan_divisions lng lat (divisions env)) as [d|] eqn:Hs; cbn [snd].
    + eapply R_trans; [exact (R_emit EvDivisionFind w)|].
      rewrite scan_divisions_find in Hs.
      exact (R_cache_in (cacheKey lat lng) d (find_In _ _ _ Hs) (log EvDivisionFind w)).
    + eapply R_trans; [exact (R_emit EvDivisionFind w)|].
      exact (R_cache_out (cacheKey lat lng) (log EvDivisionFind w)).
Qed.

Lemma every_messages_create (to body : string) : keeps R (messages_create env to body).
Proof. unfold messages_create. repeat gs. Qed.

Lemma every_sendWhatsAppMessage (to body : string) :
  keeps R (sendWhatsAppMessage env to body).
Proof. unfold sendWhatsAppMessage. gs; [gs|apply every_messages_create]. Qed.

Lemma every_save_session (s : Session) : keeps R (save_session s).
Proof. unfold save_session. repeat gs. Qed.

Lemma every_save_query (q : Query) : keeps R (save_query q).
Proof. unfold save_query. repeat gs. Qed.

Lemma every_update_notified (id : nat) (cs : list NotifiedContact) :
  keeps R (update_notified id cs).
Proof. unfold update_notified. repeat gs. Qed.

Lemma every_getUserSession (userId : string) : keeps R (getUserSession env userId).
Proof. unfold getUserSession. repeat first [apply every_save_session | gs]. Qed.

Lemma every_updateUserSession (s : Session) (st : State) (o l : option string) :
  keeps R (updateUserSession env s st o l).
Proof. unfold updateUserSession. repeat first [apply every_save_session | gs]. Qed.

Lemma every_notify_from_chat (msg : string) (os : list Officer)
    (acc : list NotifiedContact) :
  keeps R (notify_from_chat env msg os acc).
Proof.
  revert acc. induction os as [|o os IH]; intros acc; cbn [notify_from_chat].
  - gs.
  - gs; [|apply IH]. repeat first [apply every_sendWhatsAppMessage | gs].
Qed.

Lemma every_resend_from_chat (msg : string) (cs : list NotifiedContact) :
  keeps R (resend_from_chat env msg cs).
Proof.
  induction cs as [|c cs IH]; cbn [resend_from_chat].
  - gs.
  - gs; [|apply IH]. repeat first [apply every_sendWhatsAppMessage | gs].
Qed.

Lemma every_notify_officers (msg : string) (os : list Officer)
    (acc : list NotifiedContact) :
  keeps R (notify_officers env msg os acc).
Proof.
  revert acc. induction os as [|o os IH]; intros acc; cbn [notify_officers].
  - gs.
  - gs; [|apply IH]. unfold notify_officer, notify_alternate.
    repeat first [apply every_messages_create | gs].
Qed.

Lemma every_notifyDivisionOfficers (q : Query) (d : option Division) :
  keeps R (notifyDivisionOfficers env q d).
Proof.
  unfold notifyDivisionOfficers. repeat first [apply every_notify_officers | gs].
Qed.

Local Ltac every :=
  repeat first
    [ apply every_findDivisionForLocation
    | apply every_sendWhatsAppMessage
    | apply every_messages_create
    | apply every_save_session
    | apply every_save_query
    | apply every_update_notified
    | apply every_getUserSession
    | apply every_updateUserSession
    | apply every_notify_from_chat
    | apply every_resend_from_chat
    | apply every_notifyDivisionOfficers
    | gs ].

Lemma every_processReportInBackground (file : string) (latitude longitude : jsval)
    (description : option string) (userId reportType : string) (address : option string) :
  keeps R (processReportInBackground env file latitude longitude description userId
             reportType address).
Proof.
  unfold processReportInBackground, report_failed, lookup_userName. every.
Qed.

Lemma every_processReportWithoutImage (latitude longitude : jsval)
    (description : option string) (userId reportType : string) (address : option string) :
  keeps R (processReportWithoutImage env latitude longitude description userId
             reportType address).
Proof.
  unfold processReportWithoutImage, report_failed, lookup_userName. every.
Qed.

Lemma every_api_report (req : ReportReq) : keeps R (api_report env req).
Proof.
  unfold api_report, consume_link, findOneAndUpdate_used.
  repeat first
    [ apply every_processReportInBackground
    | apply every_processReportWithoutImage
    | progress every ].
Qed.

Lemma every_awaiting_location (s : Session) (userNumber : string)
    (latitude longitude locationAddress lastOption : option string)
    (userLanguage : string) (v : Vars) :
  keeps R (awaiting_location env s userNumber latitude longitude locationAddress
             lastOption userLanguage v).
Proof.
  unfold awaiting_location, reject_location, confirm_report. every.
Qed.

Lemma every_dispatch (s : Session) (userMessage userNumber : string)
    (latitude longitude locationAddress : option string) :
  keeps R (dispatch env s userMessage userNumber latitude longitude locationAddress).
Proof.
  unfold dispatch, getCaptureUrl.
  repeat first [ apply every_awaiting_location | progress every ].
Qed.

Lemma every_webhook (req : WebhookReq) : keeps R (webhook env req).
Proof.
  unfold webhook, webhook_body, webhook_enter, processMedia.
  repeat first [ apply every_dispatch | progress every ].
Qed.

Lemma every_check_link_validity (l u : option string) :
  keeps R (check_link_validity env l u).
Proof. unfold check_link_validity. every. Qed.

Lemma every_check_location (lat lng : option string) :
  keeps R (check_location env lat lng).
Proof. unfold check_location. every. Qed.

Lemma every_api_suggestion (req : SuggestionReq) : keeps R (api_suggestion env req).
Proof.
  unfold api_suggestion, suggestion_background, suggestion_userName,
    findOneAndUpdate_used. every.
Qed.

Lemma every_redirect (lid : string) : keeps R (redirect env lid).
Proof. unfold redirect. every. Qed.

Lemma every_reset_all_sessions : keeps R reset_all_sessions.
Proof. unfold reset_all_sessions. every. Qed.

Lemma every_request (r : AnyRequest) (w : World) : R w (serve env r w).
Proof.
  destruct r; cbn [serve].
  - apply every_webhook.
  - apply every_api_report.
  - apply every_api_suggestion.
  - apply every_check_location.
  - apply every_check_link_validity.
  - apply every_redirect.
  - apply every_reset_all_sessions.
Qed.

End Everywhere.

(** ** The location cache names divisions of the collection *)

Section CacheInvariant.

Variable env : Env.

(** X6. Every request keeps the location cache valid: if every division
    entry of the cache names a division of the collection (its id and its
    name), the same holds after a chat event, a report, a suggestion, a
    location check, a link check, a short-link redirect or a reset of the
    sessions. *)
Theorem cache_valid_preserved (r : AnyRequest) (w : World) :
  cache_valid env (locationCache w) ->
  cache_valid env (locationCache (serve env r w)).
Proof.
  apply (every_request env
           (fun w w' => cache_valid env (locationCache w) ->
                        cache_valid env (locationCache w'))).
  - intros a H. exact H.
  - intros a b c Hab Hbc H. exact (Hbc (Hab H)).
  - intros e a H. exact H.
  - intros a H. exact H.
  - intros s a H. exact H.
  - intros a H. exact H.
  - intros q a H. exact H.
  - intros id cs a H. exact H.
  - intros lid uid a H. exact H.
  - intros l a H. exact H.
  - intros key d Hd a H key' id name Hl. cbn in Hl.
    apply lookup_insert_Some in Hl as [[_ Hl]|[_ Hl]].
    + injection Hl as <- <-. exists d. repeat split. exact Hd.
    + exact (H key' id name Hl).
  - intros key a H key' id name Hl. cbn in Hl.
    apply lookup_insert_Some in Hl as [[_ Hl]|[_ Hl]].
    + discriminate Hl.
    + exact (H key' id name Hl).
Qed.

End CacheInvariant.

Lemma cache_valid_preserved_witness :
  cache_valid Sample.env0 (locationCache Sample.empty_world) /\
  cache_valid Sample.env0
    (locationCache (serve Sample.env0 (CheckLocation (Some "0.5") (Some "0.5"))
                      Sample.empty_world)).
Proof.
  assert (H : cache_valid Sample.env0 (locationCache Sample.empty_world)).
  { intros key id name Hl. cbn in Hl. rewrite lookup_empty in Hl. discriminate Hl. }
  split; [exact H|].
  exact (cache_valid_preserved Sample.env0 (CheckLocation (Some "0.5") (Some "0.5"))
           Sample.empty_world H).
Defined.

(** ** Capture links are never lost, and a used link stays used *)

Section LinkInvariant.

Lemma link_kept_refl (a : ReportLink) : link_kept a a.
Proof. repeat split. intros H. exact H. Qed.

Lemma link_kept_trans (a b c : ReportLink) : link_kept a b -> link_kept b c -> link_kept a c.
Proof.
  intros (H1 & H2 & H3 & H4 & H5) (K1 & K2 & K3 & K4 & K5).
  repeat split; try congruence. intros H. exact (K5 (H5 H)).
Qed.

Lemma links_same_kept (w w' : World) : links w' = links w -> links_kept w w'.
Proof.
  intros E. exists (links w), []. rewrite app_nil_r. split; [exact E|].
  apply Forall2_same_length_lookup_2; [reflexivity|].
  intros i a b Ha Hb. rewrite Ha in Hb. injection Hb as <-. apply link_kept_refl.
Qed.

Lemma links_kept_trans (a b c : World) : links_kept a b -> links_kept b c -> links_kept a c.
Proof.
  intros (u1 & x1 & E1 & F1) (u2 & x2 & E2 & F2).
  rewrite E1 in F2. apply Forall2_app_inv_l in F2 as (v1 & v2 & G1 & G2 & ->).
  exists v1, (v2 ++ x2). split; [rewrite E2, app_assoc; reflexivity|].
  clear - F1 G1. revert v1 G1.
  induction F1 as [|p q l1 l2 Hpq _ IH]; intros v1 G1.
  - inversion G1. constructor.
  - inversion G1 as [|? r ? l3 Hqr G1']; subst. constructor.
    + exact (link_kept_trans _ _ _ Hpq Hqr).
    + apply IH. exact G1'.
Qed.

Lemma mark_used_kept (env : Env) (lid uid : string) (l : list ReportLink) :
  Forall2 link_kept l (mark_used env lid uid l).
Proof.
  induction l as [|x t IH]; cbn [mark_used]; [constructor|].
  destruct (link_matches lid uid x).
  - constructor.
    + repeat split.
    + apply Forall2_same_length_lookup_2; [reflexivity|].
      intros i a b Ha Hb. rewrite Ha in Hb. injection Hb as <-. apply link_kept_refl.
  - constructor; [apply link_kept_refl|exact IH].
Qed.

Lemma links_kept_request (env : Env) (r : AnyRequest) (w : World) :
  links_kept w (serve env r w).
Proof.
  apply (every_request env links_kept).
  - intros a. apply links_same_kept. reflexivity.
  - apply links_kept_trans.
  - intros e a. apply links_same_kept. reflexivity.
  - intros a. apply links_same_kept. reflexivity.
  - intros s a. apply links_same_kept. reflexivity.
  - intros a. apply links_same_kept. reflexivity.
  - intros q a. apply links_same_kept. reflexivity.
  - intros id cs a. apply links_same_kept. reflexivity.
  - intros lid uid a. exists (mark_used env lid uid (links a)), [].
    rewrite app_nil_r. split; [reflexivity|apply mark_used_kept].
  - intros l a. exists (links a), [l]. split; [reflexivity|].
    apply Forall2_same_length_lookup_2; [reflexivity|].
    intros i x y Hx Hy. rewrite Hx in Hy. injection Hy as <-. apply link_kept_refl.
  - intros key d _ a. apply links_same_kept. reflexivity.
  - intros key a. apply links_same_kept. reflexivity.
Qed.

Lemma links_kept_all (rs : list (Env * AnyRequest)) (w : World) :
  links_kept w (serve_all rs w).
Proof.
  revert w. induction rs as [|[env r] rs IH]; intros w; cbn [serve_all].
  - apply links_same_kept. reflexivity.
  - eapply links_kept_trans; [apply links_kept_request|apply IH].
Qed.

Lemma validate_used (env : Env) (lid uid : string) (w : World) :
  validate env lid uid w = Some AlreadyUsed <->
  truthy_str (Some lid) = true /\ truthy_str (Some uid) = true /\
  exists l, find_link lid (cleanUserId_for_link uid) w = Some l /\ used l = true.
Proof.
  destruct (truthy_str (Some lid)) eqn:Hl.
  2:{ split; [|intros (H & _); discriminate H].
      unfold validate, check_link_validity, try_catch. rewrite Hl. cbn. discriminate. }
  destruct (truthy_str (Some uid)) eqn:Hu.
  2:{ split; [|intros (_ & H & _); discriminate H].
      unfold validate, check_link_validity, try_catch. rewrite Hl, Hu. cbn. discriminate. }
  rewrite (validate_spec env lid uid w Hl Hu).
  destruct (find_link lid (cleanUserId_for_link uid) w) as [l|].
  - destruct (used l) eqn:U.
    + split; [|reflexivity]. intros _. repeat split. exists l. split; [reflexivity|exact U].
    + split.
      * destruct (_ <? _)%Z; discriminate.
      * intros (_ & _ & l' & E & U'). injection E as <-. congruence.
  - split; [discriminate|]. intros (_ & _ & l' & E & _). discriminate E.
Qed.

Lemma find_link_kept (lid c : string) (w w' : World) (l : ReportLink) :
  links_kept w w' -> find_link lid c w = Some l ->
  exists l', find_link lid c w' = Some l' /\ link_kept l l'.
Proof.
  intros (upd & extra & E & F). unfold find_link. rewrite E. clear E.
  induction F as [|a b l1 l2 Hab _ IH]; intros H; [discriminate H|].
  cbn [app List.find] in *.
  assert (Hm : link_matches lid c b = link_matches lid c a).
  { destruct Hab as (H1 & H2 & _). unfold link_matches. rewrite H1, H2. reflexivity. }
  rewrite Hm. destruct (link_matches lid c a).
  - injection H as <-. exists b. split; [reflexivity|exact Hab].
  - exact (IH H).
Qed.

(** X7. A capture link that the validity check reports as already used
    is reported so for ever: after any sequence of chat events, reports,
    suggestions, checks, redirects and resets, at any later instants, the
    check of the same link for the same user still answers AlreadyUsed. *)
Theorem used_link_stays_used (env env' : Env) (rs : list (Env * AnyRequest))
    (lid uid : string) (w : World) :
  validate env lid uid w = Some AlreadyUsed ->
  validate env' lid uid (serve_all rs w) = Some AlreadyUsed.
Proof.
  intros H. apply validate_used in H as (Hl & Hu & l & Hf & U).
  apply validate_used. split; [exact Hl|]. split; [exact Hu|].
  destruct (find_link_kept lid _ w (serve_all rs w) l (links_kept_all rs w) Hf)
    as (l' & Hf' & Hk).
  exists l'. split; [exact Hf'|]. apply Hk. exact U.
Qed.

End LinkInvariant.

(** ** The session manager: loading a session *)

Section SessionMore.

Variable env : Env.

Lemma find_session_upsert_other (s : Session) (l : list Session) (u : string) :
  u <> user_id s ->
  List.find (fun s' => String.eqb (user_id s') u) (upsert_session s l)
  = List.find (fun s' => String.eqb (user_id s') u) l.
Proof.
  intros Hne. induction l as [|a l IH]; cbn [upsert_session List.find].
  - destruct (String.eqb_spec (user_id s) u) as [E|_]; [congruence|reflexivity].
  - destruct (String.eqb_spec (user_id a) (user_id s)) as [E|_]; cbn [List.find].
    + destruct (String.eqb_spec (user_id s) u) as [E'|_]; [congruence|].
      destruct (String.eqb_spec (user_id a) u) as [E'|_]; [congruence|reflexivity].
    + destruct (String.eqb (user_id a) u); [reflexivity|exact IH].
Qed.

Lemma upsert_session_found (s : Session) (l : list Session) :
  List.find (fun s' => String.eqb (user_id s') (user_id s)) l = Some s ->
  upsert_session s l = l.
Proof.
  induction l as [|a l IH]; cbn [upsert_session List.find]; [discriminate|].
  destruct (String.eqb (user_id a) (user_id s)).
  - intros H. injection H as ->. reflexivity.
  - intros H. rewrite (IH H). reflexivity.
Qed.

(** Loading a session always succeeds; the session returned is the one
    saved. *)
Lemma getUserSession_run (userId : string) (w : World) :
  exists s,
    getUserSession env userId w
    = (Ok s, log (EvSessionSaved s) (set_sessions (upsert_session s) w)) /\
    user_id s = userId /\ last_interaction s = now env.
Proof.
  unfold getUserSession, bind, get.
  destruct (find_session userId w) as [s0|] eqn:Hf.
  - apply find_session_user_id in Hf.
    destruct (conversationTimeout <? now env - last_interaction s0)%Z;
      eexists; (split; [reflexivity|split; [exact Hf|reflexivity]]).
  - eexists; (split; [reflexivity|split; reflexivity]).
Qed.

(** X8. [getUserSession] always returns a session of the user asked for,
    stamped with the current time, and that session is the one the store
    then holds for the user; the sessions of the other users, the reports
    and the links are as before. *)
Theorem getUserSession_stored (userId : string) (w : World) :
  exists s w',
    getUserSession env userId w = (Ok s, w') /\
    user_id s = userId /\ last_interaction s = now env /\
    find_session userId w' = Some s /\
    (forall u, u <> userId -> find_session u w' = find_session u w) /\
    queries w' = queries w /\ links w' = links w.
Proof.
  destruct (getUserSession_run userId w) as (s & Hrun & Hu & Ht).
  exists s. eexists. split; [exact Hrun|].
  split; [exact Hu|]. split; [exact Ht|].
  unfold find_session. cbn [sessions log set_sessions]. repeat split.
  - rewrite <- Hu. apply find_session_upsert.
  - intros u Hne. apply find_session_upsert_other. congruence.
Qed.

(** X9. Loading the session of a known user never changes the name, the
    language or the drafts stored for the user.  A session idle for at
    most one hour (the bound included) continues in its state with its
    last option; a session idle for longer restarts with no last option,
    at the menu when the name is known and at the language selection
    otherwise. *)
Theorem getUserSession_returning (userId : string) (w : World) (s0 : Session) :
  find_session userId w = Some s0 ->
  exists s w',
    getUserSession env userId w = (Ok s, w') /\
    user_name s = user_name s0 /\ language s = language s0 /\
    last_description s = last_description s0 /\
    last_photo_url s = last_photo_url s0 /\
    ((now env - last_interaction s0 <= 3600000)%Z ->
     current_state s = current_state s0 /\ last_option s = last_option s0) /\
    ((3600000 < now env - last_interaction s0)%Z ->
     current_state s = (if truthy_str (user_name s0) then MENU else LANGUAGE_SELECT) /\
     last_option s = None).
Proof.
  intros Hf. unfold getUserSession, bind, get. rewrite Hf.
  change conversationTimeout with 3600000%Z.
  destruct (Z.ltb_spec 3600000 (now env - last_interaction s0)) as [Hlt|Hle];
    eexists; eexists; (split; [reflexivity|]); cbn; repeat split; intros; lia.
Qed.

(** X10. Loading the same session again at the same instant gives the
    same session and leaves the session collection as the first load
    left it. *)
Theorem getUserSession_twice (userId : string) (w : World) :
  let first := getUserSession env userId w in
  let second := getUserSession env userId (snd first) in
  fst second = fst first /\ sessions (snd second) = sessions (snd first).
Proof.
  cbn zeta.
  destruct (getUserSession_run userId w) as (s & Hrun & Hu & Ht).
  rewrite Hrun. cbn [fst snd].
  assert (Hf : find_session userId
                 (log (EvSessionSaved s) (set_sessions (upsert_session s) w)) = Some s).
  { unfold find_session. cbn [sessions log set_sessions].
    rewrite <- Hu. apply find_session_upsert. }
  unfold getUserSession at 1 2, bind, get. rewrite Hf, Ht.
  replace (now env - now env)%Z with 0%Z by lia.
  change (conversationTimeout <? 0)%Z with false. cbn iota.
  assert (Es : mkSession (user_id s) (current_state s) (last_option s) (language s)
                 (now env) (user_name s) (last_description s) (last_photo_url s) = s).
  { rewrite <- Ht. destruct s; reflexivity. }
  rewrite Es. unfold save_session, modify, emit, bind, ret. cbn [fst snd].
  split; [reflexivity|].
  cbn [sessions log set_sessions].
  apply upsert_session_found. apply find_session_upsert.
Qed.

End SessionMore.

Lemma getUserSession_returning_witness :
  exists s w',
    getUserSession (Sample.mk_env [] 4599000 Sample.always) "whatsapp:+919876543210"
      (Sample.world_with AWAITING_LOCATION) = (Ok s, w') /\
    current_state s = AWAITING_LOCATION /\ user_name s = Some "Meera".
Proof.
  destruct (getUserSession_returning (Sample.mk_env [] 4599000 Sample.always)
              "whatsapp:+919876543210" (Sample.world_with AWAITING_LOCATION)
              (Sample.session_of AWAITING_LOCATION) eq_refl)
    as (s & w' & Hrun & Hname & _ & _ & _ & Hkeep & _).
  exists s, w'. split; [exact Hrun|]. split.
  - apply Hkeep. vm_compute. discriminate.
  - exact Hname.
Defined.

(** ** The waiting states of the conversation are never entered *)

Section Dormant.

Variable env : Env.

Lemma calmly_ret {A} (a : A) (Q : A -> Prop) : Q a -> calmly (ret a) Q.
Proof. intros H w Hw. cbn. repeat split; assumption. Qed.

Lemma calmly_throw {A} (e : string) (Q : A -> Prop) : calmly (@throw A e) Q.
Proof. intros w Hw. cbn. repeat split; assumption. Qed.

Lemma calmly_bind {A B} (m : M A) (k : A -> M B) (Q : A -> Prop) (Q' : B -> Prop) :
  calmly m Q -> (forall a, Q a -> calmly (k a) Q') -> calmly (bind m k) Q'.
Proof.
  intros Hm Hk w Hw. unfold bind. specialize (Hm w Hw).
  destruct (m w) as [[a|e] w1]; cbn [fst snd] in *.
  - destruct Hm as (Hc & Hq & Ha). specialize (Hk a Ha w1 Hc).
    destruct Hk as (Hc' & Hq' & Hb). repeat split; [exact Hc'|congruence|exact Hb].
  - destruct Hm as (Hc & Hq & _). repeat split; assumption.
Qed.

Lemma calmly_try_catch {A} (m : M A) (h : string -> M A) (Q : A -> Prop) :
  calmly m Q -> (forall e, calmly (h e) Q) -> calmly (try_catch m h) Q.
Proof.
  intros Hm Hh w Hw. unfold try_catch. specialize (Hm w Hw).
  destruct (m w) as [[a|e] w1]; cbn [fst snd] in *.
  - exact Hm.
  - destruct Hm as (Hc & Hq & _). specialize (Hh e w1 Hc).
    destruct Hh as (Hc' & Hq' & Hb). repeat split; [exact Hc'|congruence|exact Hb].
Qed.

Lemma calmly_weaken {A} (m : M A) (Q Q' : A -> Prop) :
  (forall a, Q a -> Q' a) -> calmly m Q -> calmly m Q'.
Proof.
  intros H Hm w Hw. destruct (Hm w Hw) as (Hc & Hq & Ha).
  repeat split; [exact Hc|exact Hq|].
  destruct (fst (m w)); [apply H; exact Ha|exact I].
Qed.

Lemma calmly_undisturbed {A} (m : M A) : keeps undisturbed m -> calmly m (fun _ => True).
Proof.
  intros Hm w Hw. destruct (Hm w) as [Hs Hq].
  repeat split; [unfold calm; rewrite Hs; exact Hw|exact Hq|].
  destruct (fst (m w)); exact I.
Qed.

Lemma undisturbed_refl (w : World) : undisturbed w w.
Proof. split; reflexivity. Qed.

Lemma undisturbed_trans (a b c : World) :
  undisturbed a b -> undisturbed b c -> undisturbed a c.
Proof. intros [H1 H2] [K1 K2]. split; congruence. Qed.

Lemma undisturbed_frame (f : World -> World) :
  (forall w, sessions (f w) = sessions w) -> (forall w, queries (f w) = queries w) ->
  keeps undisturbed (modify f).
Proof. intros Hs Hq w. split; [apply Hs|apply Hq]. Qed.

Local Ltac ud_side :=
  first [ intros; split; reflexivity | apply undisturbed_trans ].

Lemma ud_messages_create (to body : string) :
  keeps undisturbed (messages_create env to body).
Proof. apply (every_messages_create env undisturbed); ud_side. Qed.

Lemma ud_findDivisionForLocation (latitude longitude : jsval) :
  keeps undisturbed (findDivisionForLocation env latitude longitude).
Proof. apply (every_findDivisionForLocation env undisturbed); ud_side. Qed.

Lemma ud_getCaptureUrl (userNumber reportType : string) :
  keeps undisturbed (getCaptureUrl env userNumber reportType).
Proof.
  intros w. unfold getCaptureUrl.
  destruct (new_linkId env userNumber reportType); split; reflexivity.
Qed.

Lemma ud_preamble (req : WebhookReq) :
  keeps undisturbed
    (if truthy_str (NumMedia req) then
       match parseInt (or_str (NumMedia req) "") with
       | Some n => if (0 <? n)%Z then processMedia env req ;;; ret tt else ret tt
       | None => ret tt
       end
     else ret tt).
Proof.
  intros w.
  destruct (truthy_str (NumMedia req)); [|split; reflexivity].
  destruct (parseInt _) as [n|]; [|split; reflexivity].
  destruct (0 <? n)%Z; [|split; reflexivity].
  unfold processMedia, bind.
  destruct (MediaUrl0 req) as [u|]; [|split; reflexivity].
  destruct (String.eqb u ""); [split; reflexivity|].
  destruct (uploadImageToR2 env u); split; reflexivity.
Qed.

Lemma calm_upsert (s : Session) (w : World) :
  awake (current_state s) = true -> calm w ->
  calm (set_sessions (upsert_session s) w).
Proof.
  intros Hs Hw. unfold calm in *. cbn [sessions set_sessions].
  induction (sessions w) as [|a l IH]; cbn [upsert_session].
  - constructor; [exact Hs|constructor].
  - inversion Hw as [|? ? Ha Hl]; subst.
    destruct (String.eqb (user_id a) (user_id s)).
    + constructor; assumption.
    + constructor; [exact Ha|apply IH; exact Hl].
Qed.

Lemma calmly_save_session (s : Session) :
  awake (current_state s) = true -> calmly (save_session s) (fun _ => True).
Proof.
  intros Hs w Hw. unfold save_session, bind, modify, emit. cbn [fst snd].
  repeat split. exact (calm_upsert s w Hs Hw).
Qed.

Lemma calmly_getUserSession (userId : string) :
  calmly (getUserSession env userId) (fun s => awake (current_state s) = true).
Proof.
  intros w Hw. unfold getUserSession, bind, get.
  destruct (find_session userId w) as [s0|] eqn:Hf.
  - assert (H0 : awake (current_state s0) = true).
    { unfold find_session in Hf. apply List.find_some in Hf as [Hin _].
      unfold calm in Hw. rewrite List.Forall_forall in Hw. exact (Hw s0 Hin). }
    destruct (conversationTimeout <? now env - last_interaction s0)%Z;
      cbn [fst snd]; repeat split;
      try (apply (calm_upsert _ w); [|exact Hw]; cbn [current_state]);
      try exact H0; try (cbn [current_state]; exact H0);
      destruct (truthy_str (user_name s0)); reflexivity.
  - cbn [fst snd]. repeat split. apply (calm_upsert _ w); [reflexivity|exact Hw].
Qed.

Lemma calmly_updateUserSession (s : Session) (st : State) (o l : option string) :
  awake st = true -> calmly (updateUserSession env s st o l) (fun _ => True).
Proof.
  intros Hst w Hw. unfold updateUserSession, save_session, bind, modify, emit, ret.
  cbn [fst snd]. repeat split. apply (calm_upsert _ w); [exact Hst|exact Hw].
Qed.

(** From a state that is not a waiting one, the branch taken stores no
    report and does not choose a waiting state. *)
Lemma calmly_dispatch (s : Session) (userMessage userNumber : string)
    (latitude longitude locationAddress : option string) :
  awake (current_state s) = true ->
  calmly (dispatch env s userMessage userNumber latitude longitude locationAddress)
    (fun o => match o with
              | Continue _ v => awake (newState v) = true
              | Returned _ => True
              end).
Proof.
  intros Hs. unfold dispatch.
  destruct (String.eqb (toLowerCase userMessage) "reset");
    [apply calmly_ret; reflexivity|].
  destruct (current_state s) eqn:E; try discriminate Hs; cbn [State_eqb].
  - destruct (String.eqb userMessage "1");
      [destruct (truthy_str (user_name s)); apply calmly_ret; reflexivity|].
    destruct (String.eqb userMessage "2");
      [destruct (truthy_str (user_name s)); apply calmly_ret; reflexivity|].
    apply calmly_ret; reflexivity.
  - eapply calmly_bind.
    + apply calmly_save_session. cbn [set_user_name current_state]. rewrite E. reflexivity.
    + intros _ _. apply calmly_ret. reflexivity.
  - destruct (String.eqb (toLowerCase userMessage) "menu");
      [apply calmly_ret; reflexivity|].
    destruct (is_menu_choice userMessage).
    + apply calmly_try_catch; [|intros e; apply calmly_ret; reflexivity].
      eapply calmly_bind; [apply calmly_undisturbed, ud_getCaptureUrl|].
      intros url _. apply calmly_ret. reflexivity.
    + destruct (String.eqb userMessage "8"); apply calmly_ret; reflexivity.
  - destruct (String.eqb (toLowerCase userMessage) "menu"); apply calmly_ret; reflexivity.
  - destruct (String.eqb (toLowerCase userMessage) "menu"); apply calmly_ret; reflexivity.
Qed.

Lemma calmly_webhook (req : WebhookReq) : calmly (webhook env req) (fun _ => True).
Proof.
  unfold webhook, webhook_body, webhook_enter.
  apply calmly_try_catch; [|intros e; apply calmly_ret; exact I].
  eapply calmly_bind.
  { eapply calmly_bind; [apply calmly_undisturbed, ud_preamble|].
    intros _ _. apply calmly_getUserSession. }
  intros s Hs. cbn beta in Hs.
  eapply calmly_bind; [apply (calmly_dispatch s); exact Hs|].
  intros [s' v|r] Ho; [|apply calmly_ret; exact I].
  eapply calmly_bind; [apply calmly_updateUserSession; exact Ho|].
  intros _ _.
  eapply calmly_bind; [apply calmly_undisturbed, ud_messages_create|].
  intros _ _. apply calmly_ret. exact I.
Qed.

End Dormant.

Lemma calm_serve (env : Env) (r : AnyRequest) (w : World) :
  calm w -> calm (serve env r w).
Proof.
  intros Hw.
  assert (Hs : forall w', sessions w' = sessions w -> calm w').
  { intros w' E. unfold calm. rewrite E. exact Hw. }
  destruct r as [req|req|req|lat lng|l u|lid|]; cbn [serve].
  - apply (calmly_webhook env req w Hw).
  - apply Hs.
    apply (every_api_report env (fun a b => sessions b = sessions a));
      first [ intros a b c H1 H2; congruence
            | unfold keeps; intros; reflexivity ].
  - apply Hs.
    apply (every_api_suggestion env (fun a b => sessions b = sessions a));
      first [ intros a b c H1 H2; congruence
            | unfold keeps; intros; reflexivity ].
  - apply Hs.
    apply (every_check_location env (fun a b => sessions b = sessions a));
      first [ intros a b c H1 H2; congruence
            | unfold keeps; intros; reflexivity ].
  - rewrite check_link_validity_readonly. exact Hw.
  - apply Hs.
    apply (every_redirect env (fun a b => sessions b = sessions a));
      first [ intros a b c H1 H2; congruence
            | unfold keeps; intros; reflexivity ].
  - unfold calm in *. cbn. clear Hs.
    induction Hw as [|a l _ _ IH]; cbn [map]; constructor; [reflexivity|exact IH].
Qed.

Lemma calm_serve_all (rs : list (Env * AnyRequest)) (w : World) :
  calm w -> calm (serve_all rs w).
Proof.
  revert w. induction rs as [|[env r] rs IH]; intros w Hw; cbn [serve_all].
  - exact Hw.
  - apply IH, calm_serve, Hw.
Qed.

(** X11. The chat handler never moves a session into one of the three
    waiting states (for a location, a suggestion text, a join text), and
    outside them it stores no report.  So from a store in which no
    session waits -- the empty store in particular -- and after any
    sequence of chat events, reports, suggestions, checks, redirects and
    resets, no session waits and a chat event leaves the reports as they
    are. *)
Theorem chat_stores_no_report (rs : list (Env * AnyRequest)) (env : Env)
    (req : WebhookReq) (w : World) :
  calm w ->
  calm (serve_all rs w) /\
  queries (serve env (Chat req) (serve_all rs w)) = queries (serve_all rs w).
Proof.
  intros Hw. pose proof (calm_serve_all rs w Hw) as Hc.
  split; [exact Hc|]. cbn [serve].
  apply (calmly_webhook env req (serve_all rs w) Hc).
Qed.

Lemma chat_stores_no_report_witness :
  let w1 := serve_all Sample.first_contact Sample.empty_world in
  option_map current_state (find_session "whatsapp:+919876543210" w1) = Some AWAITING_REPORT /\
  queries (serve Sample.env_one_officer
             (Chat (Sample.location_from_user "18.62" "73.80")) w1) = [].
Proof.
  cbn zeta. split; [vm_compute; reflexivity|].
  destruct (chat_stores_no_report Sample.first_contact Sample.env_one_officer
              (Sample.location_from_user "18.62" "73.80") Sample.empty_world) as [_ H].
  - constructor.
  - rewrite H. vm_compute. reflexivity.
Defined.

(** ** The chat handler: reset, name collection, language selection *)

Section ChatMore.

Variable env : Env.

(** The tail of the handler after a branch that falls through: the
    session is saved with the new state and the reply is sent. *)
Lemma webhook_run_continue (req : WebhookReq) (w w0 w1 : World) (s s' : Session) (v : Vars) :
  webhook_enter env req w = (Ok s, w0) ->
  dispatch env s (or_str (Body_ req) "") (or_str (From req) "")
    (nonempty (Latitude req)) (nonempty (Longitude req)) (nonempty (Address req)) w0
  = (Ok (Continue s' v), w1) ->
  let userNumber := or_str (From req) "" in
  let saved :=
    mkSession (user_id s') (newState v) (newLastOption v)
      (if String.eqb (newLanguage v) "" then language s' else newLanguage v)
      (now env) (user_name s') (last_description s') (last_photo_url s') in
  let delivered := deliver env userNumber (responseMessage v) in
  webhook env req w
  = (Ok (mkResponse (if delivered then 200 else 500) empty_twiml),
     log (EvMessage userNumber (responseMessage v) delivered)
       (log (EvSessionSaved saved) (set_sessions (upsert_session saved) w1))).
Proof.
  intros Henter Hd. cbn zeta.
  unfold webhook, webhook_body, try_catch.
  rewrite (bind_ok _ _ _ _ _ Henter). rewrite (bind_ok _ _ _ _ _ Hd).
  unfold updateUserSession, save_session, messages_create, bind, modify, emit, ret, throw.
  cbn [fst snd].
  destruct (deliver env (or_str (From req) "") (responseMessage v)); reflexivity.
Qed.

Lemma find_session_saved (s : Session) (u : string) (w : World) (e1 e2 : Event) :
  user_id s = u ->
  find_session u (log e1 (log e2 (set_sessions (upsert_session s) w))) = Some s.
Proof.
  intros <-. unfold find_session. cbn [sessions log set_sessions].
  apply find_session_upsert.
Qed.

(** X12. The word "reset", in any mix of upper and lower case, takes the
    conversation back to the language selection from every state: the
    session of the sender is stored in state LANGUAGE_SELECT with no last
    option, the reply is the language prompt in English, and no report is
    stored. *)
Theorem reset_from_any_state (req : WebhookReq) (w : World) :
  String.eqb (toLowerCase (or_str (Body_ req) "")) "reset" = true ->
  let userNumber := or_str (From req) "" in
  let prompt := getLanguagePrompt env "en" in
  let w' := snd (webhook env req w) in
  option_map current_state (find_session userNumber w') = Some LANGUAGE_SELECT /\
  option_map last_option (find_session userNumber w') = Some None /\
  queries w' = queries w /\
  (exists pre, trace w' = pre ++ [EvMessage userNumber prompt (deliver env userNumber prompt)]) /\
  fst (webhook env req w)
  = Ok (mkResponse (if deliver env userNumber prompt then 200 else 500) empty_twiml).
Proof.
  intros Hreset. cbn zeta.
  destruct (webhook_enter_ok env req w) as (s & w0 & Henter & Hu).
  assert (Hq0 : queries w0 = queries w).
  { pose proof (nr_webhook_enter env req w) as H. rewrite Henter in H. apply H. }
  assert (Hd : dispatch env s (or_str (Body_ req) "") (or_str (From req) "")
                 (nonempty (Latitude req)) (nonempty (Longitude req))
                 (nonempty (Address req)) w0
               = (Ok (Continue s (mkVars (getLanguagePrompt env "en") LANGUAGE_SELECT None
                                   (userLanguage_of s))), w0)).
  { unfold dispatch. rewrite Hreset. reflexivity. }
  rewrite (webhook_run_continue req w w0 w0 s s _ Henter Hd). cbn [fst snd].
  cbn [responseMessage newState newLastOption newLanguage].
  rewrite find_session_saved by exact Hu.
  repeat split.
  - cbn. exact Hq0.
  - eexists. reflexivity.
Qed.

(** X13. In state NAME_COLLECTION whatever the user sends, other than
    the reset command, is stored as the name of the user -- the word
    "menu" and the empty text of a message without body included -- and
    the conversation moves to the menu; no report is stored. *)
Theorem name_collection_stores_name (req : WebhookReq) (w w0 : World) (s : Session) :
  webhook_enter env req w = (Ok s, w0) ->
  current_state s = NAME_COLLECTION ->
  String.eqb (toLowerCase (or_str (Body_ req) "")) "reset" = false ->
  let userNumber := or_str (From req) "" in
  let w' := snd (webhook env req w) in
  option_map user_name (find_session userNumber w') = Some (Some (or_str (Body_ req) "")) /\
  option_map current_state (find_session userNumber w') = Some MENU /\
  queries w' = queries w.
Proof.
  intros Henter Hst Hreset. cbn zeta.
  assert (Hu : user_id s = or_str (From req) "").
  { destruct (webhook_enter_ok env req w) as (s1 & w1 & E & Hu).
    rewrite Henter in E. injection E as <- <-. exact Hu. }
  assert (Hq0 : queries w0 = queries w).
  { pose proof (nr_webhook_enter env req w) as H. rewrite Henter in H. apply H. }
  set (named := set_user_name s (or_str (Body_ req) "")).
  assert (Hd : exists v,
             dispatch env s (or_str (Body_ req) "") (or_str (From req) "")
               (nonempty (Latitude req)) (nonempty (Longitude req))
               (nonempty (Address req)) w0
             = (Ok (Continue named v),
                log (EvSessionSaved named) (set_sessions (upsert_session named) w0)) /\
             newState v = MENU).
  { unfold dispatch. rewrite Hreset, Hst. cbn [State_eqb].
    eexists. split; [reflexivity|reflexivity]. }
  destruct Hd as (v & Hd & Hv).
  rewrite (webhook_run_continue req w w0 _ s named v Henter Hd). cbn [fst snd].
  rewrite find_session_saved by exact Hu.
  cbn. rewrite Hv. repeat split. exact Hq0.
Qed.

(** X14. In state LANGUAGE_SELECT the answers "1" and "2" choose English
    and Marathi: the language is stored with the session, and the
    conversation continues at the menu when the name of the user is
    known and with the request for the name otherwise.  The name is not
    touched and no report is stored. *)
Theorem language_selection (req : WebhookReq) (w w0 : World) (s : Session) :
  webhook_enter env req w = (Ok s, w0) ->
  current_state s = LANGUAGE_SELECT ->
  or_str (Body_ req) "" = "1" \/ or_str (Body_ req) "" = "2" ->
  let userNumber := or_str (From req) "" in
  let w' := snd (webhook env req w) in
  option_map language (find_session userNumber w')
  = Some (if String.eqb (or_str (Body_ req) "") "1" then "en" else "mr") /\
  option_map current_state (find_session userNumber w')
  = Some (if truthy_str (user_name s) then MENU else NAME_COLLECTION) /\
  option_map user_name (find_session userNumber w') = Some (user_name s) /\
  queries w' = queries w.
Proof.
  intros Henter Hst Hbody. cbn zeta.
  assert (Hu : user_id s = or_str (From req) "").
  { destruct (webhook_enter_ok env req w) as (s1 & w1 & E & Hu).
    rewrite Henter in E. injection E as <- <-. exact Hu. }
  assert (Hq0 : queries w0 = queries w).
  { pose proof (nr_webhook_enter env req w) as H. rewrite Henter in H. apply H. }
  assert (Hd : exists v,
             dispatch env s (or_str (Body_ req) "") (or_str (From req) "")
               (nonempty (Latitude req)) (nonempty (Longitude req))
               (nonempty (Address req)) w0
             = (Ok (Continue s v), w0) /\
             newState v = (if truthy_str (user_name s) then MENU else NAME_COLLECTION) /\
             newLanguage v
             = (if String.eqb (or_str (Body_ req) "") "1" then "en" else "mr")).
  { unfold dispatch. rewrite Hst. cbn [State_eqb].
    destruct Hbody as [-> | ->]; cbn [toLowerCase lower_ascii String.eqb Ascii.eqb];
      change (String.eqb (toLowerCase _) "reset") with false; cbn iota;
      destruct (truthy_str (user_name s)); eexists; (split; [reflexivity|split; reflexivity]). }
  destruct Hd as (v & Hd & Hv & Hl).
  rewrite (webhook_run_continue req w w0 w0 s s v Henter Hd). cbn [fst snd].
  rewrite find_session_saved by exact Hu.
  cbn. rewrite Hv, Hl. repeat split; [|exact Hq0].
  destruct (String.eqb (or_str (Body_ req) "") "1"); reflexivity.
Qed.

End ChatMore.

Lemma reset_from_any_state_witness :
  let w' := snd (webhook Sample.env0 (Sample.text_from_user "ReSeT")
                   (Sample.world_with AWAITING_LOCATION)) in
  option_map current_state (find_session "whatsapp:+919876543210" w')
  = Some LANGUAGE_SELECT.
Proof.
  cbn zeta.
  exact (proj1 (reset_from_any_state Sample.env0 (Sample.text_from_user "ReSeT")
                  (Sample.world_with AWAITING_LOCATION) eq_refl)).
Defined.

Lemma name_collection_stores_name_witness :
  let w := Sample.world_with NAME_COLLECTION in
  let w' := snd (webhook Sample.env0 (Sample.text_from_user "menu") w) in
  option_map user_name (find_session "whatsapp:+919876543210" w') = Some (Some "menu").
Proof.
  cbn zeta.
  refine (proj1 (name_collection_stores_name Sample.env0 (Sample.text_from_user "menu")
                   (Sample.world_with NAME_COLLECTION)
                   (Sample.entered_world Sample.env0 (Sample.text_from_user "menu")
                      (Sample.world_with NAME_COLLECTION))
                   (Sample.entered_session Sample.env0 (Sample.text_from_user "menu")
                      (Sample.world_with NAME_COLLECTION)) _ _ _)).
  - vm_compute. reflexivity.
  - vm_compute. reflexivity.
  - vm_compute. reflexivity.
Defined.

Lemma language_selection_witness :
  let w' := snd (webhook Sample.env0 (Sample.text_from_user "2") Sample.empty_world) in
  option_map language (find_session "whatsapp:+919876543210" w') = Some "mr" /\
  option_map current_state (find_session "whatsapp:+919876543210" w') = Some NAME_COLLECTION.
Proof.
  cbn zeta.
  destruct (language_selection Sample.env0 (Sample.text_from_user "2") Sample.empty_world
              (Sample.entered_world Sample.env0 (Sample.text_from_user "2") Sample.empty_world)
              (Sample.entered_session Sample.env0 (Sample.text_from_user "2")
                 Sample.empty_world))
    as (Hl & Hs & _).
  - vm_compute. reflexivity.
  - vm_compute. reflexivity.
  - right. reflexivity.
  - split; [exact Hl|exact Hs].
Defined.

(** ** Identifiers and phone numbers *)

Section ShapeFacts.

Lemma is_digit_not_w (c : ascii) :
  is_digit c = true -> Ascii.eqb (lower_ascii c) "w" = false.
Proof.
  destruct c as [[|] [|] [|] [|] [|] [|] [|] [|]]; vm_compute; congruence.
Qed.

Lemma not_w_plus_or_digit (c : ascii) :
  (Ascii.eqb c "+" || is_digit c)%bool = true -> Ascii.eqb (lower_ascii c) "w" = false.
Proof.
  destruct c as [[|] [|] [|] [|] [|] [|] [|] [|]]; vm_compute; congruence.
Qed.

Lemma append_nil (s : string) : "" +:+ s = s.
Proof. reflexivity. Qed.

Lemma append_cons (c : ascii) (a b : string) : String c a +:+ b = String c (a +:+ b).
Proof. reflexivity. Qed.

Lemma string_forall_app (f : ascii -> bool) (a b : string) :
  string_forall f (a +:+ b) = (string_forall f a && string_forall f b)%bool.
Proof.
  induction a as [|c a IH]; [reflexivity|].
  change (String c a +:+ b) with (String c (a +:+ b)).
  change (string_forall f (String c (a +:+ b)))
    with (f c && string_forall f (a +:+ b))%bool.
  change (string_forall f (String c a)) with (f c && string_forall f a)%bool.
  rewrite IH, andb_assoc. reflexivity.
Qed.

Lemma string_forall_impl (f g : ascii -> bool) (s : string) :
  (forall c, f c = true -> g c = true) ->
  string_forall f s = true -> string_forall g s = true.
Proof.
  intros H. induction s as [|c r IH]; [reflexivity|].
  cbn [string_forall]. intros E. apply andb_true_iff in E as [Hc Hr].
  rewrite (H c Hc), (IH Hr). reflexivity.
Qed.

Lemma string_forall_repeat (f : ascii -> bool) (c : ascii) (n : nat) :
  f c = true -> string_forall f (repeat_char c n) = true.
Proof.
  intros H. induction n as [|n IH]; [reflexivity|].
  cbn [repeat_char string_forall]. rewrite H, IH. reflexivity.
Qed.

(** A string of plus signs and digits holds no occurrence of the
    prefix. *)
Lemma replace_whatsapp_plain (global : bool) (s : string) :
  string_forall (fun c => Ascii.eqb c "+" || is_digit c)%bool s = true ->
  replace_whatsapp global Scanning s = s.
Proof.
  induction s as [|c r IH]; [reflexivity|].
  cbn [string_forall]. intros H. apply andb_true_iff in H as [Hc Hr].
  cbn [replace_whatsapp].
  assert (Hs : startsWith_ci "whatsapp:" (String c r) = false).
  { unfold startsWith_ci. cbn [toLowerCase String.prefix].
    change (lower_ascii "w") with "w"%char.
    destruct (Ascii.ascii_dec "w" (lower_ascii c)) as [E|_]; [|reflexivity].
    apply not_w_plus_or_digit in Hc. rewrite <- E in Hc. discriminate Hc. }
  rewrite Hs, (IH Hr). reflexivity.
Qed.

(** After an occurrence of the prefix, the blanks are skipped and the
    scan resumes at the first other character. *)
Lemma replace_whatsapp_blanks (n : nat) (c : ascii) (r : string) :
  is_space c = false ->
  replace_whatsapp true (Matching 0) (repeat_char " " n +:+ String c r)
  = replace_whatsapp true Scanning (String c r) /\
  replace_whatsapp true Spaces (repeat_char " " n +:+ String c r)
  = replace_whatsapp true Scanning (String c r).
Proof.
  intros Hc. induction n as [|n [IH1 IH2]].
  - cbn [repeat_char]. rewrite append_nil.
    split; cbn [replace_whatsapp]; rewrite Hc; reflexivity.
  - cbn [repeat_char]. rewrite append_cons. split.
    + change (replace_whatsapp true (Matching 0)
                (String " " (repeat_char " " n +:+ String c r)))
        with (replace_whatsapp true Spaces (repeat_char " " n +:+ String c r)).
      exact IH2.
    + change (replace_whatsapp true Spaces
                (String " " (repeat_char " " n +:+ String c r)))
        with (replace_whatsapp true Spaces (repeat_char " " n +:+ String c r)).
      exact IH2.
Qed.

(** An occurrence of the prefix at the start of the string is found. *)
Lemma replace_whatsapp_prefix (global : bool) (c : ascii) (r : string) :
  replace_whatsapp global Scanning ("whatsapp:" +:+ String c r)
  = replace_whatsapp global (Matching 0) (String c r).
Proof. reflexivity. Qed.

Lemma dropWhile_pluses (m : nat) (c : ascii) (r : string) :
  is_digit c = true ->
  dropWhile_ascii (Ascii.eqb "+") (repeat_char "+" m +:+ String c r) = String c r.
Proof.
  intros Hc. induction m as [|m IH].
  - cbn [repeat_char]. rewrite append_nil. cbn [dropWhile_ascii].
    destruct (Ascii.eqb_spec "+"%char c) as [<-|_]; [discriminate Hc|reflexivity].
  - cbn [repeat_char]. rewrite append_cons. cbn [dropWhile_ascii Ascii.eqb Bool.eqb].
    exact IH.
Qed.

(** X15. Every usual spelling of a WhatsApp number is normalised to the
    same identifier: for a non-empty string of digits [d], the spellings
    with or without the scheme prefix, with any number of blanks after
    the prefix and any number of plus signs before the digits, all give
    "whatsapp:+d" (and the bare digits when the prefix is not asked
    for). *)
Theorem normalizeUserId_canonical (d : string) (n m : nat) (includePrefix : bool) :
  digits d = true ->
  normalizeUserId ("whatsapp:" +:+ repeat_char " " n +:+ repeat_char "+" m +:+ d)
    includePrefix
  = (if includePrefix then "whatsapp:+" +:+ d else d) /\
  normalizeUserId (repeat_char "+" m +:+ d) includePrefix
  = (if includePrefix then "whatsapp:+" +:+ d else d).
Proof.
  unfold digits. intros H. apply andb_true_iff in H as [Hne Hd].
  destruct d as [|c r]; [discriminate Hne|]. clear Hne.
  assert (Hc : is_digit c = true).
  { cbn [string_forall] in Hd. apply andb_true_iff in Hd. tauto. }
  assert (Hplain : string_forall (fun c => Ascii.eqb c "+" || is_digit c)%bool
                     (repeat_char "+" m +:+ String c r) = true).
  { rewrite string_forall_app, string_forall_repeat by reflexivity. cbn [andb].
    apply (string_forall_impl is_digit); [|exact Hd].
    intros a Ha. rewrite Ha. apply orb_true_r. }
  assert (Hclean : dropWhile_ascii (Ascii.eqb "+")
                     (replace_whatsapp true Scanning (repeat_char "+" m +:+ String c r))
                   = String c r).
  { rewrite replace_whatsapp_plain by exact Hplain. apply dropWhile_pluses, Hc. }
  assert (Hsp : is_space c = false).
  { destruct c as [[|] [|] [|] [|] [|] [|] [|] [|]]; vm_compute in Hc |- *; congruence. }
  assert (Hscan : replace_whatsapp true Scanning
                    ("whatsapp:" +:+ repeat_char " " n +:+ repeat_char "+" m +:+ String c r)
                  = replace_whatsapp true Scanning (repeat_char "+" m +:+ String c r)).
  { assert (Hgen : forall a t, is_space a = false ->
               replace_whatsapp true Scanning
                 ("whatsapp:" +:+ repeat_char " " n +:+ String a t)
               = replace_whatsapp true Scanning (String a t)).
    { intros a t Ha. rewrite <- (proj1 (replace_whatsapp_blanks n a t Ha)).
      destruct n as [|n].
      - cbn [repeat_char]. rewrite append_nil. apply replace_whatsapp_prefix.
      - cbn [repeat_char].
        rewrite (append_cons " " (repeat_char " " n) (String a t)).
        apply replace_whatsapp_prefix. }
    destruct m as [|m].
    - cbn [repeat_char]. rewrite append_nil. apply Hgen, Hsp.
    - cbn [repeat_char].
      rewrite (append_cons "+" (repeat_char "+" m) (String c r)).
      apply Hgen. reflexivity. }
  split.
  - unfold normalizeUserId. rewrite Hscan, Hclean.
    change (String.eqb ("whatsapp:" +:+ repeat_char " " n +:+ repeat_char "+" m +:+
                        String c r) "") with false.
    reflexivity.
  - unfold normalizeUserId.
    assert (Hne : String.eqb (repeat_char "+" m +:+ String c r) "" = false).
    { destruct m; reflexivity. }
    rewrite Hne, Hclean. reflexivity.
Qed.

Lemma filter_string_forall (f : ascii -> bool) (s : string) :
  string_forall f (filter_string f s) = true.
Proof.
  induction s as [|c r IH]; [reflexivity|].
  cbn [filter_string]. destruct (f c) eqn:E; [|exact IH].
  cbn [string_forall]. rewrite E, IH. reflexivity.
Qed.

Lemma filter_string_id (f : ascii -> bool) (s : string) :
  string_forall f s = true -> filter_string f s = s.
Proof.
  induction s as [|c r IH]; [reflexivity|].
  cbn [string_forall filter_string]. intros H. apply andb_true_iff in H as [Hc Hr].
  rewrite Hc, (IH Hr). reflexivity.
Qed.

Lemma dropWhile_forall (f g : ascii -> bool) (s : string) :
  string_forall f s = true -> string_forall f (dropWhile_ascii g s) = true.
Proof.
  induction s as [|c r IH]; [reflexivity|].
  intros H. cbn [dropWhile_ascii]. destruct (g c); [|exact H].
  cbn [string_forall] in H. apply andb_true_iff in H as [_ Hr]. exact (IH Hr).
Qed.

Lemma startsWith_nil (s : string) : startsWith "" s = true.
Proof. destruct s; reflexivity. Qed.

Lemma startsWith_char (a c : ascii) (r : string) :
  startsWith (String a "") (String c r) = Ascii.eqb a c.
Proof.
  unfold startsWith. cbn [String.prefix].
  destruct (Ascii.ascii_dec a c) as [->|Hne].
  - rewrite Ascii.eqb_refl. apply startsWith_nil.
  - symmetry. apply Ascii.eqb_neq. exact Hne.
Qed.

Lemma dropWhile_zero_head (s : string) :
  startsWith "0" (dropWhile_ascii (Ascii.eqb "0") s) = false.
Proof.
  induction s as [|c r IH]; [reflexivity|].
  cbn [dropWhile_ascii]. destruct (Ascii.eqb "0" c) eqn:E; [exact IH|].
  rewrite startsWith_char. exact E.
Qed.

(** X16. A phone number that is set (for an absent or empty one the
    function answers null) and that does not already carry the scheme
    prefix is formatted as "whatsapp:+" followed by decimal digits only,
    without a leading zero, whatever punctuation the stored number
    contains. *)
Theorem formatPhoneNumber_shape (phone : string) :
  phone <> "" ->
  startsWith "whatsapp:" phone = false ->
  exists c, formatPhoneNumber phone = "whatsapp:+" +:+ c /\
    string_forall is_digit c = true /\ startsWith "0" c = false.
Proof.
  intros _ Hp. unfold formatPhoneNumber. rewrite Hp. cbn [negb].
  set (cleaned := dropWhile_ascii (Ascii.eqb "0") (filter_string is_digit phone)).
  assert (Hd : string_forall is_digit cleaned = true).
  { apply dropWhile_forall, filter_string_forall. }
  assert (Hz : startsWith "0" cleaned = false) by apply dropWhile_zero_head.
  destruct (negb (startsWith "91" cleaned) && (String.length cleaned =? 10)%nat)%bool.
  - exists ("91" +:+ cleaned). split; [reflexivity|]. split.
    + rewrite string_forall_app, Hd. reflexivity.
    + reflexivity.
  - exists cleaned. split; [reflexivity|]. split; assumption.
Qed.

Lemma dropWhile_zeros (k : nat) (d : string) :
  startsWith "0" d = false ->
  dropWhile_ascii (Ascii.eqb "0") (repeat_char "0" k +:+ d) = d.
Proof.
  intros Hd. induction k as [|k IH].
  - cbn [repeat_char]. rewrite append_nil.
    destruct d as [|c r]; [reflexivity|].
    rewrite startsWith_char in Hd. cbn [dropWhile_ascii]. rewrite Hd. reflexivity.
  - cbn [repeat_char]. rewrite append_cons. cbn [dropWhile_ascii Ascii.eqb Bool.eqb].
    exact IH.
Qed.

(** X17. A ten-digit national number, written with any number of leading
    zeros, gets the country code 91 -- unless its own first two digits
    are 91, in which case it is sent as it is. *)
Theorem formatPhoneNumber_ten_digits (d : string) (k : nat) :
  string_forall is_digit d = true ->
  String.length d = 10%nat ->
  startsWith "0" d = false ->
  formatPhoneNumber (repeat_char "0" k +:+ d)
  = (if startsWith "91" d then "whatsapp:+" +:+ d else "whatsapp:+91" +:+ d).
Proof.
  intros Hd Hlen Hz. unfold formatPhoneNumber.
  assert (Hall : string_forall is_digit (repeat_char "0" k +:+ d) = true).
  { rewrite string_forall_app, string_forall_repeat by reflexivity. exact Hd. }
  rewrite (filter_string_id _ _ Hall), (dropWhile_zeros k d Hz), Hlen.
  assert (Hp : startsWith "whatsapp:" (repeat_char "0" k +:+ d) = false).
  { destruct k as [|k].
    - cbn [repeat_char]. rewrite append_nil.
      destruct d as [|c r]; [discriminate Hlen|].
      cbn [string_forall] in Hd. apply andb_true_iff in Hd as [Hc _].
      unfold startsWith. cbn [String.prefix].
      destruct (Ascii.ascii_dec "w" c) as [<-|_]; [discriminate Hc|reflexivity].
    - reflexivity. }
  rewrite Hp. cbn [negb Nat.eqb andb].
  destruct (startsWith "91" d); reflexivity.
Qed.

End ShapeFacts.

Lemma normalizeUserId_canonical_witness :
  normalizeUserId "whatsapp:  ++919876543210" true = "whatsapp:+919876543210" /\
  normalizeUserId "+919876543210" true = "whatsapp:+919876543210".
Proof.
  exact (normalizeUserId_canonical "919876543210" 2 2 true eq_refl).
Defined.

Lemma formatPhoneNumber_shape_witness :
  exists c, formatPhoneNumber "(020) 2742-5511" = "whatsapp:+" +:+ c /\
    string_forall is_digit c = true /\ startsWith "0" c = false.
Proof.
  apply (formatPhoneNumber_shape "(020) 2742-5511"); [discriminate|reflexivity].
Defined.

Lemma formatPhoneNumber_ten_digits_witness :
  formatPhoneNumber "09876543210" = "whatsapp:+919876543210" /\
  formatPhoneNumber "9198765432" = "whatsapp:+9198765432".
Proof.
  split.
  - exact (formatPhoneNumber_ten_digits "9876543210" 1 eq_refl eq_refl eq_refl).
  - exact (formatPhoneNumber_ten_digits "9198765432" 0 eq_refl eq_refl eq_refl).
Defined.

(** ** Notifying the officers of a division *)

Section NotifyFacts.

Variable env : Env.

Lemma add_events_nil (w : World) : add_events [] w = w.
Proof. unfold add_events. rewrite app_nil_r. destruct w; reflexivity. Qed.

Lemma add_events_app (a b : list Event) (w : World) :
  add_events b (add_events a w) = add_events (a ++ b) w.
Proof. unfold add_events. cbn. rewrite app_assoc. reflexivity. Qed.

(** What one attempt on a number does. *)
Lemma messages_create_events (to body : string) (w : World) :
  messages_create env to body w
  = (if deliver env to body then Ok (message_sid env to body)
     else Throw "message not accepted",
     add_events [EvMessage to body (deliver env to body)] w).
Proof.
  unfold messages_create. destruct (deliver env to body); reflexivity.
Qed.

(** The loop body for one officer. *)
Lemma notify_officer_run (msg : string) (o : Officer) (acc : list NotifiedContact)
    (w : World) :
  notify_officer env msg o acc w
  = (Ok (acc ++ contact_recorded env msg o),
     add_events (attempts env msg (numbers_tried env msg o)) w).
Proof.
  assert (Halt : forall w0,
             notify_alternate env msg o acc w0
             = (Ok (acc ++ match List.filter (fun to => deliver env to msg)
                                   (alternate_number o) with
                           | to :: _ => [contact_of env o to (message_sid env to msg)]
                           | [] => []
                           end),
                add_events (attempts env msg (alternate_number o)) w0)).
  { intros w0. unfold notify_alternate, alternate_number, attempts.
    destruct (negb (String.eqb (alternate_phone o) "") &&
              negb (String.eqb (alternate_phone o) (phone o)))%bool.
    - unfold try_catch, bind. rewrite messages_create_events.
      cbn [map List.filter].
      destruct (deliver env (formatPhoneNumber (alternate_phone o)) msg).
      + reflexivity.
      + rewrite app_nil_r. reflexivity.
    - cbn [map List.filter]. rewrite app_nil_r, add_events_nil. reflexivity. }
  unfold notify_officer, contact_recorded, numbers_tried.
  destruct (negb (String.eqb (phone o) "")).
  - unfold try_catch at 1. unfold bind at 1. unfold bind at 1.
    rewrite messages_create_events.
    destruct (deliver env (formatPhoneNumber (phone o)) msg) eqn:D.
    + unfold attempts. cbn [map List.filter]. rewrite D. reflexivity.
    + cbn [fst snd]. unfold ret at 1. cbn beta iota. rewrite Halt.
      unfold attempts. cbn [map List.filter]. rewrite D, add_events_app. reflexivity.
  - apply Halt.
Qed.

Lemma notify_officers_run (msg : string) (os : list Officer)
    (acc : list NotifiedContact) (w : World) :
  notify_officers env msg os acc w
  = (Ok (acc ++ flat_map (contact_recorded env msg) os),
     add_events (flat_map (fun o => attempts env msg (numbers_tried env msg o)) os) w).
Proof.
  revert acc w. induction os as [|o os IH]; intros acc w; cbn [notify_officers flat_map].
  - rewrite app_nil_r, add_events_nil. reflexivity.
  - unfold bind. rewrite notify_officer_run, IH, add_events_app, <- app_assoc.
    reflexivity.
Qed.

Lemma notifyDivisionOfficers_run (query : Query) (div : option Division) (w : World) :
  notifyDivisionOfficers env query div w
  = (Ok (flat_map (contact_recorded env (notification_text env query div))
           (officers_addressed div)),
     add_events
       (flat_map (fun o => attempts env (notification_text env query div)
                             (numbers_tried env (notification_text env query div) o))
          (officers_addressed div)) w).
Proof.
  unfold notifyDivisionOfficers, officers_addressed, notification_text.
  destruct div as [d|]; [|cbn [flat_map]; rewrite add_events_nil; reflexivity].
  assert (Hnil : officersToNotify d = [] ->
            (Ok (@nil NotifiedContact), w)
            = (Ok (flat_map (contact_recorded env (officer_message env query d))
                     (officersToNotify d)),
               add_events
                 (flat_map (fun o => attempts env (officer_message env query d)
                                       (numbers_tried env (officer_message env query d) o))
                    (officersToNotify d)) w)).
  { intros ->. cbn [flat_map]. rewrite add_events_nil. reflexivity. }
  destruct (length (officers d) =? 0)%nat eqn:E0.
  { apply Hnil. apply Nat.eqb_eq in E0. unfold officersToNotify.
    destruct (officers d); [reflexivity|discriminate E0]. }
  destruct (length (officersToNotify d) =? 0)%nat eqn:E1.
  { apply Hnil. apply Nat.eqb_eq in E1.
    destruct (officersToNotify d); [reflexivity|discriminate E1]. }
  exact (notify_officers_run _ _ [] w).
Qed.

(** X18. [notifyDivisionOfficers] never fails and changes no store: it
    only attempts messages.  It addresses the first two active officers
    of the division, in the order of the record.  For each of them it
    tries the formatted primary number when one is set, and then, only
    when no primary number is set or the transport refused the message
    for it, the formatted alternate number if it is set and differs from
    the primary one: at most two attempts per officer, none after an
    accepted one.  It returns, in the same order, one contact per officer
    reached, for the number that accepted the message.  Without a
    division or an active officer it sends nothing and returns no
    contact. *)
Theorem notifyDivisionOfficers_bounded (query : Query) (div : option Division) (w : World) :
  let os := officers_addressed div in
  let msg := notification_text env query div in
  notifyDivisionOfficers env query div w
  = (Ok (flat_map (contact_recorded env msg) os),
     add_events (flat_map (fun o => attempts env msg (numbers_tried env msg o)) os) w) /\
  (length os <= 2)%nat /\
  os = take 2 (List.filter isActive (match div with Some d => officers d | None => [] end)) /\
  forall o,
    (length (numbers_tried env msg o) <= 2)%nat /\
    (length (contact_recorded env msg o) <= 1)%nat /\
    (contact_recorded env msg o = [] <->
     forallb (fun to => negb (deliver env to msg)) (numbers_tried env msg o) = true).
Proof.
  cbn zeta. split; [apply notifyDivisionOfficers_run|].
  split.
  { destruct div as [d|]; cbn [officers_addressed length]; [|lia].
    unfold officersToNotify. rewrite length_take. lia. }
  split.
  { destruct div as [d|]; reflexivity. }
  intros o. set (msg := notification_text env query div).
  unfold contact_recorded, numbers_tried, alternate_number.
  destruct (negb (String.eqb (phone o) ""));
    [destruct (deliver env (formatPhoneNumber (phone o)) msg) eqn:D|];
    destruct (negb (String.eqb (alternate_phone o) "") &&
              negb (String.eqb (alternate_phone o) (phone o)))%bool;
    cbn [List.filter length forallb]; rewrite ?D;
    try destruct (deliver env (formatPhoneNumber (alternate_phone o)) msg);
    cbn [length negb andb]; repeat split; try lia; try reflexivity;
    try discriminate; try (intros H; discriminate H).
Qed.

Lemma notify_officers_primary (msg : string) (os : list Officer)
    (acc : list NotifiedContact) (w : World) :
  (forall o, In o os ->
     phone o <> "" /\ deliver env (formatPhoneNumber (phone o)) msg = true) ->
  notify_officers env msg os acc w
  = (Ok (acc ++ map (fun o => contact_of env o (formatPhoneNumber (phone o))
                                (message_sid env (formatPhoneNumber (phone o)) msg)) os),
     add_events (map (fun o => EvMessage (formatPhoneNumber (phone o)) msg true) os) w).
Proof.
  revert acc w. induction os as [|o os IH]; intros acc w H; cbn [notify_officers map].
  - rewrite app_nil_r, add_events_nil. reflexivity.
  - destruct (H o (or_introl eq_refl)) as [Hp Hd].
    assert (Ho : notify_officer env msg o acc w
                 = (Ok (acc ++ [contact_of env o (formatPhoneNumber (phone o))
                                  (message_sid env (formatPhoneNumber (phone o)) msg)]),
                    add_events [EvMessage (formatPhoneNumber (phone o)) msg true] w)).
    { unfold notify_officer.
      destruct (String.eqb_spec (phone o) "") as [E|_]; [contradiction|]. cbn [negb].
      unfold try_catch. unfold bind at 1. unfold bind at 1.
      rewrite messages_create_events, Hd. reflexivity. }
    unfold bind. rewrite Ho.
    rewrite (IH _ _ (fun o' Ho' => H o' (or_intror Ho'))).
    rewrite add_events_app, <- app_assoc. reflexivity.
Qed.

(** X19. When the primary number of every officer to notify accepts the
    message, exactly one message goes to each of them, on the primary
    number, in the order of the division record; the alternate numbers
    are not tried, and one contact per officer is returned. *)
Theorem notifyDivisionOfficers_primary_first (query : Query) (d : Division) (w : World) :
  officersToNotify d <> [] ->
  (forall o, In o (officersToNotify d) ->
     phone o <> "" /\
     deliver env (formatPhoneNumber (phone o)) (officer_message env query d) = true) ->
  let msg := officer_message env query d in
  notifyDivisionOfficers env query (Some d) w
  = (Ok (map (fun o => contact_of env o (formatPhoneNumber (phone o))
                         (message_sid env (formatPhoneNumber (phone o)) msg))
           (officersToNotify d)),
     add_events (map (fun o => EvMessage (formatPhoneNumber (phone o)) msg true)
                   (officersToNotify d)) w).
Proof.
  intros Hne H. cbn zeta. unfold notifyDivisionOfficers.
  destruct (length (officers d) =? 0)%nat eqn:E0.
  { exfalso. apply Hne. apply Nat.eqb_eq in E0. unfold officersToNotify.
    destruct (officers d); [reflexivity|discriminate E0]. }
  destruct (length (officersToNotify d) =? 0)%nat eqn:E1.
  { exfalso. apply Hne. apply Nat.eqb_eq in E1.
    destruct (officersToNotify d); [reflexivity|discriminate E1]. }
  exact (notify_officers_primary _ _ [] w H).
Qed.

(** X20. The two routes address the same officer differently.  For an
    officer whose primary number is a ten-digit national number (no
    leading zero, not starting with 91), the chat handler sends the
    notification to "whatsapp:+" followed by the ten digits, without
    country code, while [notifyDivisionOfficers] of the report endpoint
    sends it to "whatsapp:+91" followed by the ten digits. *)
Theorem officer_address_by_route (o : Officer) (msg : string) (w : World) :
  string_forall is_digit (phone o) = true ->
  String.length (phone o) = 10%nat ->
  startsWith "0" (phone o) = false ->
  startsWith "91" (phone o) = false ->
  (exists r rest,
     notify_from_chat env msg [o] [] w
     = (r, add_events (EvMessage ("whatsapp:+" +:+ phone o) msg
                         (deliver env ("whatsapp:+" +:+ phone o) msg) :: rest) w)) /\
  (exists r rest,
     notify_officers env msg [o] [] w
     = (r, add_events (EvMessage ("whatsapp:+91" +:+ phone o) msg
                         (deliver env ("whatsapp:+91" +:+ phone o) msg) :: rest) w)).
Proof.
  intros Hd Hlen Hz H91.
  assert (Hne : String.eqb (phone o) "" = false).
  { destruct (phone o); [discriminate Hlen|reflexivity]. }
  assert (Hn : normalizeUserId (phone o) true = "whatsapp:+" +:+ phone o).
  { unfold normalizeUserId. rewrite Hne.
    rewrite replace_whatsapp_plain.
    - destruct (phone o) as [|c r]; [discriminate Hne|].
      cbn [string_forall] in Hd. apply andb_true_iff in Hd as [Hc _].
      pose proof (dropWhile_pluses 0 c r Hc) as E.
      cbn [repeat_char] in E. rewrite append_nil in E. rewrite E. reflexivity.
    - apply (string_forall_impl is_digit); [|exact Hd].
      intros a Ha. rewrite Ha. apply orb_true_r. }
  assert (Hf : formatPhoneNumber (phone o) = "whatsapp:+91" +:+ phone o).
  { unfold formatPhoneNumber.
    pose proof (dropWhile_zeros 0 (phone o) Hz) as E.
    cbn [repeat_char] in E. rewrite append_nil in E.
    rewrite (filter_string_id _ _ Hd), E, Hlen, H91.
    destruct (phone o) as [|c r]; [discriminate Hlen|].
    cbn [string_forall] in Hd. apply andb_true_iff in Hd as [Hc _].
    assert (Hp : startsWith "whatsapp:" (String c r) = false).
    { unfold startsWith. cbn [String.prefix].
      destruct (Ascii.ascii_dec "w" c) as [<-|_]; [discriminate Hc|reflexivity]. }
    rewrite Hp. reflexivity. }
  split.
  - cbn [notify_from_chat]. unfold sendWhatsAppMessage. rewrite Hne.
    unfold try_catch, bind.
    rewrite messages_create_events, Hn.
    destruct (deliver env ("whatsapp:+" +:+ phone o) msg);
      eexists; exists []; reflexivity.
  - cbn [notify_officers]. unfold notify_officer. rewrite Hne. cbn [negb].
    unfold try_catch at 1. unfold bind at 1 2 3.
    rewrite messages_create_events, Hf.
    destruct (deliver env ("whatsapp:+91" +:+ phone o) msg).
    + eexists; exists []; reflexivity.
    + cbn [fst snd]. unfold notify_alternate.
      destruct (negb (String.eqb (alternate_phone o) "") &&
                negb (String.eqb (alternate_phone o) (phone o)))%bool.
      * unfold try_catch, bind, ret. cbn beta iota. rewrite messages_create_events.
        destruct (deliver env (formatPhoneNumber (alternate_phone o)) msg);
          eexists; eexists; rewrite add_events_app; reflexivity.
      * eexists; exists []; reflexivity.
Qed.

End NotifyFacts.

Lemma notifyDivisionOfficers_primary_first_witness :
  map nc_phone
    (match fst (notifyDivisionOfficers Sample.env0 Sample.dummy_query (Some Sample.D2)
                  Sample.empty_world) with
     | Ok cs => cs
     | Throw _ => []
     end) = ["whatsapp:+919876543210"].
Proof.
  rewrite (notifyDivisionOfficers_primary_first Sample.env0 Sample.dummy_query Sample.D2
             Sample.empty_world).
  - vm_compute. reflexivity.
  - vm_compute. discriminate.
  - intros o [<-|[]]. split; [vm_compute; discriminate|reflexivity].
Defined.

Lemma officer_address_by_route_witness :
  (exists r rest,
     notify_from_chat Sample.env0 "report" [Sample.officer_a] [] Sample.empty_world
     = (r, add_events (EvMessage "whatsapp:+9876543210" "report" true :: rest)
             Sample.empty_world)) /\
  (exists r rest,
     notify_officers Sample.env0 "report" [Sample.officer_a] [] Sample.empty_world
     = (r, add_events (EvMessage "whatsapp:+919876543210" "report" true :: rest)
             Sample.empty_world)).
Proof.
  exact (officer_address_by_route Sample.env0 Sample.officer_a "report" Sample.empty_world
           eq_refl eq_refl eq_refl eq_refl).
Defined.

(** ** Capture links: the redirect and the consumption by a report *)

Section LinkMore.

Variable env : Env.

(** The user id the redirect builds for a link is cleaned back to the
    user id of the link. *)
Lemma cleanUserId_for_link_rebuilt (u : string) :
  cleanUserId_for_link ("whatsapp:+" +:+ u) = u.
Proof.
  unfold cleanUserId_for_link.
  change ("whatsapp:+" +:+ u) with ("whatsapp:" +:+ String "+" u).
  rewrite replace_whatsapp_prefix. reflexivity.
Qed.

Lemma find_link_first (lid : string) (w : World) (l : ReportLink) :
  find_link_by_id lid w = Some l ->
  find_link lid (link_userId l) w = Some l.
Proof.
  unfold find_link_by_id, find_link.
  induction (links w) as [|a ls IH]; cbn [List.find]; [discriminate|].
  unfold link_matches at 1.
  destruct (String.eqb (linkId a) lid) eqn:E; cbn [andb].
  - intros H. injection H as ->. rewrite String.eqb_refl. reflexivity.
  - exact IH.
Qed.

(** X21. The redirect of a short link and the validity check agree: for
    a link that exists, the redirect is granted (302) exactly when the
    check, asked with the user id the redirect puts in the target URL,
    answers Valid at the same instant.  The redirect changes nothing. *)
Theorem redirect_agrees_with_validate (lid : string) (w : World) (l : ReportLink) :
  lid <> "" ->
  find_link_by_id lid w = Some l ->
  snd (redirect env lid w) = w /\
  ((exists url, fst (redirect env lid w) = Ok (Redirected 302 url)) <->
   validate env lid ("whatsapp:+" +:+ link_userId l) w = Some Valid).
Proof.
  intros Hne Hf.
  assert (Hl : truthy_str (Some lid) = true).
  { cbn. destruct (String.eqb_spec lid ""); [contradiction|reflexivity]. }
  rewrite (validate_spec env lid ("whatsapp:+" +:+ link_userId l) w Hl eq_refl),
    cleanUserId_for_link_rebuilt.
  rewrite (find_link_first lid w l Hf).
  unfold redirect, try_catch, bind, get. rewrite Hf, diffMinutes_gt_5.
  destruct (300000 <? Z.abs (now env - createdAt l))%Z, (used l);
    unfold ret; cbn [fst snd];
    (split; [reflexivity|]); split;
    try (intros [url H]; discriminate H); try discriminate.
  - intros _. reflexivity.
  - intros _. eexists. reflexivity.
Qed.

(** X22. The two guards check in different orders: for a link that is
    both used and older than five minutes the redirect answers 410
    (expired) while the validity check answers AlreadyUsed. *)
Theorem redirect_checks_age_first (lid : string) (w : World) (l : ReportLink) :
  lid <> "" ->
  find_link_by_id lid w = Some l ->
  used l = true ->
  (300000 < Z.abs (now env - createdAt l))%Z ->
  fst (redirect env lid w) = Ok (Sent 410 "Report link has expired.") /\
  validate env lid ("whatsapp:+" +:+ link_userId l) w = Some AlreadyUsed.
Proof.
  intros Hne Hf Hu Hage.
  assert (Hl : truthy_str (Some lid) = true).
  { cbn. destruct (String.eqb_spec lid ""); [contradiction|reflexivity]. }
  rewrite (validate_spec env lid ("whatsapp:+" +:+ link_userId l) w Hl eq_refl),
    cleanUserId_for_link_rebuilt.
  rewrite (find_link_first lid w l Hf), Hu.
  unfold redirect, try_catch, bind, get. rewrite Hf, diffMinutes_gt_5.
  destruct (Z.ltb_spec 300000 (Z.abs (now env - createdAt l))); [|lia].
  split; reflexivity.
Qed.

End LinkMore.

Lemma redirect_agrees_with_validate_witness :
  (exists url, fst (redirect Sample.env0 "L1" (Sample.world_with MENU))
               = Ok (Redirected 302 url)) /\
  validate Sample.env0 "L1" "whatsapp:+919876543210" (Sample.world_with MENU) = Some Valid.
Proof.
  destruct (redirect_agrees_with_validate Sample.env0 "L1" (Sample.world_with MENU)
              Sample.link1) as [_ [H1 H2]].
  - discriminate.
  - reflexivity.
  - assert (Hv : validate Sample.env0 "L1" "whatsapp:+919876543210" (Sample.world_with MENU)
                 = Some Valid) by (vm_compute; reflexivity).
    split; [exact (H2 Hv)|exact Hv].
Defined.

Lemma redirect_checks_age_first_witness :
  fst (redirect (Sample.mk_env [] 9000000 Sample.always) "L1" Sample.world_used)
  = Ok (Sent 410 "Report link has expired.") /\
  validate (Sample.mk_env [] 9000000 Sample.always) "L1" "whatsapp:+919876543210"
    Sample.world_used = Some AlreadyUsed.
Proof.
  apply (redirect_checks_age_first (Sample.mk_env [] 9000000 Sample.always) "L1"
           Sample.world_used
           (mkLink "L1" "919876543210" "1" 701000 true (Some 800000%Z))).
  - discriminate.
  - reflexivity.
  - reflexivity.
  - vm_compute. reflexivity.
Defined.

Lemma used_link_stays_used_witness :
  validate (Sample.mk_env [] 9900000 Sample.always) "L1" "whatsapp:+919876543210"
    (serve_all Sample.later_requests Sample.world_used) = Some AlreadyUsed.
Proof.
  apply (used_link_stays_used Sample.env0 (Sample.mk_env [] 9900000 Sample.always)
           Sample.later_requests "L1" "whatsapp:+919876543210" Sample.world_used).
  vm_compute. reflexivity.
Defined.

(** ** The report endpoint: what a submission stores and consumes *)

Section ReportMore.

Variable env : Env.

Lemma extends_refl (w : World) : extends w w.
Proof.
  split; [exists []; rewrite app_nil_r; reflexivity|]. intros x H. exact H.
Qed.

Lemma extends_trans (a b c : World) : extends a b -> extends b c -> extends a c.
Proof.
  intros [[e1 H1] I1] [[e2 H2] I2]. split.
  - exists (e1 ++ e2). rewrite H2, H1, app_assoc. reflexivity.
  - intros x H. exact (I2 x (I1 x H)).
Qed.

Lemma upsert_query_ids (q : Query) (l : list Query) :
  incl (map query_id l) (map query_id (upsert_query q l)) /\
  In (query_id q) (map query_id (upsert_query q l)).
Proof.
  induction l as [|a l [IH1 IH2]]; cbn [upsert_query map].
  - split; [intros x []|left; reflexivity].
  - destruct (Nat.eqb_spec (query_id a) (query_id q)) as [E|_]; cbn [map].
    + split; [|left; reflexivity].
      intros x [<-|H]; [left; symmetry; exact E|right; exact H].
    + split.
      * intros x [<-|H]; [left; reflexivity|right; exact (IH1 x H)].
      * right. exact IH2.
Qed.

Local Ltac ext_side :=
  first
    [ exact extends_refl
    | exact extends_trans
    | intros; unfold keeps; intros ?; split; cbn;
      [ first [ exists []; rewrite app_nil_r; reflexivity
              | eexists; reflexivity ]
      | first [ intros ? Hx; exact Hx
              | apply upsert_query_ids
              | rewrite map_map;
                erewrite map_ext; [intros ? Hx; exact Hx|];
                intros a; cbn; destruct (_ =? _)%nat; reflexivity ] ] ].

Lemma ext_sendWhatsAppMessage (to body : string) :
  keeps extends (sendWhatsAppMessage env to body).
Proof. apply (every_sendWhatsAppMessage env extends); ext_side. Qed.

Lemma ext_findDivisionForLocation (latitude longitude : jsval) :
  keeps extends (findDivisionForLocation env latitude longitude).
Proof. apply (every_findDivisionForLocation env extends); ext_side. Qed.

Lemma ext_notifyDivisionOfficers (q : Query) (d : option Division) :
  keeps extends (notifyDivisionOfficers env q d).
Proof. apply (every_notifyDivisionOfficers env extends); ext_side. Qed.

Lemma ext_update_notified (id : nat) (cs : list NotifiedContact) :
  keeps extends (update_notified id cs).
Proof. apply (every_update_notified extends); ext_side. Qed.

Lemma try_catch_bind_ok {A B} (m : M A) (k : A -> M B) (h : string -> M B)
    (w w1 : World) (a : A) :
  m w = (Ok a, w1) -> try_catch (bind m k) h w = try_catch (k a) h w1.
Proof. intros H. unfold try_catch, bind. rewrite H. reflexivity. Qed.

Lemma report_failed_ok (userId error : string) (w : World) :
  exists pr w', report_failed env userId error w = (Ok pr, w') /\ extends w w'.
Proof.
  unfold report_failed. unfold bind at 1.
  pose proof (ext_sendWhatsAppMessage (normalizeUserId userId true)
                (getText env "REPORT_ERROR" "en" []) w) as Hs.
  unfold try_catch, bind.
  destruct (sendWhatsAppMessage env _ _ w) as [[sid|e] w1]; cbn [snd] in Hs;
    eexists; exists w1; (split; [reflexivity|exact Hs]).
Qed.

(** Once the report is saved, whatever follows inside the guarded block
    ends well: a failure is caught by a handler that does not fail. *)
Lemma saved_then_tail {A} (q : Query) (tail : M A) (h : string -> M A) (w : World) :
  keeps extends tail ->
  (forall e w0, exists a w', h e w0 = (Ok a, w') /\ extends w0 w') ->
  exists a w' post,
    try_catch (save_query q ;;; tail) h w = (Ok a, w') /\
    trace w' = trace w ++ EvQuerySaved q :: post /\
    In (query_id q) (map query_id (queries w')).
Proof.
  intros Ht Hh.
  set (ws := log (EvQuerySaved q) (set_queries (upsert_query q) w)).
  assert (Hrun : try_catch (save_query q ;;; tail) h w = try_catch tail h ws).
  { reflexivity. }
  rewrite Hrun. unfold try_catch. specialize (Ht ws).
  assert (Hin : In (query_id q) (map query_id (queries ws))).
  { cbn. apply upsert_query_ids. }
  destruct (tail ws) as [[a|e] w1]; cbn [snd] in Ht.
  - destruct Ht as [[evs He] Hi]. exists a, w1, evs.
    split; [reflexivity|]. split; [|exact (Hi _ Hin)].
    rewrite He. cbn. rewrite <- app_assoc. reflexivity.
  - destruct (Hh e w1) as (a & w2 & Hr & He2).
    destruct (extends_trans _ _ _ Ht He2) as [[evs He] Hi].
    exists a, w2, evs. split; [exact Hr|]. split; [|exact (Hi _ Hin)].
    rewrite He. cbn. rewrite <- app_assoc. reflexivity.
Qed.

Lemma ext_report_tail (cleanUserId text : string) (query : Query) (d : Division)
    (id : nat) (pr : ProcessingResult) :
  keeps extends
    (sendWhatsAppMessage env cleanUserId text ;;;
     notifiedContacts <- notifyDivisionOfficers env query (Some d) ;;
     (if (0 <? length notifiedContacts)%nat
      then update_notified id notifiedContacts
      else ret tt) ;;;
     ret pr).
Proof.
  apply (keeps_bind extends extends_trans); [apply ext_sendWhatsAppMessage|intros _].
  apply (keeps_bind extends extends_trans); [apply ext_notifyDivisionOfficers|intros cs].
  apply (keeps_bind extends extends_trans).
  - destruct (0 <? length cs)%nat;
      [apply ext_update_notified|apply (keeps_ret extends extends_refl)].
  - intros _. apply (keeps_ret extends extends_refl).
Qed.

Lemma lookup_userName_run (u : string) (w : World) :
  exists name, lookup_userName u w = (Ok name, w).
Proof.
  unfold lookup_userName, bind, get.
  destruct (find_session_like _ w); eexists; reflexivity.
Qed.

Lemma processReportInBackground_run (file : string) (latitude longitude : jsval)
    (description : option string) (userId reportType : string) (address : option string)
    (d : Division) (w w1 : World) :
  findDivisionForLocation env latitude longitude w = (Ok (Some d), w1) ->
  extends w w1 ->
  processed d w
    (processReportInBackground env file latitude longitude description userId reportType
       address w).
Proof.
  intros Hd [[e0 He0] _]. unfold processReportInBackground.
  rewrite (try_catch_bind_ok _ _ _ _ _ _ Hd).
  assert (Hup : exists u e,
            try_catch
              (match uploadImageToR2 env file with
               | Some url => emit (EvUpload file true) ;;; ret (Some url)
               | None => emit (EvUpload file false) ;;; throw "upload failed"
               end) (fun _ => ret None) w1 = (Ok u, log e w1)).
  { destruct (uploadImageToR2 env file); eexists; eexists; reflexivity. }
  destruct Hup as (u & e & Hup).
  rewrite (try_catch_bind_ok _ _ _ _ _ _ Hup).
  destruct (lookup_userName_run (normalizeUserId userId true) (log e w1)) as (name & Hn).
  rewrite (try_catch_bind_ok _ _ _ _ _ _ Hn).
  rewrite (try_catch_bind_ok fresh_id _ _ (log e w1) (bump_id (log e w1))
             (next_id (log e w1)) eq_refl).
  match goal with
  | |- processed _ _ (try_catch (save_query ?q ;;; ?tail) ?h ?ws) =>
      destruct (saved_then_tail q tail h ws) as (pr & w' & post & Hr & Ht & Hin)
  end.
  - apply ext_report_tail.
  - intros err w0. apply report_failed_ok.
  - exists pr, w', (e0 ++ [e]). eexists. exists post.
    split; [exact Hr|]. split.
    + rewrite Ht. cbn. rewrite He0, <- !app_assoc. reflexivity.
    + repeat split; [discriminate|exact Hin].
Qed.

Lemma processReportWithoutImage_run (latitude longitude : jsval)
    (description : option string) (userId reportType : string) (address : option string)
    (d : Division) (w w1 : World) :
  findDivisionForLocation env latitude longitude w = (Ok (Some d), w1) ->
  extends w w1 ->
  processed d w
    (processReportWithoutImage env latitude longitude description userId reportType
       address w).
Proof.
  intros Hd [[e0 He0] _]. unfold processReportWithoutImage.
  assert (Ht : (truthy latitude && truthy longitude)%bool = true).
  { apply (findDivisionForLocation_some env latitude longitude w d).
    rewrite Hd. reflexivity. }
  rewrite Ht.
  assert (H1 : (division <- findDivisionForLocation env latitude longitude ;;
                match division with
                | Some d0 =>
                    ret (inl (Some d0, division_name d0)
                         : (option Division * string) + ProcessingResult)
                | None =>
                    sendWhatsAppMessage env (normalizeUserId userId true)
                      (getText env "LOCATION_OUTSIDE_JURISDICTION" "en" []) ;;;
                    ret (inr outside_result)
                end) w = (Ok (inl (Some d, division_name d)), w1)).
  { unfold bind. rewrite Hd. reflexivity. }
  rewrite (try_catch_bind_ok _ _ _ _ _ _ H1).
  destruct (lookup_userName_run (normalizeUserId userId true) w1) as (name & Hn).
  rewrite (try_catch_bind_ok _ _ _ _ _ _ Hn).
  rewrite (try_catch_bind_ok fresh_id _ _ w1 (bump_id w1) (next_id w1) eq_refl).
  match goal with
  | |- processed _ _ (try_catch (save_query ?q ;;; ?tail) ?h ?ws) =>
      destruct (saved_then_tail q tail h ws) as (pr & w' & post & Hr & Htr & Hin)
  end.
  - apply (keeps_bind extends extends_trans); [apply ext_sendWhatsAppMessage|intros _].
    apply (keeps_bind extends extends_trans);
      [|intros _; apply (keeps_ret extends extends_refl)].
    apply (keeps_bind extends extends_trans); [apply ext_notifyDivisionOfficers|intros cs].
    destruct (0 <? length cs)%nat;
      [apply ext_update_notified|apply (keeps_ret extends extends_refl)].
  - intros err w0. apply report_failed_ok.
  - exists pr, w', e0. eexists. exists post.
    split; [exact Hr|]. split.
    + rewrite Htr. cbn. rewrite He0, <- !app_assoc. reflexivity.
    + repeat split; [discriminate|exact Hin].
Qed.

Lemma find_exists {A} (f : A -> bool) (l : list A) (x : A) :
  In x l -> f x = true -> exists y, List.find f l = Some y /\ f y = true.
Proof.
  induction l as [|a l IH]; intros Hin Hx; [contradiction|].
  cbn [List.find]. destruct (f a) eqn:E.
  - exists a. split; [reflexivity|exact E].
  - destruct Hin as [->|Hin]; [congruence|]. exact (IH Hin Hx).
Qed.

(** A coordinate that has resolved to a division resolves again, at
    once, to a division with the same id. *)
Lemma findDivisionForLocation_again (latitude longitude : jsval) (w w1 : World)
    (d : Division) :
  findDivisionForLocation env latitude longitude w = (Ok (Some d), w1) ->
  exists d2 w2,
    findDivisionForLocation env latitude longitude w1 = (Ok (Some d2), w2) /\
    division_id d2 = division_id d /\ extends w1 w2.
Proof.
  intros H.
  assert (Hin : In d (divisions env) /\ (truthy latitude && truthy longitude)%bool = true).
  { apply (findDivisionForLocation_some env latitude longitude w d). rewrite H. reflexivity. }
  destruct Hin as [Hin Ht]. apply andb_true_iff in Ht as [Tlat Tlng].
  destruct (parseFloat latitude) as [|lat] eqn:Plat.
  { rewrite findDivisionForLocation_refuses in H by (right; right; left; exact Plat).
    discriminate H. }
  destruct (parseFloat longitude) as [|lng] eqn:Plng.
  { rewrite findDivisionForLocation_refuses in H by (right; right; right; exact Plng).
    discriminate H. }
  pose proof (ext_findDivisionForLocation latitude longitude w1) as Hext.
  rewrite (findDivisionForLocation_accepted env latitude longitude lat lng w1
             Tlat Tlng Plat Plng) in Hext |- *.
  rewrite (findDivisionForLocation_accepted env latitude longitude lat lng w
             Tlat Tlng Plat Plng) in H.
  destruct (locationCache w !! cacheKey lat lng) as [[id name|]|] eqn:Hc.
  - injection H as Hf <-. cbn [locationCache log] in *. rewrite Hc in *.
    rewrite Hf in *. exists d. eexists. split; [reflexivity|]. split; [reflexivity|exact Hext].
  - discriminate H.
  - destruct (scan_divisions lng lat (divisions env)) as [d'|]; [|discriminate H].
    injection H as -> <-. cbn [locationCache log set_cache] in *.
    rewrite lookup_insert_eq in *.
    destruct (find_exists (fun x => String.eqb (division_id x) (division_id d))
                (divisions env) d Hin (String.eqb_refl _)) as (d2 & Hf & Hid).
    rewrite Hf in *. exists d2. eexists. split; [reflexivity|].
    split; [apply String.eqb_eq; exact Hid|exact Hext].
Qed.

(** The run of the endpoint for a coordinate that resolves. *)
Lemma api_report_inside (req : ReportReq) (d : Division) (w : World) :
  truthy_str (r_userId req) = true ->
  truthy_str (r_reportType req) = true ->
  fst (findDivisionForLocation env (r_latitude req) (r_longitude req) w) = Ok (Some d) ->
  let w' := snd (api_report env req w) in
  (exists name,
     fst (api_report env req w)
     = Ok (mkResponse 200
             (BJson [("success", JBool true);
                     ("requestId", JString (requestId env));
                     ("message", JString "Report processed successfully");
                     ("divisionName", JString name)]))) /\
  (exists pre q post,
     trace w' = trace w ++ pre ++ EvQuerySaved q :: post /\
     division q = Some (division_id d) /\ status q = "Pending" /\
     q_location q <> None /\
     In (query_id q) (map query_id (queries w'))).
Proof.
  intros Hu Ht Hres. cbn zeta. unfold api_report. rewrite Hu, Ht. cbn [negb orb].
  rewrite (try_catch_bind_ok _ _ _ _ _ _ (consume_link_run env req w)).
  set (w1 := if truthy_str (r_linkId req)
             then log (EvLinkUpdated (or_str (r_linkId req) ""))
                    (set_links (mark_used env (or_str (r_linkId req) "")
                                  (normalizeUserId (or_str (r_userId req) "") false)) w)
             else w).
  assert (Hc1 : locationCache w1 = locationCache w).
  { subst w1. destruct (truthy_str (r_linkId req)); reflexivity. }
  assert (He1 : exists e1, trace w1 = trace w ++ e1).
  { subst w1. destruct (truthy_str (r_linkId req)).
    - eexists. reflexivity.
    - exists []. rewrite app_nil_r. reflexivity. }
  destruct He1 as [e1 He1].
  rewrite <- (findDivisionForLocation_cache env _ _ w1 w Hc1) in Hres.
  destruct (findDivisionForLocation env (r_latitude req) (r_longitude req) w1)
    as [r w2] eqn:H1.
  cbn [fst] in Hres. subst r.
  rewrite (try_catch_bind_ok _ _ _ _ _ _ H1).
  pose proof (ext_findDivisionForLocation (r_latitude req) (r_longitude req) w1) as He2.
  rewrite H1 in He2. cbn [snd] in He2. destruct He2 as [[e2 He2] _].
  destruct (findDivisionForLocation_again _ _ _ _ _ H1) as (d2 & w3 & H2 & Hid & He3).
  assert (HP : processed d2 w2
                 (match r_file req with
                  | Some file =>
                      processReportInBackground env file (r_latitude req) (r_longitude req)
                        (r_description req) (or_str (r_userId req) "")
                        (or_str (r_reportType req) "") (r_address req)
                  | None =>
                      processReportWithoutImage env (r_latitude req) (r_longitude req)
                        (r_description req) (or_str (r_userId req) "")
                        (or_str (r_reportType req) "") (r_address req)
                  end w2)).
  { destruct (r_file req) as [file|].
    - exact (processReportInBackground_run _ _ _ _ _ _ _ d2 w2 w3 H2 He3).
    - exact (processReportWithoutImage_run _ _ _ _ _ _ d2 w2 w3 H2 He3). }
  destruct HP as (pr & w' & pre & q & post & HP & Htr & Hdiv & Hst & Hloc & Hin).
  rewrite (try_catch_bind_ok _ _ _ _ _ _ HP).
  unfold try_catch, ret. cbn [fst snd].
  split; [eexists; reflexivity|].
  exists (e1 ++ e2 ++ pre), q, post.
  split; [rewrite Htr, He2, He1, <- !app_assoc; reflexivity|].
  rewrite Hdiv, Hid. repeat split; assumption.
Qed.

(** X23. A report with its required fields whose coordinate resolves to
    a division, and whose report type is not the name of an inherited
    member of the table of categories (to "__proto__" the table answers
    with an object, which the schema refuses as a type), is always stored
    and acknowledged: the endpoint answers 200 with success, whatever the
    chat transport and the upload do, and among the events of the request
    a report is saved with the id of that division, status Pending and
    its location; the report is in the store afterwards. *)
Theorem report_inside_is_stored (req : ReportReq) (d : Division) (w : World) :
  truthy_str (r_userId req) = true ->
  truthy_str (r_reportType req) = true ->
  inherited_member (or_str (r_reportType req) "") = false ->
  fst (findDivisionForLocation env (r_latitude req) (r_longitude req) w) = Ok (Some d) ->
  let w' := snd (api_report env req w) in
  (exists name,
     fst (api_report env req w)
     = Ok (mkResponse 200
             (BJson [("success", JBool true);
                     ("requestId", JString (requestId env));
                     ("message", JString "Report processed successfully");
                     ("divisionName", JString name)]))) /\
  (exists pre q post,
     trace w' = trace w ++ pre ++ EvQuerySaved q :: post /\
     division q = Some (division_id d) /\ status q = "Pending" /\
     q_location q <> None /\
     In (query_id q) (map query_id (queries w'))).
Proof.
  intros Hu Ht _. exact (api_report_inside req d w Hu Ht).
Qed.

Local Ltac sl_side :=
  first [ intros a b c H1 H2; unfold same_links in *; congruence
        | intros; unfold keeps, same_links; intros; reflexivity ].

Lemma sl_sendWhatsAppMessage (to body : string) :
  keeps same_links (sendWhatsAppMessage env to body).
Proof. apply (every_sendWhatsAppMessage env same_links); sl_side. Qed.

Lemma same_links_trans (a b c : World) : same_links a b -> same_links b c -> same_links a c.
Proof. unfold same_links. congruence. Qed.

(** After the consumption of the link, the endpoint leaves the links
    alone. *)
Lemma sl_report_rest (req : ReportReq) (h : string -> M Response) :
  (forall e, keeps same_links (h e)) ->
  keeps same_links
    (try_catch
       (matchingDivision <- findDivisionForLocation env (r_latitude req) (r_longitude req) ;;
        match matchingDivision with
        | None =>
            sendWhatsAppMessage env (normalizeUserId (or_str (r_userId req) "") true)
              (getText env "LOCATION_OUTSIDE_JURISDICTION" "en" []) ;;;
            ret outside_response
        | Some _ =>
            processingResult <-
              match r_file req with
              | Some file =>
                  processReportInBackground env file (r_latitude req) (r_longitude req)
                    (r_description req) (or_str (r_userId req) "")
                    (or_str (r_reportType req) "") (r_address req)
              | None =>
                  processReportWithoutImage env (r_latitude req) (r_longitude req)
                    (r_description req) (or_str (r_userId req) "")
                    (or_str (r_reportType req) "") (r_address req)
              end ;;
            ret (mkResponse 200
                   (BJson [("success", JBool true);
                           ("requestId", JString (requestId env));
                           ("message", JString "Report processed successfully");
                           ("divisionName",
                             JString (or_str (pr_division processingResult) "Unknown"))]))
        end) h).
Proof.
  intros Hh.
  apply (keeps_try_catch same_links same_links_trans); [|exact Hh].
  apply (keeps_bind same_links same_links_trans).
  { apply (every_findDivisionForLocation env same_links); sl_side. }
  intros [d|].
  - apply (keeps_bind same_links same_links_trans).
    + destruct (r_file req) as [file|].
      * apply (every_processReportInBackground env same_links); sl_side.
      * apply (every_processReportWithoutImage env same_links); sl_side.
    + intros pr w0. reflexivity.
  - apply (keeps_bind same_links same_links_trans); [apply sl_sendWhatsAppMessage|].
    intros _ w0. reflexivity.
Qed.

Lemma api_report_links (req : ReportReq) (w : World) :
  truthy_str (r_userId req) = true ->
  truthy_str (r_reportType req) = true ->
  links (snd (api_report env req w)) = links_after env (WebReport req) w.
Proof.
  intros Hu Ht. unfold api_report. rewrite Hu, Ht. cbn [negb orb].
  rewrite (try_catch_bind_ok _ _ _ _ _ _ (consume_link_run env req w)).
  match goal with
  | |- links (snd (try_catch ?m ?h ?w1)) = _ =>
      pose proof (sl_report_rest req h) as H
  end.
  unfold keeps, same_links in H. rewrite H.
  - cbn [links_after]. destruct (truthy_str (r_linkId req)); reflexivity.
  - intros e.
    apply (keeps_bind same_links same_links_trans).
    + apply (keeps_try_catch same_links same_links_trans).
      * apply (keeps_bind same_links same_links_trans); [apply sl_sendWhatsAppMessage|].
        intros _ w0. reflexivity.
      * intros _ w0. reflexivity.
    + intros _ w0. reflexivity.
Qed.

Lemma find_mark_used (lid c : string) (ls : list ReportLink) :
  List.find (link_matches lid c) (mark_used env lid c ls)
  = option_map (fun x => mkLink (linkId x) (link_userId x) (reportType x) (createdAt x)
                           true (Some (now env)))
      (List.find (link_matches lid c) ls).
Proof.
  induction ls as [|x t IH]; [reflexivity|].
  cbn [mark_used List.find]. destruct (link_matches lid c x) eqn:E.
  - cbn [List.find]. unfold link_matches in *. cbn [linkId link_userId]. rewrite E.
    reflexivity.
  - cbn [List.find]. rewrite E. exact IH.
Qed.

Lemma normalizeUserId_standard (d : string) :
  digits d = true -> normalizeUserId ("whatsapp:+" +:+ d) false = d.
Proof.
  unfold digits. intros H. apply andb_true_iff in H as [Hne Hd].
  destruct d as [|c r]; [discriminate Hne|].
  assert (Hc : is_digit c = true).
  { cbn [string_forall] in Hd. apply andb_true_iff in Hd. tauto. }
  unfold normalizeUserId.
  change (String.eqb ("whatsapp:+" +:+ String c r) "") with false. cbn iota.
  change ("whatsapp:+" +:+ String c r) with ("whatsapp:" +:+ String "+" (String c r)).
  rewrite replace_whatsapp_prefix.
  change (replace_whatsapp true (Matching 0) (String "+" (String c r)))
    with (replace_whatsapp true Scanning (String "+" (String c r))).
  rewrite replace_whatsapp_plain.
  - pose proof (dropWhile_pluses 1 c r Hc) as E. exact E.
  - change (string_forall (fun a => (Ascii.eqb a "+" || is_digit a)%bool)
              (String "+" (String c r)))
      with (true && string_forall (fun a => (Ascii.eqb a "+" || is_digit a)%bool)
                      (String c r))%bool.
    cbn [andb]. apply (string_forall_impl is_digit); [|exact Hd].
    intros a Ha. rewrite Ha. apply orb_true_r.
Qed.

(** X24. A report that names a capture link consumes it: once the
    endpoint has handled a report of the user "whatsapp:+d" (d a string
    of digits) with its required fields and a link id, the validity check
    of that link for that user answers AlreadyUsed -- or NotFound if it
    answered so before -- and never again Valid, whatever became of the
    report. *)
Theorem report_consumes_link (req : ReportReq) (lid d : string) (w : World) :
  r_linkId req = Some lid -> lid <> "" ->
  r_userId req = Some ("whatsapp:+" +:+ d) -> digits d = true ->
  truthy_str (r_reportType req) = true ->
  let uid := "whatsapp:+" +:+ d in
  validate env lid uid (snd (api_report env req w))
  = match validate env lid uid w with
    | Some NotFound => Some NotFound
    | _ => Some AlreadyUsed
    end.
Proof.
  intros Hlid Hne Huid Hd Ht. cbn zeta.
  assert (Hl : truthy_str (Some lid) = true).
  { cbn. destruct (String.eqb_spec lid ""); [contradiction|reflexivity]. }
  assert (Hu : truthy_str (r_userId req) = true) by (rewrite Huid; reflexivity).
  rewrite !(validate_spec env lid ("whatsapp:+" +:+ d) _ Hl eq_refl).
  rewrite cleanUserId_for_link_rebuilt.
  unfold find_link. rewrite (api_report_links req w Hu Ht).
  cbn [links_after]. rewrite Hlid, Hl, Huid.
  change (or_str (Some lid) "") with (if String.eqb lid "" then "" else lid).
  destruct (String.eqb_spec lid "") as [E|_]; [contradiction|].
  change (or_str (Some ("whatsapp:+" +:+ d)) "") with ("whatsapp:+" +:+ d).
  rewrite (normalizeUserId_standard d Hd), find_mark_used.
  destruct (List.find (link_matches lid d) (links w)) as [l|]; [|reflexivity].
  cbn [option_map used]. destruct (used l); [reflexivity|].
  destruct (300000 <? Z.abs (now env - createdAt l))%Z; reflexivity.
Qed.

Lemma findDivisionForLocation_none_again (latitude longitude : jsval) (w : World) :
  fst (findDivisionForLocation env latitude longitude w) = Ok None ->
  fst (findDivisionForLocation env latitude longitude
         (snd (findDivisionForLocation env latitude longitude w))) = Ok None.
Proof.
  intros H.
  destruct (truthy latitude) eqn:Tlat.
  2:{ rewrite !findDivisionForLocation_refuses by (left; exact Tlat). reflexivity. }
  destruct (truthy longitude) eqn:Tlng.
  2:{ rewrite !findDivisionForLocation_refuses by (right; left; exact Tlng).
      reflexivity. }
  destruct (parseFloat latitude) as [|lat] eqn:Plat.
  { rewrite !findDivisionForLocation_refuses by (right; right; left; exact Plat).
    reflexivity. }
  destruct (parseFloat longitude) as [|lng] eqn:Plng.
  { rewrite !findDivisionForLocation_refuses by (right; right; right; exact Plng).
    reflexivity. }
  rewrite (findDivisionForLocation_accepted env latitude longitude lat lng w
             Tlat Tlng Plat Plng) in H |- *.
  destruct (locationCache w !! cacheKey lat lng) as [[id name|]|] eqn:Hc; cbn [fst snd] in *.
  - rewrite (findDivisionForLocation_accepted env latitude longitude lat lng _
               Tlat Tlng Plat Plng).
    cbn [locationCache log]. rewrite Hc. exact H.
  - rewrite (findDivisionForLocation_accepted env latitude longitude lat lng _
               Tlat Tlng Plat Plng).
    rewrite Hc. reflexivity.
  - destruct (scan_divisions lng lat (divisions env)) as [d'|]; [discriminate H|].
    cbn [snd].
    rewrite (findDivisionForLocation_accepted env latitude longitude lat lng _
               Tlat Tlng Plat Plng).
    cbn [locationCache log set_cache]. rewrite lookup_insert_eq. reflexivity.
Qed.

(** X25. The location check and the report endpoint agree: asked about a
    coordinate and then given a report (with its required fields) for the
    same coordinate, the endpoint accepts the report exactly when the
    check accepted the coordinate; and when they reject it no report is
    stored. *)
Theorem location_check_agrees_with_report (lat lng : string) (req : ReportReq) (w : World) :
  lat <> "" -> lng <> "" ->
  r_latitude req = JString lat -> r_longitude req = JString lng ->
  truthy_str (r_userId req) = true ->
  truthy_str (r_reportType req) = true ->
  let check := check_location env (Some lat) (Some lng) w in
  let report := api_report env req (snd check) in
  accepts (fst report) = accepts (fst check) /\
  (accepts (fst check) = false -> queries (snd report) = queries (snd check)).
Proof.
  intros Hlat Hlng Rlat Rlng Hu Ht. cbn zeta.
  assert (Tlat : truthy_str (Some lat) = true).
  { cbn. destruct (String.eqb_spec lat ""); [contradiction|reflexivity]. }
  assert (Tlng : truthy_str (Some lng) = true).
  { cbn. destruct (String.eqb_spec lng ""); [contradiction|reflexivity]. }
  assert (Olat : or_str (Some lat) "" = lat).
  { cbn. destruct (String.eqb_spec lat ""); [contradiction|reflexivity]. }
  assert (Olng : or_str (Some lng) "" = lng).
  { cbn. destruct (String.eqb_spec lng ""); [contradiction|reflexivity]. }
  destruct (findDivisionForLocation env (JString lat) (JString lng) w) as [r w1] eqn:Hf.
  pose proof (findDivisionForLocation_fst env (JString lat) (JString lng) w) as Hr.
  rewrite Hf in Hr. cbn [fst] in Hr. subst r.
  assert (Hcheck : exists resp,
            check_location env (Some lat) (Some lng) w = (Ok resp, w1) /\
            accepts (Ok resp)
            = match resolution env (JString lat) (JString lng) (locationCache w) with
              | Some _ => true
              | None => false
              end).
  { unfold check_location, try_catch. rewrite Tlat, Tlng, Olat, Olng.
    cbn [negb orb]. unfold bind. rewrite Hf.
    destruct (resolution env (JString lat) (JString lng) (locationCache w));
      eexists; (split; [reflexivity|reflexivity]). }
  destruct Hcheck as (resp & Hcheck & Hacc). rewrite Hcheck. cbn [fst snd]. rewrite Hacc.
  clear Hcheck Hacc resp.
  destruct (resolution env (JString lat) (JString lng) (locationCache w)) as [d|].
  - destruct (findDivisionForLocation_again _ _ _ _ _ Hf) as (d2 & w2 & H2 & _ & _).
    destruct (api_report_inside req d2 w1 Hu Ht) as [[name Hresp] _].
    { rewrite Rlat, Rlng, H2. reflexivity. }
    rewrite Hresp. split; [reflexivity|discriminate].
  - assert (Hn : resolves_to_none env (r_latitude req) (r_longitude req) w1).
    { unfold resolves_to_none. rewrite Rlat, Rlng.
      pose proof (findDivisionForLocation_none_again (JString lat) (JString lng) w) as Ha.
      rewrite Hf in Ha. apply Ha. reflexivity. }
    destruct (api_report_outside env req w1 (conj Hu (conj Ht Hn)))
      as (Hq & _ & _ & _ & Hresp).
    rewrite Hresp. split; [|intros _; exact Hq].
    destruct (deliver env _ _); reflexivity.
Qed.

(** X26. Requests that lack a required parameter are refused with status
    400 and touch nothing: a report without user id or report type (its
    link is not consumed), a suggestion without description or user id,
    a location check without latitude or longitude, a link check without
    link id or user id. *)
Theorem missing_parameters_rejected (w : World) :
  (forall req,
     (truthy_str (r_userId req) && truthy_str (r_reportType req))%bool = false ->
     api_report env req w = (Ok (mkResponse 400 (json_error "Missing required fields")), w)) /\
  (forall req,
     (truthy_str (s_description req) && truthy_str (s_userId req))%bool = false ->
     api_suggestion env req w
     = (Ok (mkResponse 400 (json_error "Missing required fields")), w)) /\
  (forall lat lng,
     (truthy_str lat && truthy_str lng)%bool = false ->
     resp_status_of (check_location env lat lng w) = Some 400%nat /\
     snd (check_location env lat lng w) = w) /\
  (forall l u,
     (truthy_str l && truthy_str u)%bool = false ->
     resp_status_of (check_link_validity env l u w) = Some 400%nat /\
     snd (check_link_validity env l u w) = w).
Proof.
  repeat split.
  - intros req H. unfold api_report, try_catch.
    destruct (truthy_str (r_userId req)), (truthy_str (r_reportType req));
      try discriminate H; reflexivity.
  - intros req H. unfold api_suggestion, try_catch.
    destruct (truthy_str (s_description req)), (truthy_str (s_userId req));
      try discriminate H; reflexivity.
  - unfold check_location, try_catch.
    destruct (truthy_str lat), (truthy_str lng); try discriminate H; reflexivity.
  - unfold check_location, try_catch.
    destruct (truthy_str lat), (truthy_str lng); try discriminate H; reflexivity.
  - unfold check_link_validity, try_catch.
    destruct (truthy_str l), (truthy_str u); try discriminate H; reflexivity.
  - unfold check_link_validity, try_catch.
    destruct (truthy_str l), (truthy_str u); try discriminate H; reflexivity.
Qed.

Lemma replace_double_prefix_nonempty (s : string) :
  String.eqb s "" = false -> String.eqb (replace_double_prefix s) "" = false.
Proof.
  destruct s as [|c r]; [discriminate|]. intros _. cbn [replace_double_prefix].
  destruct (match after_prefix (String c r) with
            | Some s1 => after_prefix s1
            | None => None
            end); reflexivity.
Qed.

Lemma suggestion_userName_run (userId : string) (w : World) :
  exists name, suggestion_userName userId w = (Ok name, w).
Proof.
  unfold suggestion_userName, try_catch, bind, get.
  destruct (find_session _ w); [eexists; reflexivity|].
  destruct (find_session_like _ w); eexists; reflexivity.
Qed.

(** The background work of a suggestion: the report is saved, then the
    user is thanked; a failure of the message is swallowed. *)
Lemma suggestion_background_run (req : SuggestionReq) (w : World) :
  String.eqb (replace_double_prefix (or_str (s_userId req) "")) "" = false ->
  exists name b,
    let clean := replace_double_prefix (or_str (s_userId req) "") in
    let q :=
      mkQuery (next_id w) clean name "Suggestion" None None None
        (if (truthy_str (s_latitude req) && truthy_str (s_longitude req))%bool then
           Some (mkLocation (parseFloat (JString (or_str (s_latitude req) "")))
                   (parseFloat (JString (or_str (s_longitude req) "")))
                   (or_str (s_address req) "Unknown location"))
         else None)
        (s_description req) None "Pending" (now env) None None false [] in
    suggestion_background env req w
    = (Ok tt,
       log (EvMessage (normalizeUserId clean true)
              "Thank you for your suggestion! We value your feedback and will review it soon."
              b)
         (log (EvQuerySaved q) (set_queries (upsert_query q) (bump_id w)))).
Proof.
  intros Hne. unfold suggestion_background.
  destruct (suggestion_userName_run (or_str (s_userId req) "") w) as (name & Hn).
  rewrite (try_catch_bind_ok _ _ _ _ _ _ Hn).
  rewrite (try_catch_bind_ok fresh_id _ _ w (bump_id w) (next_id w) eq_refl).
  exists name.
  exists (deliver env (normalizeUserId (replace_double_prefix (or_str (s_userId req) "")) true)
            "Thank you for your suggestion! We value your feedback and will review it soon.").
  cbn zeta. unfold sendWhatsAppMessage, save_query, emit. rewrite Hne.
  unfold try_catch, bind, modify, ret. cbn beta iota.
  rewrite messages_create_run.
  destruct (deliver env _ _); reflexivity.
Qed.

(** X27. A suggestion with a description and a user id, whose position
    is absent or is read as two numbers (the schema refuses a position
    that is not a number), is accepted with status 202 and stored as one
    report of type Suggestion, status Pending, without division, wherever
    the position lies: the endpoint resolves no division and does not
    touch the location cache.  The link it names is marked used, and the
    only other effects are the save and one attempt to thank the user,
    whose failure changes nothing. *)
Theorem suggestion_is_stored (req : SuggestionReq) (w : World) :
  truthy_str (s_description req) = true ->
  truthy_str (s_userId req) = true ->
  ((truthy_str (s_latitude req) && truthy_str (s_longitude req))%bool = true ->
   parseFloat (JString (or_str (s_latitude req) "")) <> NaN /\
   parseFloat (JString (or_str (s_longitude req) "")) <> NaN) ->
  let userId := or_str (s_userId req) "" in
  let lid := or_str (s_linkId req) "" in
  let w' := snd (api_suggestion env req w) in
  fst (api_suggestion env req w)
  = Ok (mkResponse 202
          (BJson [("success", JBool true);
                  ("message", JString "Suggestion received. Thank you for your feedback!")])) /\
  exists q b,
    queries w' = upsert_query q (queries w) /\
    query_type q = "Suggestion" /\ description q = s_description req /\
    status q = "Pending" /\ division q = None /\ divisionName q = None /\
    q_user_id q = replace_double_prefix userId /\
    trace w'
    = trace w ++ (if truthy_str (s_linkId req) then [EvLinkUpdated lid] else []) ++
      [EvQuerySaved q;
       EvMessage (normalizeUserId (replace_double_prefix userId) true)
         "Thank you for your suggestion! We value your feedback and will review it soon." b] /\
    locationCache w' = locationCache w /\
    links w' = (if truthy_str (s_linkId req)
                then mark_used env lid (cleanUserId_for_link userId) (links w)
                else links w).
Proof.
  intros Hd Hu _. cbn zeta.
  assert (Hne : String.eqb (replace_double_prefix (or_str (s_userId req) "")) "" = false).
  { apply replace_double_prefix_nonempty.
    destruct (s_userId req) as [u|]; [|discriminate Hu]. cbn in *.
    destruct (String.eqb u "") eqn:E; [discriminate Hu|exact E]. }
  unfold api_suggestion. rewrite Hd, Hu. cbn [negb orb].
  set (w1 := if truthy_str (s_linkId req)
             then log (EvLinkUpdated (or_str (s_linkId req) ""))
                    (set_links (mark_used env (or_str (s_linkId req) "")
                                  (cleanUserId_for_link (or_str (s_userId req) ""))) w)
             else w).
  assert (Hlink : (if truthy_str (s_linkId req) then
                     findOneAndUpdate_used env (or_str (s_linkId req) "")
                       (cleanUserId_for_link (or_str (s_userId req) "")) ;;;
                     ret tt
                   else ret tt) w = (Ok tt, w1)).
  { subst w1. destruct (truthy_str (s_linkId req)); reflexivity. }
  rewrite (try_catch_bind_ok _ _ _ _ _ _ Hlink).
  destruct (suggestion_background_run req w1 Hne) as (name & b & Hbg).
  rewrite (try_catch_bind_ok _ _ _ _ _ _ Hbg).
  unfold try_catch, ret. cbn [fst snd].
  split; [reflexivity|]. eexists. exists b.
  cbn [queries trace locationCache links log set_queries set_links bump_id
       query_type description status division divisionName q_user_id].
  subst w1. destruct (truthy_str (s_linkId req));
    cbn [queries trace locationCache links log set_queries set_links bump_id next_id];
    rewrite <- ?app_assoc; cbn [app]; repeat split; reflexivity.
Qed.

End ReportMore.

Lemma report_inside_is_stored_witness :
  exists name,
    fst (api_report Sample.env_unreachable Sample.report_scenario Sample.empty_world)
    = Ok (mkResponse 200
            (BJson [("success", JBool true);
                    ("requestId", JString (requestId Sample.env_unreachable));
                    ("message", JString "Report processed successfully");
                    ("divisionName", JString name)])).
Proof.
  destruct (report_inside_is_stored Sample.env_unreachable Sample.report_scenario
              Sample.D1_one_officer Sample.empty_world eq_refl eq_refl eq_refl) as [H _].
  - vm_compute. reflexivity.
  - exact H.
Defined.

Lemma report_consumes_link_witness :
  validate Sample.env0 "L1" "whatsapp:+919876543210" (Sample.world_with MENU) = Some Valid /\
  validate Sample.env0 "L1" "whatsapp:+919876543210"
    (snd (api_report Sample.env0 Sample.report_scenario (Sample.world_with MENU)))
  = Some AlreadyUsed.
Proof.
  split; [vm_compute; reflexivity|].
  pose proof (report_consumes_link Sample.env0 Sample.report_scenario "L1" "919876543210"
                (Sample.world_with MENU) eq_refl ltac:(discriminate) eq_refl eq_refl eq_refl)
    as H.
  cbn zeta in H. etransitivity; [exact H|]. vm_compute. reflexivity.
Defined.

Lemma location_check_agrees_with_report_witness :
  accepts (fst (api_report Sample.env0 Sample.report_inside_D1
                  (snd (check_location Sample.env0 (Some "0.5") (Some "0.5")
                          Sample.empty_world)))) = true.
Proof.
  pose proof (location_check_agrees_with_report Sample.env0 "0.5" "0.5"
                Sample.report_inside_D1 Sample.empty_world
                ltac:(discriminate) ltac:(discriminate) eq_refl eq_refl eq_refl eq_refl)
    as H.
  cbn zeta in H. destruct H as [H _].
  etransitivity; [exact H|]. vm_compute. reflexivity.
Defined.

Lemma suggestion_is_stored_witness :
  fst (api_suggestion Sample.env_unreachable Sample.suggestion_from_user
         (Sample.world_with AWAITING_REPORT))
  = Ok (mkResponse 202
          (BJson [("success", JBool true);
                  ("message", JString "Suggestion received. Thank you for your feedback!")])).
Proof.
  apply (suggestion_is_stored Sample.env_unreachable Sample.suggestion_from_user
           (Sample.world_with AWAITING_REPORT) eq_refl eq_refl).
  intros _. split; vm_compute; discriminate.
Defined.

(** ** What the requests never do *)

Section Frames.

(** X28. The web routes never touch the conversation: a report, a
    suggestion, a location check, a link check or a short-link redirect
    leaves every session as it is -- a user who has submitted the capture
    form stays in the state the chat left them in. *)
Theorem web_routes_keep_sessions (env : Env) (r : AnyRequest) (w : World) :
  from_web r = true -> sessions (serve env r w) = sessions w.
Proof.
  intros Hr.
  destruct r as [req|req|req|lat lng|l u|lid|]; try discriminate Hr; cbn [serve].
  - apply (every_api_report env (fun a b => sessions b = sessions a));
      first [ intros a b c H1 H2; congruence | unfold keeps; intros; reflexivity ].
  - apply (every_api_suggestion env (fun a b => sessions b = sessions a));
      first [ intros a b c H1 H2; congruence | unfold keeps; intros; reflexivity ].
  - apply (every_check_location env (fun a b => sessions b = sessions a));
      first [ intros a b c H1 H2; congruence | unfold keeps; intros; reflexivity ].
  - apply (every_check_link_validity env (fun a b => sessions b = sessions a));
      first [ intros a b c H1 H2; congruence | unfold keeps; intros; reflexivity ].
  - apply (every_redirect env (fun a b => sessions b = sessions a));
      first [ intros a b c H1 H2; congruence | unfold keeps; intros; reflexivity ].
Qed.

Lemma extends_request (env : Env) (r : AnyRequest) (w : World) : extends w (serve env r w).
Proof.
  apply (every_request env extends);
    first
      [ exact extends_refl
      | exact extends_trans
      | intros; unfold keeps; intros ?; split; cbn;
        [ first [ exists []; rewrite app_nil_r; reflexivity
                | eexists; reflexivity ]
        | first [ intros ? Hx; exact Hx
                | apply upsert_query_ids
                | rewrite map_map;
                  erewrite map_ext; [intros ? Hx; exact Hx|];
                  intros a; cbn; destruct (_ =? _)%nat; reflexivity ] ] ].
Qed.

(** X29. No request deletes a report: after any sequence of chat events,
    reports, suggestions, checks, redirects and resets, the id of every
    report that was stored is still the id of a stored report. *)
Theorem reports_never_deleted (rs : list (Env * AnyRequest)) (w : World) :
  incl (map query_id (queries w)) (map query_id (queries (serve_all rs w))).
Proof.
  revert w. induction rs as [|[env r] rs IH]; intros w; cbn [serve_all].
  - intros x H. exact H.
  - intros x H. apply IH. apply (extends_request env r w). exact H.
Qed.

End Frames.

Lemma web_routes_keep_sessions_witness :
  option_map current_state
    (find_session "whatsapp:+919876543210"
       (serve Sample.env_one_officer (Report Sample.report_scenario)
          (Sample.world_with AWAITING_REPORT))) = Some AWAITING_REPORT.
Proof.
  unfold find_session.
  rewrite (web_routes_keep_sessions Sample.env_one_officer (Report Sample.report_scenario)
             (Sample.world_with AWAITING_REPORT) eq_refl).
  reflexivity.
Defined.

(** * Which reports are persisted *)

(** ** Saves that satisfy a requirement *)

Section Saves.

Variable G : list Event -> Query -> Prop.
Hypothesis G_mono : forall a pre q, G pre q -> G (a ++ pre) q.

Lemma ok_events_silent (evs : list Event) : silent evs -> ok_events G evs.
Proof.
  intros Hs pre q post ->. exfalso. apply (Hs q).
  apply in_or_app. right. left. reflexivity.
Qed.

Lemma ok_events_app (a b : list Event) :
  ok_events G a -> ok_events G b -> ok_events G (a ++ b).
Proof.
  intros Ha Hb pre q post Heq.
  apply app_eq_app in Heq as (l & [[E1 E2]|[E1 E2]]).
  - destruct l as [|x l].
    + cbn in E2. rewrite app_nil_r in E1. subst a.
      rewrite <- (app_nil_r pre). apply G_mono. exact (Hb [] q post (eq_sym E2)).
    + cbn in E2. injection E2 as <- _. exact (Ha pre q l E1).
  - subst pre. apply G_mono. exact (Hb l q post E2).
Qed.

(** A single report saved between events that save none. *)
Lemma ok_events_single (a b : list Event) (q : Query) :
  silent a -> silent b -> G a q -> ok_events G (a ++ EvQuerySaved q :: b).
Proof.
  intros Ha Hb Hq pre q' post Heq.
  apply app_eq_app in Heq as (l & [[E1 E2]|[E1 E2]]).
  - destruct l as [|x l].
    + cbn in E2. injection E2 as <- _. rewrite app_nil_r in E1. subst pre. exact Hq.
    + cbn in E2. injection E2 as <- _. exfalso. apply (Ha q').
      rewrite E1. apply in_or_app. right. left. reflexivity.
  - destruct l as [|x l].
    + cbn in E2. injection E2 as <- _. rewrite app_nil_r in E1. subst pre. exact Hq.
    + cbn in E2. injection E2 as _ E2. exfalso. apply (Hb q').
      rewrite E2. apply in_or_app. right. left. reflexivity.
Qed.

Lemma ok_rel_refl (w : World) : ok_rel G w w.
Proof.
  exists []. rewrite app_nil_r. split; [reflexivity|].
  apply ok_events_silent, silent_nil.
Qed.

Lemma ok_rel_trans (a b c : World) : ok_rel G a b -> ok_rel G b c -> ok_rel G a c.
Proof.
  intros (e1 & H1 & O1) (e2 & H2 & O2). exists (e1 ++ e2). split.
  - rewrite H2, H1, app_assoc. reflexivity.
  - apply ok_events_app; assumption.
Qed.

Lemma ok_of_quiet (w w' : World) : quiet w w' -> ok_rel G w w'.
Proof.
  intros (evs & H & Hs). exists evs. split; [exact H|apply ok_events_silent, Hs].
Qed.

Lemma ok_of_no_report (w w' : World) : no_report w w' -> ok_rel G w w'.
Proof. intros [_ H]. apply ok_of_quiet, H. Qed.

Lemma ok_of_nr {A} (m : M A) : keeps no_report m -> keeps (ok_rel G) m.
Proof. intros Hm w. apply ok_of_no_report, Hm. Qed.

Lemma ok_save_query (q : Query) : G [] q -> keeps (ok_rel G) (save_query q).
Proof.
  intros Hq w. exists [EvQuerySaved q]. split; [reflexivity|].
  apply (ok_events_single [] [] q silent_nil silent_nil Hq).
Qed.

End Saves.

(** Two saves in one list of events, each between events that save none,
    are the same save. *)
Lemma save_unique (a b pre post : list Event) (q q' : Query) :
  silent a -> silent b ->
  a ++ EvQuerySaved q :: b = pre ++ EvQuerySaved q' :: post ->
  pre = a /\ q' = q /\ post = b.
Proof.
  intros Ha Hb Heq.
  apply app_eq_app in Heq as (l & [[E1 E2]|[E1 E2]]).
  - destruct l as [|x l].
    + cbn in E2. injection E2 as <- <-. rewrite app_nil_r in E1. subst pre. auto.
    + cbn in E2. injection E2 as <- _. exfalso. apply (Ha q').
      rewrite E1. apply in_or_app. right. left. reflexivity.
  - destruct l as [|x l].
    + cbn in E2. injection E2 as <- <-. rewrite app_nil_r in E1. subst pre. auto.
    + cbn in E2. injection E2 as _ E2. exfalso. apply (Hb q').
      rewrite E2. apply in_or_app. right. left. reflexivity.
Qed.

Lemma plain_mono (a pre : list Event) (q : Query) :
  plain_save pre q -> plain_save (a ++ pre) q.
Proof. intros H. exact H. Qed.

(** Steps through a computation that saves reports without location
    only. *)
Ltac plain_step :=
  lazymatch goal with
  | |- keeps (ok_rel plain_save) (bind _ _) =>
      apply (keeps_bind (ok_rel plain_save) (ok_rel_trans plain_save plain_mono)); [|intros ?]
  | |- keeps (ok_rel plain_save) (try_catch _ _) =>
      apply (keeps_try_catch (ok_rel plain_save) (ok_rel_trans plain_save plain_mono));
        [|intros ?]
  | |- keeps (ok_rel plain_save) (ret _) =>
      apply (keeps_ret (ok_rel plain_save) (ok_rel_refl plain_save))
  | |- keeps (ok_rel plain_save) (throw _) =>
      apply (keeps_throw (ok_rel plain_save) (ok_rel_refl plain_save))
  | |- keeps (ok_rel plain_save) (emit _) =>
      apply (ok_of_nr plain_save), nr_emit; intros ?; discriminate
  | |- keeps (ok_rel plain_save) fresh_id => apply (ok_of_nr plain_save), nr_fresh_id
  | |- keeps (ok_rel plain_save) (save_session _) =>
      apply (ok_of_nr plain_save), nr_save_session
  | |- keeps (ok_rel plain_save) (getCaptureUrl _ _ _) =>
      apply (ok_of_nr plain_save), nr_getCaptureUrl
  | |- keeps (ok_rel plain_save) (save_query _) =>
      apply (ok_save_query plain_save); unfold plain_save, plain; cbn;
        repeat split; auto
  | |- keeps (ok_rel plain_save) (if ?b then _ else _) => destruct b
  | |- keeps (ok_rel plain_save) (match ?x with _ => _ end) => destruct x
  end.

(** ** The chat handler *)

Section ChatSaves.

Variable env : Env.

Lemma reached_before_mono (d : Division) (a pre : list Event) (q : Query) :
  reached_before d pre q -> reached_before d (a ++ pre) q.
Proof.
  intros (Hn & Hne & o & body & Ho & Hin).
  split; [exact Hn|]. split; [exact Hne|].
  exists o, body. split; [exact Ho|]. apply in_or_app. right. exact Hin.
Qed.

Lemma chat_save_mono (latitude longitude : option string) (w : World)
    (a pre : list Event) (q : Query) :
  chat_save env latitude longitude w pre q ->
  chat_save env latitude longitude w (a ++ pre) q.
Proof.
  unfold chat_save. destruct (q_location q); [|trivial].
  intros (H1 & H2 & d & H3 & H4 & H5).
  split; [exact H1|]. split; [exact H2|]. exists d.
  split; [exact H3|]. split; [exact H4|]. apply reached_before_mono, H5.
Qed.

Lemma chat_save_cache (latitude longitude : option string) (w w0 : World)
    (pre : list Event) (q : Query) :
  locationCache w0 = locationCache w ->
  chat_save env latitude longitude w0 pre q ->
  chat_save env latitude longitude w pre q.
Proof.
  intros Hc. unfold chat_save. destruct (q_location q); [|trivial].
  intros (H1 & H2 & d & H3 & H4 & H5).
  split; [exact H1|]. split; [exact H2|]. exists d.
  split; [|split; assumption].
  rewrite <- (findDivisionForLocation_cache env _ _ w0 w Hc). exact H3.
Qed.

Lemma plain_chat_save (latitude longitude : option string) (w : World)
    (pre : list Event) (q : Query) :
  plain_save pre q -> chat_save env latitude longitude w pre q.
Proof.
  intros H. unfold chat_save. destruct H as [Hl H]. rewrite Hl.
  split; assumption.
Qed.

(** Every contact the loop adds stands for an officer of the list who has
    received the message. *)
Lemma notify_from_chat_reached (msg : string) (d : Division) (w : World) :
  exists acc w' evs,
    (if (0 <? length (officers d))%nat then
       if (0 <? length (officersToNotify d))%nat then
         notify_from_chat env msg (officersToNotify d) []
       else ret []
     else ret []) w = (Ok acc, w') /\
    trace w' = trace w ++ evs /\ silent evs /\
    forall c, In c acc ->
      exists o, In o (officersToNotify d) /\
        In (EvMessage (normalizeUserId (phone o) true) msg true) evs.
Proof.
  assert (Hnone : exists acc w' evs,
            (Ok (@nil NotifiedContact), w) = (Ok acc, w') /\
            trace w' = trace w ++ evs /\ silent evs /\
            forall c, In c acc ->
              exists o, In o (officersToNotify d) /\
                In (EvMessage (normalizeUserId (phone o) true) msg true) evs).
  { exists [], w, []. rewrite app_nil_r.
    split; [reflexivity|]. split; [reflexivity|]. split; [apply silent_nil|].
    intros c []. }
  destruct (0 <? length (officers d))%nat; [|exact Hnone].
  destruct (0 <? length (officersToNotify d))%nat; [|exact Hnone].
  destruct (notify_from_chat_delivered env msg (officersToNotify d) [] w)
    as (acc & w1 & evs & H1 & Ht & Hs & Hc).
  exists acc, w1, evs. split; [exact H1|]. split; [exact Ht|]. split; [exact Hs|].
  intros c Hin. destruct (Hc c Hin) as [[]|H]. exact H.
Qed.

(** The branch of state AWAITING_LOCATION saves a report only for
    coordinates that resolve, and after an officer has been reached. *)
Lemma awaiting_location_saves (s : Session) (userNumber : string)
    (latitude longitude locationAddress lastOption : option string)
    (userLanguage : string) (v : Vars) (w : World) :
  ok_rel (chat_save env latitude longitude w) w
    (snd (awaiting_location env s userNumber latitude longitude locationAddress
            lastOption userLanguage v w)).
Proof.
  set (G := chat_save env latitude longitude w).
  assert (Gm : forall a pre q, G pre q -> G (a ++ pre) q).
  { intros a pre q. apply chat_save_mono. }
  unfold awaiting_location.
  destruct (truthy_str latitude && truthy_str longitude)%bool eqn:Ht;
    [|apply (ok_rel_refl G)].
  apply andb_true_iff in Ht as [Hlat Hlng].
  pose proof (nr_findDivisionForLocation env (JString (or_str latitude ""))
                (JString (or_str longitude "")) w) as Hres.
  cbv zeta. unfold bind at 1.
  destruct (findDivisionForLocation env (JString (or_str latitude ""))
              (JString (or_str longitude "")) w) as [[[d|]|e] w1] eqn:E;
    cbn [snd] in Hres.
  - (* the coordinates resolve to [d] *)
    apply (ok_rel_trans G Gm w w1); [apply (ok_of_no_report G), Hres|].
    unfold bind at 1. unfold fresh_id at 1. cbn beta iota.
    destruct (notify_from_chat_reached
                (chat_officer_message env "/resolve.html?id=" d
                   (reportType_of_option lastOption) locationAddress
                   (or_str (last_description s) "No description provided")
                   (next_id w1)) d (bump_id w1))
      as (acc & w2 & evs & Hrun & Htr & Hs & Hc).
    rewrite (bind_ok _ _ _ _ _ Hrun).
    destruct (0 <? length acc)%nat eqn:Hlen; cbn [negb].
    + (* an officer was reached: the report is saved *)
      match goal with
      | |- context [bind (save_query ?q) (fun _ => ?k)] =>
          set (newQuery := q);
          pose proof (nr_confirm_report env s d newQuery (reportType_of_option lastOption)
                        (or_str (last_description s) "No description provided")
                        locationAddress userLanguage (newLanguage v)
                        (log (EvQuerySaved newQuery)
                           (set_queries (upsert_query newQuery) w2)))
            as [_ (evs2 & Ht2 & Hs2)]
      end.
      exists (evs ++ EvQuerySaved newQuery :: evs2). split.
      * unfold bind at 1. unfold save_query at 1. unfold bind at 1.
        unfold emit, modify. cbn beta iota.
        rewrite Ht2. cbn [trace log set_queries]. rewrite Htr.
        cbn [trace bump_id]. rewrite <- !app_assoc. reflexivity.
      * apply (ok_events_single G); [exact Hs|exact Hs2|].
        unfold G, chat_save. subst newQuery. cbn [q_location mark_notified].
        split; [exact Hlat|]. split; [exact Hlng|]. exists d.
        split; [rewrite E; reflexivity|].
        split.
        { split; [eexists; reflexivity|]. split; reflexivity. }
        split; [reflexivity|].
        destruct acc as [|c acc]; [discriminate Hlen|].
        split; [discriminate|].
        destruct (Hc c (or_introl eq_refl)) as (o & Ho & Hin).
        exists o. eexists. split; [exact Ho|exact Hin].
    + (* nobody was reached: the rejection *)
      apply (ok_of_quiet G).
      pose proof (nr_reject_location env s userNumber
                    (getText env "NOTIFICATION_FAILED" userLanguage []) (newLanguage v) w2)
        as [_ (evs2 & Ht2 & Hs2)].
      exists (evs ++ evs2). split; [|apply silent_app; assumption].
      rewrite Ht2, Htr. cbn [trace bump_id]. rewrite app_assoc. reflexivity.
  - apply (ok_rel_trans G Gm w w1); [apply (ok_of_no_report G), Hres|].
    apply (ok_of_no_report G). apply nr_reject_location.
  - apply (ok_of_no_report G), Hres.
Qed.

Lemma dispatch_saves (s : Session) (userMessage userNumber : string)
    (latitude longitude locationAddress : option string) (w : World) :
  ok_rel (chat_save env latitude longitude w) w
    (snd (dispatch env s userMessage userNumber latitude longitude locationAddress w)).
Proof.
  assert (Hplain : forall m : M Outcome,
             keeps (ok_rel plain_save) m ->
             ok_rel (chat_save env latitude longitude w) w (snd (m w))).
  { intros m Hm. destruct (Hm w) as (evs & He & Hok). exists evs.
    split; [exact He|]. intros pre q post Heq.
    apply plain_chat_save. exact (Hok pre q post Heq). }
  unfold dispatch. cbv zeta.
  repeat lazymatch goal with
  | |- ok_rel _ _ (snd (awaiting_location _ _ _ _ _ _ _ _ _ _)) =>
      apply awaiting_location_saves
  | |- ok_rel _ _ (snd ((if ?b then _ else _) _)) => destruct b
  | |- ok_rel _ _ (snd ((let '(_, _) := ?x in _) _)) => destruct x
  | |- ok_rel _ _ (snd (?m _)) => apply Hplain; repeat plain_step
  end.
Qed.

Lemma nonempty_truthy (o : option string) :
  truthy_str (nonempty o) = true -> nonempty o = o.
Proof.
  unfold nonempty. destruct (truthy_str o) eqn:E; [reflexivity|].
  intros H. discriminate H.
Qed.

(** The chat handler saves a report with a location only for coordinates
    that resolve, and after an officer has been reached; the other reports
    it saves are suggestions and join requests. *)
Lemma webhook_saves (req : WebhookReq) (w : World) :
  ok_rel (chat_save env (nonempty (Latitude req)) (nonempty (Longitude req)) w) w
    (snd (webhook env req w)).
Proof.
  set (G := chat_save env (nonempty (Latitude req)) (nonempty (Longitude req)) w).
  assert (Gm : forall a pre q, G pre q -> G (a ++ pre) q).
  { intros a pre q. apply chat_save_mono. }
  destruct (webhook_enter_ok env req w) as (s & w0 & Henter & _).
  pose proof (nr_webhook_enter env req w) as Hnr. rewrite Henter in Hnr. cbn [snd] in Hnr.
  pose proof (cache_webhook_enter env req w) as Hc. rewrite Henter in Hc.
  unfold same in Hc. cbn [snd] in Hc.
  pose proof (dispatch_saves s (or_str (Body_ req) "") (or_str (From req) "")
                (nonempty (Latitude req)) (nonempty (Longitude req))
                (nonempty (Address req)) w0) as Hd.
  assert (Hd' : ok_rel G w0
                  (snd (dispatch env s (or_str (Body_ req) "") (or_str (From req) "")
                          (nonempty (Latitude req)) (nonempty (Longitude req))
                          (nonempty (Address req)) w0))).
  { destruct Hd as (evs & He & Hok). exists evs. split; [exact He|].
    intros pre q post Heq. apply (chat_save_cache _ _ w w0 pre q Hc).
    exact (Hok pre q post Heq). }
  clear Hd.
  apply (ok_rel_trans G Gm w w0); [apply (ok_of_no_report G), Hnr|].
  unfold webhook, webhook_body, try_catch. cbv zeta.
  rewrite (bind_ok _ _ _ _ _ Henter). unfold bind at 1.
  destruct (dispatch env s (or_str (Body_ req) "") (or_str (From req) "")
              (nonempty (Latitude req)) (nonempty (Longitude req))
              (nonempty (Address req)) w0) as [[[s' v|r]|e] w1]; cbn [snd] in Hd'.
  - apply (ok_rel_trans G Gm w0 w1); [exact Hd'|].
    apply (ok_of_no_report G).
    assert (Htail : keeps no_report
              (updateUserSession env s' (newState v) (newLastOption v)
                 (Some (newLanguage v)) ;;;
               messages_create env (or_str (From req) "") (responseMessage v) ;;;
               ret (mkResponse 200 empty_twiml))).
    { nr_step; [apply nr_updateUserSession|].
      nr_step; [apply nr_messages_create|nr_step]. }
    specialize (Htail w1).
    destruct ((updateUserSession env s' (newState v) (newLastOption v)
                 (Some (newLanguage v)) ;;;
               messages_create env (or_str (From req) "") (responseMessage v) ;;;
               ret (mkResponse 200 empty_twiml)) w1) as [[a|e] w2]; exact Htail.
  - exact Hd'.
  - exact Hd'.
Qed.

End ChatSaves.

(** ** The report endpoint *)

Section WebSaves.

Variable env : Env.

Lemma bookkeeping_silent (evs : list Event) :
  forallb is_bookkeeping evs = true -> silent evs.
Proof.
  intros H q Hin. rewrite forallb_forall in H. specialize (H _ Hin). discriminate H.
Qed.

Lemma bookkeeping_no_message (evs : list Event) :
  forallb is_bookkeeping evs = true -> existsb is_message evs = false.
Proof.
  induction evs as [|e evs IH]; [reflexivity|].
  cbn [forallb existsb]. intros H. apply andb_true_iff in H as [He Hr].
  rewrite (IH Hr). destruct e; try reflexivity; discriminate He.
Qed.

Lemma attempts_silent (msg : string) (tos : list string) : silent (attempts env msg tos).
Proof.
  intros q H. unfold attempts in H. apply in_map_iff in H as (to & H & _). discriminate H.
Qed.

Lemma after_save_silent (d : Division) (q : Query) : silent (after_save env d q).
Proof.
  unfold after_save. intros q' [H|H]; [discriminate H|].
  destruct (deliver env _ _).
  - apply in_app_or in H as [H|H].
    + apply in_flat_map in H as (o & _ & H). exact (attempts_silent _ _ q' H).
    + destruct (0 <? _)%nat; [destruct H as [H|[]]; discriminate H|destruct H].
  - destruct H as [H|[]]. discriminate H.
Qed.

(** The resolution never fails; its events are bookkeeping. *)
Lemma findDivisionForLocation_events (latitude longitude : jsval) (w : World) :
  exists r w' evs,
    findDivisionForLocation env latitude longitude w = (Ok r, w') /\
    trace w' = trace w ++ evs /\ forallb is_bookkeeping evs = true.
Proof.
  assert (Hno : findDivisionForLocation env latitude longitude w = (Ok None, w) ->
          exists r w' evs,
            findDivisionForLocation env latitude longitude w = (Ok r, w') /\
            trace w' = trace w ++ evs /\ forallb is_bookkeeping evs = true).
  { intros H. exists None, w, []. rewrite app_nil_r. auto. }
  destruct (truthy latitude) eqn:Tlat;
    [|apply Hno, findDivisionForLocation_refuses; left; exact Tlat].
  destruct (truthy longitude) eqn:Tlng;
    [|apply Hno, findDivisionForLocation_refuses; right; left; exact Tlng].
  destruct (parseFloat latitude) as [|lat] eqn:Plat;
    [apply Hno, findDivisionForLocation_refuses; right; right; left; exact Plat|].
  destruct (parseFloat longitude) as [|lng] eqn:Plng;
    [apply Hno, findDivisionForLocation_refuses; right; right; right; exact Plng|].
  clear Hno.
  rewrite (findDivisionForLocation_accepted env latitude longitude lat lng w
             Tlat Tlng Plat Plng).
  destruct (locationCache w !! cacheKey lat lng) as [[id name|]|].
  - eexists. eexists. exists [EvDivisionFindById id]. split; [reflexivity|].
    split; reflexivity.
  - eexists. exists w, []. rewrite app_nil_r. split; [reflexivity|]. split; reflexivity.
  - destruct (scan_divisions lng lat (divisions env)).
    + eexists. eexists. exists [EvDivisionFind]. split; [reflexivity|]. split; reflexivity.
    + eexists. eexists. exists [EvDivisionFind]. split; [reflexivity|]. split; reflexivity.
Qed.

Lemma report_failed_run (userId error : string) (w : World) :
  exists pr w',
    report_failed env userId error w = (Ok pr, w') /\
    trace w'
    = trace w ++
      [EvMessage (normalizeUserId (normalizeUserId userId true) true)
         (getText env "REPORT_ERROR" "en" [])
         (deliver env (normalizeUserId (normalizeUserId userId true) true)
            (getText env "REPORT_ERROR" "en" []))].
Proof.
  unfold report_failed, try_catch, bind.
  rewrite sendWhatsAppMessage_clean, messages_create_run.
  destruct (deliver env _ _); eexists; eexists; split; reflexivity.
Qed.

(** What follows the save in [processReportInBackground]. *)
Lemma saved_then_processed (userId : string) (q : Query) (d : Division)
    (pr : ProcessingResult) (w : World) :
  q_user_id q = normalizeUserId userId true ->
  exists pr' w',
    try_catch
      (save_query q ;;;
       sendWhatsAppMessage env (normalizeUserId userId true)
         (thank_you (query_type q) (division_name d)) ;;;
       notifiedContacts <- notifyDivisionOfficers env q (Some d) ;;
       (if (0 <? length notifiedContacts)%nat
        then update_notified (query_id q) notifiedContacts
        else ret tt) ;;;
       ret pr)
      (fun error => report_failed env userId error) w = (Ok pr', w') /\
    trace w' = trace w ++ EvQuerySaved q :: after_save env d q.
Proof.
  intros Hu. unfold after_save. rewrite Hu.
  unfold try_catch, bind, save_query. unfold bind, emit, modify. cbn beta iota.
  rewrite sendWhatsAppMessage_clean, messages_create_run.
  destruct (deliver env (normalizeUserId (normalizeUserId userId true) true)
              (thank_you (query_type q) (division_name d))).
  - rewrite notifyDivisionOfficers_run. cbn [officers_addressed notification_text].
    destruct (0 <? length _)%nat.
    + eexists. eexists. split; [reflexivity|].
      cbn. rewrite <- !app_assoc. reflexivity.
    + eexists. eexists. split; [reflexivity|].
      cbn. rewrite <- !app_assoc, app_nil_r. reflexivity.
  - destruct (report_failed_run userId "message not accepted"
                (log (EvMessage (normalizeUserId (normalizeUserId userId true) true)
                        (thank_you (query_type q) (division_name d)) false)
                   (log (EvQuerySaved q) (set_queries (upsert_query q) w))))
      as (pr' & w' & Hr & Ht).
    exists pr', w'. split; [exact Hr|].
    rewrite Ht. cbn. rewrite <- !app_assoc. reflexivity.
Qed.

(** What follows the save in [processReportWithoutImage]. *)
Lemma saved_then_processed_plain (userId : string) (q : Query) (d : Division)
    (pr : ProcessingResult) (w : World) :
  q_user_id q = normalizeUserId userId true ->
  exists pr' w',
    try_catch
      (save_query q ;;;
       sendWhatsAppMessage env (normalizeUserId userId true)
         (thank_you (query_type q) (division_name d)) ;;;
       (notifiedContacts <- notifyDivisionOfficers env q (Some d) ;;
        if (0 <? length notifiedContacts)%nat
        then update_notified (query_id q) notifiedContacts
        else ret tt) ;;;
       ret pr)
      (fun error => report_failed env userId error) w = (Ok pr', w') /\
    trace w' = trace w ++ EvQuerySaved q :: after_save env d q.
Proof.
  intros Hu. unfold after_save. rewrite Hu.
  unfold try_catch, bind, save_query. unfold bind, emit, modify. cbn beta iota.
  rewrite sendWhatsAppMessage_clean, messages_create_run.
  destruct (deliver env (normalizeUserId (normalizeUserId userId true) true)
              (thank_you (query_type q) (division_name d))).
  - rewrite notifyDivisionOfficers_run. cbn [officers_addressed notification_text].
    destruct (0 <? length _)%nat.
    + eexists. eexists. split; [reflexivity|].
      cbn. rewrite <- !app_assoc. reflexivity.
    + eexists. eexists. split; [reflexivity|].
      cbn. rewrite <- !app_assoc, app_nil_r. reflexivity.
  - destruct (report_failed_run userId "message not accepted"
                (log (EvMessage (normalizeUserId (normalizeUserId userId true) true)
                        (thank_you (query_type q) (division_name d)) false)
                   (log (EvQuerySaved q) (set_queries (upsert_query q) w))))
      as (pr' & w' & Hr & Ht).
    exists pr', w'. split; [exact Hr|].
    rewrite Ht. cbn. rewrite <- !app_assoc. reflexivity.
Qed.

Lemma processReportInBackground_saves (file : string) (latitude longitude : jsval)
    (description : option string) (userId reportType : string) (address : option string)
    (d : Division) (w w1 : World) :
  findDivisionForLocation env latitude longitude w = (Ok (Some d), w1) ->
  processing env latitude longitude d w
    (processReportInBackground env file latitude longitude description userId reportType
       address w).
Proof.
  intros Hd.
  destruct (findDivisionForLocation_events latitude longitude w)
    as (r0 & w0 & e0 & H0 & He0 & Hb0).
  rewrite Hd in H0. injection H0 as _ <-.
  unfold processReportInBackground. cbv zeta.
  rewrite (try_catch_bind_ok _ _ _ _ _ _ Hd).
  assert (Hup : exists u e,
            try_catch
              (match uploadImageToR2 env file with
               | Some url => emit (EvUpload file true) ;;; ret (Some url)
               | None => emit (EvUpload file false) ;;; throw "upload failed"
               end) (fun _ => ret None) w1 = (Ok u, log e w1) /\
            is_bookkeeping e = true).
  { destruct (uploadImageToR2 env file); eexists; eexists; split; reflexivity. }
  destruct Hup as (u & e & Hup & Hbe).
  rewrite (try_catch_bind_ok _ _ _ _ _ _ Hup).
  destruct (lookup_userName_run (normalizeUserId userId true) (log e w1)) as (name & Hn).
  rewrite (try_catch_bind_ok _ _ _ _ _ _ Hn).
  rewrite (try_catch_bind_ok fresh_id _ _ (log e w1) (bump_id (log e w1))
             (next_id (log e w1)) eq_refl).
  match goal with
  | |- processing _ _ _ _ _ (try_catch (save_query ?q ;;; _) _ ?ws) =>
      destruct (saved_then_processed userId q d
                  (mkProcessingResult true (Some (query_id q)) (Some (division_name d)) None)
                  ws eq_refl) as (pr & w' & Hr & Ht);
      exists pr, (e0 ++ [e]), q
  end.
  cbn [query_type query_id] in Hr. rewrite Hr. cbn [fst snd].
  split; [reflexivity|]. split.
  { rewrite Ht. cbn [trace bump_id log]. rewrite He0, <- !app_assoc. reflexivity. }
  split; [rewrite forallb_app, Hb0; cbn; rewrite Hbe; reflexivity|].
  split; [|split; reflexivity].
  split; [eexists; reflexivity|]. split; reflexivity.
Qed.

Lemma processReportWithoutImage_saves (latitude longitude : jsval)
    (description : option string) (userId reportType : string) (address : option string)
    (d : Division) (w w1 : World) :
  findDivisionForLocation env latitude longitude w = (Ok (Some d), w1) ->
  processing env latitude longitude d w
    (processReportWithoutImage env latitude longitude description userId reportType
       address w).
Proof.
  intros Hd.
  destruct (findDivisionForLocation_events latitude longitude w)
    as (r0 & w0 & e0 & H0 & He0 & Hb0).
  rewrite Hd in H0. injection H0 as _ <-.
  unfold processReportWithoutImage. cbv zeta.
  assert (Ht : (truthy latitude && truthy longitude)%bool = true).
  { apply (findDivisionForLocation_some env latitude longitude w d).
    rewrite Hd. reflexivity. }
  rewrite Ht.
  assert (H1 : (division <- findDivisionForLocation env latitude longitude ;;
                match division with
                | Some d0 =>
                    ret (inl (Some d0, division_name d0)
                         : (option Division * string) + ProcessingResult)
                | None =>
                    sendWhatsAppMessage env (normalizeUserId userId true)
                      (getText env "LOCATION_OUTSIDE_JURISDICTION" "en" []) ;;;
                    ret (inr outside_result)
                end) w = (Ok (inl (Some d, division_name d)), w1)).
  { unfold bind. rewrite Hd. reflexivity. }
  rewrite (try_catch_bind_ok _ _ _ _ _ _ H1).
  destruct (lookup_userName_run (normalizeUserId userId true) w1) as (name & Hn).
  rewrite (try_catch_bind_ok _ _ _ _ _ _ Hn).
  rewrite (try_catch_bind_ok fresh_id _ _ w1 (bump_id w1) (next_id w1) eq_refl).
  cbn beta iota. cbn [option_map].
  match goal with
  | |- processing _ _ _ _ _ (try_catch (save_query ?q ;;; _) _ ?ws) =>
      destruct (saved_then_processed_plain userId q d
                  (mkProcessingResult true (Some (query_id q)) (Some (division_name d)) None)
                  ws eq_refl) as (pr & w' & Hr & Htr);
      exists pr, e0, q
  end.
  cbn [query_type query_id] in Hr. rewrite Hr. cbn [fst snd].
  split; [reflexivity|]. split.
  { rewrite Htr. cbn [trace bump_id]. rewrite He0, <- !app_assoc. reflexivity. }
  split; [exact Hb0|].
  split; [|split; reflexivity].
  split; [eexists; reflexivity|]. split; reflexivity.
Qed.

Hypothesis ids_unique : NoDup (map division_id (divisions env)).

Lemma same_id_same_division (a b : Division) :
  In a (divisions env) -> In b (divisions env) ->
  division_id a = division_id b -> a = b.
Proof.
  intros Ha Hb E.
  pose proof (findById_unique (divisions env) a ids_unique Ha) as Fa.
  pose proof (findById_unique (divisions env) b ids_unique Hb) as Fb.
  rewrite E in Fa. rewrite Fa in Fb. injection Fb as Fb. exact Fb.
Qed.

(** The report endpoint saves at most one report: for coordinates that
    resolve, before anything is sent. *)
Lemma api_report_saves (req : ReportReq) (w : World) :
  exists evs,
    trace (snd (api_report env req w)) = trace w ++ evs /\
    (silent evs \/
     exists d pre q,
       evs = pre ++ EvQuerySaved q :: after_save env d q /\
       forallb is_bookkeeping pre = true /\
       placed env (WebReport req) w d q /\
       divisionNotified q = false /\ divisionOfficersNotified q = []).
Proof.
  unfold api_report.
  destruct (negb (truthy_str (r_userId req)) || negb (truthy_str (r_reportType req)))%bool.
  { exists []. rewrite app_nil_r. split; [reflexivity|]. left. apply silent_nil. }
  cbv zeta.
  rewrite (try_catch_bind_ok _ _ _ _ _ _ (consume_link_run env req w)).
  set (w1 := if truthy_str (r_linkId req)
             then log (EvLinkUpdated (or_str (r_linkId req) ""))
                    (set_links (mark_used env (or_str (r_linkId req) "")
                                  (normalizeUserId (or_str (r_userId req) "") false)) w)
             else w).
  assert (Hc1 : locationCache w1 = locationCache w).
  { subst w1. destruct (truthy_str (r_linkId req)); reflexivity. }
  assert (He1 : exists e1, trace w1 = trace w ++ e1 /\ forallb is_bookkeeping e1 = true).
  { subst w1. destruct (truthy_str (r_linkId req)).
    - eexists [_]. split; reflexivity.
    - exists []. rewrite app_nil_r. split; reflexivity. }
  destruct He1 as (e1 & He1 & Hb1).
  destruct (findDivisionForLocation_events (r_latitude req) (r_longitude req) w1)
    as (r & w2 & e2 & H1 & He2 & Hb2).
  rewrite (try_catch_bind_ok _ _ _ _ _ _ H1).
  destruct r as [d|].
  - (* the coordinates resolve *)
    destruct (findDivisionForLocation_again env _ _ _ _ _ H1) as (d2 & w3 & H2 & Hid & _).
    assert (Hd2 : d2 = d).
    { apply same_id_same_division; [| |exact Hid].
      - apply (findDivisionForLocation_some env (r_latitude req) (r_longitude req) w2 d2).
        rewrite H2. reflexivity.
      - apply (findDivisionForLocation_some env (r_latitude req) (r_longitude req) w1 d).
        rewrite H1. reflexivity. }
    subst d2.
    assert (HP : processing env (r_latitude req) (r_longitude req) d w2
                   (match r_file req with
                    | Some file =>
                        processReportInBackground env file (r_latitude req) (r_longitude req)
                          (r_description req) (or_str (r_userId req) "")
                          (or_str (r_reportType req) "") (r_address req)
                    | None =>
                        processReportWithoutImage env (r_latitude req) (r_longitude req)
                          (r_description req) (or_str (r_userId req) "")
                          (or_str (r_reportType req) "") (r_address req)
                    end w2)).
    { destruct (r_file req) as [file|].
      - exact (processReportInBackground_saves _ _ _ _ _ _ _ d w2 w3 H2).
      - exact (processReportWithoutImage_saves _ _ _ _ _ _ d w2 w3 H2). }
    destruct HP as (pr & pre & q & Hf & Htr & Hb & Hs & Hn & Hc).
    match goal with
    | |- context [try_catch (bind ?m _) _ w2] =>
        destruct (m w2) as [rp w'] eqn:Hm
    end.
    cbn [fst snd] in Hf, Htr. subst rp.
    rewrite (try_catch_bind_ok _ _ _ _ _ _ Hm).
    unfold try_catch, ret. cbn [fst snd].
    exists (e1 ++ e2 ++ pre ++ EvQuerySaved q :: after_save env d q).
    split; [rewrite Htr, He2, He1, <- !app_assoc; reflexivity|].
    right. exists d, (e1 ++ e2 ++ pre), q.
    split; [rewrite <- !app_assoc; reflexivity|].
    split; [rewrite !forallb_app, Hb1, Hb2, Hb; reflexivity|].
    split; [|split; assumption].
    split; [|exact Hs].
    cbn [coordinates fst snd].
    rewrite <- (findDivisionForLocation_cache env _ _ w1 w Hc1), H1. reflexivity.
  - (* they do not: the user is told, nothing is saved *)
    assert (Hout : keeps no_report
              (try_catch
                 (sendWhatsAppMessage env (normalizeUserId (or_str (r_userId req) "") true)
                    (getText env "LOCATION_OUTSIDE_JURISDICTION" "en" []) ;;;
                  ret outside_response)
                 (fun error =>
                    try_catch
                      (sendWhatsAppMessage env
                         (normalizeUserId (or_str (r_userId req) "") true)
                         (getText env "REPORT_ERROR" "en" []) ;;; ret tt)
                      (fun _ => ret tt) ;;;
                    ret (mkResponse 500 (json_error error))))).
    { nr_step.
      - nr_step; [apply nr_sendWhatsAppMessage|nr_step].
      - nr_step; [|nr_step]. nr_step; [|nr_step].
        nr_step; [apply nr_sendWhatsAppMessage|nr_step]. }
    destruct (Hout w2) as [_ (e3 & He3 & Hs3)].
    exists (e1 ++ e2 ++ e3). split.
    + rewrite He3, He2, He1, <- !app_assoc. reflexivity.
    + left. apply silent_app; [apply bookkeeping_silent, Hb1|].
      apply silent_app; [apply bookkeeping_silent, Hb2|exact Hs3].
Qed.

End WebSaves.

(** ** Every route *)

Section Persisted.

Variable env : Env.

(** C1, as the code has it.  Division ids being unique, every report
    with a location that the chat handler or the report endpoint saves
    carries the position read from the coordinates of the request and the
    id and the name of the division that [findDivisionForLocation] answers
    for these coordinates.  On the chat route the save comes after the
    notification was delivered to one of the officers of that division,
    and the report is saved with [divisionNotified = true] and a
    non-empty list of officers notified.  The report endpoint saves
    first, with [divisionNotified = false] and no officer notified: no
    message is sent before the save; after it the user is thanked, the
    officers are notified and, when one of them was reached, the report is
    updated.  A report saved without location is a suggestion or a join
    request of the chat route, under no division. *)
Theorem persisted_location_report (r : Request) (w : World)
    (pre post : list Event) (q : Query) :
  NoDup (map division_id (divisions env)) ->
  trace (snd (handle env r w)) = trace w ++ pre ++ EvQuerySaved q :: post ->
  match q_location q with
  | Some _ =>
      exists d,
        placed env r w d q /\
        match r with
        | ChatEvent _ => reached_before d pre q
        | WebReport _ => saved_first env d pre q post
        end
  | None => from_chat r = true /\ plain q
  end.
Proof.
  intros Hids Ht. destruct r as [req|req]; cbn [handle] in Ht.
  - destruct (webhook_saves env req w) as (evs & He & Hok).
    rewrite He in Ht. apply app_inv_head in Ht.
    pose proof (Hok pre q post Ht) as H. unfold chat_save in H.
    destruct (q_location q) as [l|] eqn:Hl.
    + destruct H as (Hlat & Hlng & d & Hres & Hs & Hr).
      rewrite (nonempty_truthy _ Hlat), (nonempty_truthy _ Hlng) in Hres, Hs.
      exists d. split; [|exact Hr]. split; [exact Hres|exact Hs].
    + split; [reflexivity|exact H].
  - destruct (api_report_saves env Hids req w) as (evs & He & [Hs|H]).
    + exfalso. rewrite He in Ht. apply app_inv_head in Ht.
      apply (Hs q). rewrite Ht. apply in_or_app. right. left. reflexivity.
    + destruct H as (d & pre0 & q0 & Hevs & Hb & Hp & Hn & Hc).
      rewrite He, Hevs in Ht. apply app_inv_head in Ht.
      destruct (save_unique pre0 (after_save env d q0) pre post q0 q
                  (bookkeeping_silent _ Hb) (after_save_silent env d q0) Ht)
        as (-> & -> & ->).
      destruct Hp as [Hres Hs].
      destruct (q_location q0) as [l|] eqn:Hl.
      * exists d. split; [split; assumption|].
        split; [exact Hn|]. split; [exact Hc|].
        split; [apply bookkeeping_no_message, Hb|reflexivity].
      * destruct Hs as [[a Ha] _]. rewrite Hl in Ha. discriminate Ha.
Qed.

End Persisted.

(** The scenario of the design document with one active officer: the
    report is saved for the division of the point, after the officer has
    been reached. *)
Lemma persisted_location_report_witness :
  exists d,
    placed Sample.env_one_officer (ChatEvent (Sample.location_from_user "18.62" "73.80"))
      (Sample.world_with AWAITING_LOCATION) d Sample.scenario_report /\
    reached_before d Sample.scenario_before Sample.scenario_report.
Proof.
  assert (Hids : NoDup (map division_id (divisions Sample.env_one_officer))).
  { cbn. apply NoDup_singleton. }
  assert (Ht : trace (snd (handle Sample.env_one_officer
                             (ChatEvent (Sample.location_from_user "18.62" "73.80"))
                             (Sample.world_with AWAITING_LOCATION)))
               = trace (Sample.world_with AWAITING_LOCATION) ++
                 Sample.scenario_before ++
                 EvQuerySaved Sample.scenario_report :: Sample.scenario_after).
  { vm_compute. reflexivity. }
  pose proof (persisted_location_report Sample.env_one_officer
                (ChatEvent (Sample.location_from_user "18.62" "73.80"))
                (Sample.world_with AWAITING_LOCATION)
                Sample.scenario_before Sample.scenario_after Sample.scenario_report
                Hids Ht) as H.
  revert H. destruct (q_location Sample.scenario_report) eqn:E.
  - intros H. exact H.
  - vm_compute in E. discriminate E.
Defined.
